(** * PRD fire-case sizing: a shallow embedding of the numerical core

    The Python sources compute on [float]s.  Numbers are modelled here as
    real numbers (finite and never NaN), so every comparison, sum and
    product is the exact one; [math.sqrt], [math.asin], [math.cos] and
    [**] with a fractional exponent are the real functions [sqrt], [asin],
    [cos] and [Rpower].  Exceptions are values of a [result] type.  A loop
    over [range(steps)] is a fold over [seq 0 steps]; [steps] is a natural
    number where the sources pass an [int] that is not negative.  Where a
    step count reaches a division unvalidated, as in
    [head_wetted_area_up_to], a count of 0 raises [ZeroDivisionError]. *)

From Stdlib Require Import Reals Lra Lia List String ZArith Psatz Bool.
Import ListNotations.
Open Scope R_scope.

(** ** Python values as the code inspects them *)

(** A numeric argument is only ever tested with [is None] and passed to
    [float()]: it is [None], something [float()] accepts (with the float it
    yields), or something [float()] rejects with TypeError or ValueError. *)
Inductive pynum : Type :=
| PyNone
| PyNum (x : R)
| PyNotNum.

(** A text argument: [None], a [str], or an object of another class. *)
Inductive pytext : Type :=
| TextNone
| Text (s : string)
| NotText.

(** The exceptions raised by the core: the [ValueError]s, one constructor per
    message with the values that the message interpolates, the [KeyError]
    of a failed dictionary lookup, and the [ZeroDivisionError] of a division
    by a step count of 0. *)
Inductive exn : Type :=
| Required (what : string)
| NotANumber (what : string)
| Negative (what : string) (got : R)
| NotPositive (what : string) (got : R)
| UnexpectedCombination (A P : R)
| NoOrificeLargeEnough (A_required : R) (max_letter : string) (max_area : R)
| KNotAboveOne (k : R)
| AccumulationAbove100 (got : R)
| OrientationRequired
| UnsupportedOrientation (got : string)
| BadHeadType
| HeadTypeRequired
| NotAnInteger (what : string)
| BelowMinimum (what : string) (min_val got : Z)
| ThicknessNotBelowRadius (thickness_mm radius_mm : R)
| CapacityExceeded (fill_volume capacity : R)
| HeadRequired
| ShellHeightNegative
| KeyError (key : string)
| ZeroDivisionError.

Inductive result (A : Type) : Type :=
| Ok (a : A)
| Raise (e : exn).
Arguments Ok {A} a.
Arguments Raise {A} e.

Definition bind {A B : Type} (m : result A) (k : A -> result B) : result B :=
  match m with
  | Ok a => k a
  | Raise e => Raise e
  end.

Notation "x <- m ;; k" := (bind m (fun x => k))
  (at level 61, m at next level, right associativity).

Definition returns {A : Type} (m : result A) : Prop := exists a, m = Ok a.

(** Comparisons of floats, as booleans. *)
Module Cmp.
Definition ltb (x y : R) : bool := if Rlt_dec x y then true else false.
Definition leb (x y : R) : bool := if Rle_dec x y then true else false.
Definition eqb (x y : R) : bool := if Req_dec_T x y then true else false.
Definition gtb (x y : R) : bool := ltb y x.
Definition geb (x y : R) : bool := leb y x.
End Cmp.

Infix "<?" := Cmp.ltb (at level 70, no associativity) : R_scope.
Infix "<=?" := Cmp.leb (at level 70, no associativity) : R_scope.
Infix "=?" := Cmp.eqb (at level 70, no associativity) : R_scope.
Infix ">?" := Cmp.gtb (at level 70, no associativity) : R_scope.
Infix ">=?" := Cmp.geb (at level 70, no associativity) : R_scope.

(** [x ** y] for a positive base and a float exponent. *)
Definition py_pow (x y : R) : R := Rpower x y.

(** ** fire/api2000.py *)
Module api2000.

Definition heat_load_api2000 (A_wetted_m2 P_design_barg : pynum) : result R :=
  match A_wetted_m2 with
  | PyNone => Raise (Required "Wetted area (A_wetted_m2)")
  | PyNotNum => Raise (NotANumber "Wetted area")
  | PyNum A =>
    if A <? 0 then Raise (Negative "Wetted area" A)
    else if A =? 0 then Ok 0
    else
      match P_design_barg with
      | PyNone => Raise (Required "Design pressure (P_design_barg)")
      | PyNotNum => Raise (NotANumber "Design pressure")
      | PyNum P =>
        if P >? 1.034 then Ok (10800 * A)
        else if A <? 18.6 then Ok (63150 * A)
        else if (18.6 <=? A) && (A <? 93) then Ok (224200 * py_pow A 0.566)
        else if (93 <=? A) && (A <? 260) then Ok (630400 * py_pow A 0.338)
        else if (A >=? 260) && (P >=? 0.07) then Ok (43200 * py_pow A 0.82)
        else if (A >=? 260) && (P <? 0.07) then Ok 4129700
        else Raise (UnexpectedCombination A P)
      end
  end.

End api2000.

(** ** flow/evaporation.py *)
Module evaporation.

Definition evaporation_rate (Q_dot_W h_fg_J_per_kg : pynum) : result R :=
  match Q_dot_W with
  | PyNone => Raise (Required "Heat load (Q_dot_W)")
  | PyNotNum => Raise (NotANumber "Heat load")
  | PyNum Q =>
    if Q <? 0 then Raise (Negative "Heat load" Q)
    else if Q =? 0 then Ok 0
    else
      match h_fg_J_per_kg with
      | PyNone => Raise (Required "Enthalpy of vaporization (h_fg_J_per_kg)")
      | PyNotNum => Raise (NotANumber "Enthalpy of vaporization")
      | PyNum h_fg =>
        if h_fg <=? 0 then Raise (NotPositive "Enthalpy of vaporization" h_fg)
        else Ok (Q / h_fg)
      end
  end.

Definition evaporation_rate_kg_per_hr (Q_dot_W h_fg_J_per_kg : pynum) : result R :=
  r <- evaporation_rate Q_dot_W h_fg_J_per_kg ;;
  Ok (r * 3600).

End evaporation.

(** ** flow/pressures.py *)
Module pressures.

Definition _validate_positive (value : pynum) (name : string) : result R :=
  match value with
  | PyNone => Raise (Required name)
  | PyNotNum => Raise (NotANumber name)
  | PyNum v => if v <=? 0 then Raise (NotPositive name v) else Ok v
  end.

Definition _validate_non_negative (value : pynum) (name : string) : result R :=
  match value with
  | PyNone => Raise (Required name)
  | PyNotNum => Raise (NotANumber name)
  | PyNum v => if v <? 0 then Raise (Negative name v) else Ok v
  end.

Definition max_accumulation (MAWP_psig accumulation_percent : pynum) : result R :=
  MAWP <- _validate_positive MAWP_psig "MAWP (psig)" ;;
  accum <- _validate_non_negative accumulation_percent "Accumulation percent" ;;
  if accum >? 100 then Raise (AccumulationAbove100 accum)
  else Ok (MAWP * (accum / 100)).

Definition relieving_pressure (MAWP_psig atm_psia accumulation_psig : pynum) : result R :=
  MAWP <- _validate_positive MAWP_psig "MAWP (psig)" ;;
  atm <- _validate_positive atm_psia "Atmospheric pressure (psia)" ;;
  accum <- _validate_non_negative accumulation_psig "Accumulation (psig)" ;;
  Ok (MAWP + accum + atm).

Definition critical_downstream_pressure (P1_psia k : pynum) : result R :=
  P1 <- _validate_positive P1_psia "Relieving pressure (P1_psia)" ;;
  match k with
  | PyNone => Raise (Required "Specific heat ratio (k)")
  | PyNotNum => Raise (NotANumber "Specific heat ratio")
  | PyNum k =>
    if k <=? 1 then Raise (KNotAboveOne k)
    else
      let ratio := py_pow (2 / (k + 1)) (k / (k - 1)) in
      Ok (ratio * P1)
  end.

Definition downstream_pressure (P_back_psig atm_psia : pynum) : result R :=
  P_back <- _validate_non_negative P_back_psig "Backpressure (psig)" ;;
  atm <- _validate_positive atm_psia "Atmospheric pressure (psia)" ;;
  Ok (P_back + atm).

Definition is_critical (P1_psia P_back_psig atm_psia k : pynum) : result bool :=
  P_crit <- critical_downstream_pressure P1_psia k ;;
  P_down <- downstream_pressure P_back_psig atm_psia ;;
  Ok (P_crit >? P_down).

End pressures.

(** ** sizing/orifice.py *)
Module orifice.

(** A [dict] with [str] keys, in insertion order. *)
Definition dict : Type := list (string * R).

Fixpoint getitem (d : dict) (key : string) : result R :=
  match d with
  | [] => Raise (KeyError key)
  | (k, v) :: d' => if String.eqb k key then Ok v else getitem d' key
  end.

Definition API_ORIFICES : dict :=
  [ ("D", 0.110); ("E", 0.196); ("F", 0.307); ("G", 0.503); ("H", 0.785);
    ("J", 1.287); ("K", 1.838); ("L", 2.853); ("M", 3.600); ("N", 4.454);
    ("P", 6.380); ("Q", 11.050); ("R", 16.000); ("T", 26.000) ]%string.

Definition API_INLET_SIZES : dict :=
  [ ("D", 1.0); ("E", 1.0); ("F", 1.5); ("G", 1.5); ("H", 2.0);
    ("J", 3.0); ("K", 3.0); ("L", 4.0); ("M", 4.0); ("N", 4.0);
    ("P", 6.0); ("Q", 6.0); ("R", 8.0); ("T", 8.0) ]%string.

(** [max] of a non-empty sequence of floats. *)
Definition py_max (xs : list R) : R :=
  match xs with
  | [] => 0
  | x :: xs' => fold_left Rmax xs' x
  end.

Definition MAX_ORIFICE_AREA : R := py_max (map snd API_ORIFICES).

Definition get_orifice_diameter (area_in2 : R) : R :=
  2 * sqrt (area_in2 / PI).

(** [sorted(d.items(), key=lambda x: x[1])]: a stable sort, by insertion. *)
Fixpoint insert_by_value (x : string * R) (l : dict) : dict :=
  match l with
  | [] => [x]
  | y :: l' => if snd x <? snd y then x :: l else y :: insert_by_value x l'
  end.

Definition sorted_by_value (d : dict) : dict :=
  fold_left (fun acc x => insert_by_value x acc) d [].

Record selection : Type := {
  letter : string;
  area_in2 : R;
  diameter_in : R;
  inlet_size_in : R
}.

(** The [for letter, area in ...] loop of [select_orifice], with the
    [raise] that follows it. *)
Fixpoint scan (A_required_in2 : R) (items : dict) : result selection :=
  match items with
  | [] => Raise (NoOrificeLargeEnough A_required_in2 "T" MAX_ORIFICE_AREA)
  | (letter, area) :: rest =>
    if area >=? A_required_in2 then
      inlet <- getitem API_INLET_SIZES letter ;;
      Ok {| letter := letter; area_in2 := area;
            diameter_in := get_orifice_diameter area; inlet_size_in := inlet |}
    else scan A_required_in2 rest
  end.

Definition select_orifice (A_required_in2 : pynum) : result selection :=
  match A_required_in2 with
  | PyNone => Raise (Required "Required area")
  | PyNotNum => Raise (NotANumber "Required area")
  | PyNum A =>
    if A <? 0 then Raise (Negative "Required area" A)
    else if A =? 0 then
      area <- getitem API_ORIFICES "D" ;;
      inlet <- getitem API_INLET_SIZES "D" ;;
      Ok {| letter := "D"; area_in2 := area;
            diameter_in := get_orifice_diameter area; inlet_size_in := inlet |}
    else scan A (sorted_by_value API_ORIFICES)
  end.

End orifice.

(** ** sizing/prd.py: the criticality decision *)
Module prd.

Definition is_critical_flow (P1_psia P_back_psig atm_psia k : pynum) : result bool :=
  P_crit <- pressures.critical_downstream_pressure P1_psia k ;;
  P_down <- pressures.downstream_pressure P_back_psig atm_psia ;;
  Ok (P_crit >? P_down).

End prd.

(** ** geometry/heads.py *)
Module heads.

Definition _validate_head_dimensions (diameter thickness : pynum) : result (R * R) :=
  match diameter with
  | PyNone => Raise (Required "Diameter")
  | PyNotNum => Raise (NotANumber "Diameter")
  | PyNum diameter =>
    if diameter <=? 0 then Raise (NotPositive "Diameter" diameter)
    else
      match thickness with
      | PyNone => Raise (Required "Thickness")
      | PyNotNum => Raise (NotANumber "Thickness")
      | PyNum thickness =>
        if thickness <? 0 then Raise (Negative "Thickness" thickness)
        else if thickness >=? diameter / 2
             then Raise (ThicknessNotBelowRadius (thickness * 1000) (diameter / 2 * 1000))
             else Ok (diameter, thickness)
      end
  end.

(** The attributes of an [ASMEFDHead] or [Elliptical2to1Head] instance. *)
Record torispherical : Type := {
  diameter : R;
  thickness : R;
  major : R;
  minor : R;
  crown_radius : R;
  knuckle_radius : R;
  radius : R;
  c_height_offset : R;
  c_radius_offset : R;
  k_height_offset : R;
  k_radius_offset : R;
  h1 : R;
  h2 : R;
  h3 : R
}.

(** The attributes of a [HemisphericalHead] instance. *)
Record hemispherical : Type := {
  hs_diameter : R;
  hs_thickness : R;
  hs_radius : R;
  head_depth : R;
  hs_h1 : R;
  hs_h2 : R
}.

Inductive head : Type :=
| ASMEFDHead (g : torispherical)
| Elliptical2to1Head (g : torispherical)
| HemisphericalHead (g : hemispherical).

(** [__post_init__] of [ASMEFDHead] and of [Elliptical2to1Head], after
    the validation of the two dimensions: the derived attributes.  The two
    bodies differ in the proportions [major] and [minor] only. *)
Definition torispherical_geometry (major minor diameter thickness : R) : torispherical :=
  let Rc_ext := major * diameter in
  let Rk_ext := minor * diameter in
  let R_ext := diameter / 2 in
  let a_ext := Rc_ext - Rk_ext in
  let b_ext := R_ext - Rk_ext in
  let rp2_ext := (diameter - 2 * Rk_ext) / 2 in
  let hp2_ext := Rc_ext - sqrt (a_ext ^ 2 - b_ext ^ 2) in
  let alpha_ext := asin (rp2_ext / (Rc_ext - Rk_ext)) in
  {| diameter := diameter;
     thickness := thickness;
     major := major;
     minor := minor;
     crown_radius := Rc_ext - thickness;
     knuckle_radius := Rk_ext - thickness;
     radius := R_ext - thickness;
     c_height_offset := Rc_ext;
     c_radius_offset := 0;
     k_height_offset := hp2_ext;
     k_radius_offset := rp2_ext;
     h1 := 0;
     h2 := Rc_ext - cos alpha_ext * Rc_ext;
     h3 := hp2_ext |}.

Definition torispherical_post_init (major minor : R) (diameter thickness : pynum)
  : result torispherical :=
  dt <- _validate_head_dimensions diameter thickness ;;
  Ok (torispherical_geometry major minor (fst dt) (snd dt)).

Definition new_ASMEFDHead (diameter thickness : pynum) : result head :=
  g <- torispherical_post_init 1.00 0.06 diameter thickness ;;
  Ok (ASMEFDHead g).

Definition new_Elliptical2to1Head (diameter thickness : pynum) : result head :=
  g <- torispherical_post_init 0.90 0.17 diameter thickness ;;
  Ok (Elliptical2to1Head g).

Definition new_HemisphericalHead (diameter thickness : pynum) : result head :=
  dt <- _validate_head_dimensions diameter thickness ;;
  let diameter := fst dt in
  let thickness := snd dt in
  let radius := diameter / 2 - thickness in
  Ok (HemisphericalHead
        {| hs_diameter := diameter;
           hs_thickness := thickness;
           hs_radius := radius;
           head_depth := radius;
           hs_h1 := 0;
           hs_h2 := radius |}).

(** Attribute access shared by the three classes. *)
Definition head_h1 (hd : head) : R :=
  match hd with
  | ASMEFDHead g | Elliptical2to1Head g => h1 g
  | HemisphericalHead g => hs_h1 g
  end.

Definition head_h2 (hd : head) : R :=
  match hd with
  | ASMEFDHead g | Elliptical2to1Head g => h2 g
  | HemisphericalHead g => hs_h2 g
  end.

Definition head_radius (hd : head) : R :=
  match hd with
  | ASMEFDHead g | Elliptical2to1Head g => radius g
  | HemisphericalHead g => hs_radius g
  end.

(** [getattr(head, "h3", head.h2)]. *)
Definition getattr_h3 (hd : head) : R :=
  match hd with
  | ASMEFDHead g | Elliptical2to1Head g => h3 g
  | HemisphericalHead g => hs_h2 g
  end.

Definition torispherical_radius_at_height (g : torispherical) (h : R) : R :=
  if h <=? h2 g then
    let val := crown_radius g ^ 2 - (h - c_height_offset g) ^ 2 in
    sqrt (Rmax val 0) + c_radius_offset g
  else if h <=? h3 g then
    let val := knuckle_radius g ^ 2 - (h - k_height_offset g) ^ 2 in
    sqrt (Rmax val 0) + k_radius_offset g
  else radius g.

Definition hemispherical_radius_at_height (g : hemispherical) (h : R) : R :=
  if h <=? hs_h2 g then
    let val := hs_radius g ^ 2 - (hs_radius g - h) ^ 2 in
    sqrt (Rmax val 0)
  else hs_radius g.

Definition radius_at_height (hd : head) (h : R) : R :=
  match hd with
  | ASMEFDHead g | Elliptical2to1Head g => torispherical_radius_at_height g h
  | HemisphericalHead g => hemispherical_radius_at_height g h
  end.

Definition area_at_height (hd : head) (h : R) : R :=
  let r := radius_at_height hd h in
  PI * r ^ 2.

(** [volume_up_to(h, steps)]: the loop adds one slab per [i] in
    [range(steps)].  [steps] is a positive [int] at every call in the
    sources (the default 500). *)
Definition volume_up_to (hd : head) (h : R) (steps : nat) : R :=
  let dh := (h - head_h1 hd) / INR steps in
  fold_left
    (fun total i =>
       let hi := head_h1 hd + INR i * dh in
       total + area_at_height hd hi * dh)
    (seq 0 steps) 0.

Definition default_steps : nat := 500.

Definition max_head_volume (hd : head) : R :=
  volume_up_to hd (getattr_h3 hd) default_steps.

End heads.

(** ** geometry/vessel.py *)
Module vessel.
Import heads.

(** An [int] argument as [int()] sees it. *)
Inductive pyint : Type :=
| PyInt (n : Z)
| PyNotInt.

Definition _validate_positive (value : pynum) (name : string) : result R :=
  match value with
  | PyNone => Raise (Required name)
  | PyNotNum => Raise (NotANumber name)
  | PyNum val => if val <=? 0 then Raise (NotPositive name val) else Ok val
  end.

Definition _validate_non_negative (value : pynum) (name : string) : result R :=
  match value with
  | PyNone => Raise (Required name)
  | PyNotNum => Raise (NotANumber name)
  | PyNum val => if val <? 0 then Raise (Negative name val) else Ok val
  end.

Definition _validate_positive_int (value : pyint) (name : string) (min_val : Z)
  : result Z :=
  match value with
  | PyNotInt => Raise (NotAnInteger name)
  | PyInt val => if (val <? min_val)%Z then Raise (BelowMinimum name min_val val)
                 else Ok val
  end.

Definition valid_head_types : list string :=
  [ "ASME_FD"; "Ellipsoidal"; "Hemispherical" ]%string.

(** [x in valid_head_types] for an arbitrary object [x]. *)
Definition in_valid_head_types (head_type : pytext) : bool :=
  match head_type with
  | Text s => existsb (String.eqb s) valid_head_types
  | _ => false
  end.

Definition _build_head (head_type : pytext) (OD_m thickness_mm : pynum) : result head :=
  match head_type with
  | TextNone | NotText => Raise HeadTypeRequired
  | Text head_type =>
    OD_m <- _validate_positive OD_m "Outer diameter (OD_m)" ;;
    thickness_mm <- _validate_non_negative thickness_mm "Wall thickness (thickness_mm)" ;;
    let thickness_m := thickness_mm / 1000 in
    if thickness_m >=? OD_m / 2
    then Raise (ThicknessNotBelowRadius thickness_mm (OD_m / 2 * 1000))
    else if String.eqb head_type "ASME_FD"
         then new_ASMEFDHead (PyNum OD_m) (PyNum thickness_m)
    else if String.eqb head_type "Ellipsoidal"
         then new_Elliptical2to1Head (PyNum OD_m) (PyNum thickness_m)
    else if String.eqb head_type "Hemispherical"
         then new_HemisphericalHead (PyNum OD_m) (PyNum thickness_m)
    else Raise BadHeadType
  end.

(** [x / n] for a float [x] and an [int] [n]: a zero divisor raises. *)
Definition py_div_int (x : R) (n : nat) : result R :=
  if Nat.eqb n 0 then Raise ZeroDivisionError else Ok (x / INR n).

(** [head_wetted_area_up_to]: the division by [steps], then the loop, one
    band of the surface of revolution per [i] in [range(steps)]. *)
Definition head_wetted_area_up_to (h : R) (hd : head) (steps : nat) : result R :=
  let h_low := head_h1 hd in
  let h_high := Rmin h (getattr_h3 hd) in
  if h <=? h_low then Ok 0
  else
    dh <- py_div_int (h_high - h_low) steps ;;
    Ok (fold_left
          (fun total i =>
             let hi := h_low + INR i * dh in
             let r := radius_at_height hd hi in
             let h_forward := Rmin (hi + 0.00001) h_high in
             let r_forward := radius_at_height hd h_forward in
             let dr_dh := if h_forward =? hi then 0
                          else (r_forward - r) / (h_forward - hi) in
             let dA := 2 * PI * r * sqrt (1 + dr_dh ^ 2) * dh in
             total + dA)
          (seq 0 steps) 0).

Definition wetted_area_up_to_height
    (H : pynum) (hd : option head) (shell_height : pynum) (steps : nat) : result R :=
  match hd with
  | None => Raise HeadRequired
  | Some hd =>
    match H with
    | PyNone | PyNotNum => Raise (NotANumber "Height (H)")
    | PyNum H =>
      if H <? 0 then Ok 0
      else
        match shell_height with
        | PyNone | PyNotNum => Raise (NotANumber "Shell height")
        | PyNum shell_height =>
          if shell_height <? 0 then Raise ShellHeightNegative
          else
            let R := head_radius hd in
            let H_head := getattr_h3 hd in
            let H_shell := shell_height in
            if H <=? H_head then head_wetted_area_up_to H hd steps
            else if H <=? H_head + H_shell then
              A_head_bottom <- head_wetted_area_up_to H_head hd steps ;;
              let h_cyl := H - H_head in
              let A_cyl := 2 * PI * R * h_cyl in
              Ok (A_head_bottom + A_cyl)
            else
              A_head_bottom <- head_wetted_area_up_to H_head hd steps ;;
              let A_cyl := 2 * PI * R * H_shell in
              let h_in_top := H - (H_head + H_shell) in
              A_head_top <- head_wetted_area_up_to h_in_top hd steps ;;
              Ok (A_head_bottom + A_cyl + A_head_top)
        end
    end
  end.

(** The bisection of [solve_height_in_head]: [steps] halvings of
    [low, high], never leaving early. *)
Fixpoint bisect (V_target : R) (hd : head) (steps : nat) (low high : R) : R * R :=
  match steps with
  | O => (low, high)
  | S steps' =>
    let mid := 0.5 * (low + high) in
    let V_mid := volume_up_to hd mid default_steps in
    if V_mid <? V_target
    then bisect V_target hd steps' mid high
    else bisect V_target hd steps' low mid
  end.

Definition solve_height_in_head (V_target : R) (hd : head) (steps : nat) : R :=
  let low := head_h1 hd in
  let high := getattr_h3 hd in
  let '(low, high) := bisect V_target hd steps low high in
  0.5 * (low + high).

Definition liquid_height_from_volume (V_m3 : R) (hd : head) (shell_height_m : R) : R :=
  let V_head := max_head_volume hd in
  let A_cyl := PI * head_radius hd ^ 2 in
  let H_head := getattr_h3 hd in
  let H_shell := shell_height_m in
  if V_m3 <=? V_head then solve_height_in_head V_m3 hd 40
  else
    let V_rem := V_m3 - V_head in
    if V_rem <=? A_cyl * H_shell then
      let h_cyl := V_rem / A_cyl in
      H_head + h_cyl
    else
      let V_rem := V_rem - A_cyl * H_shell in
      let h_in_top := solve_height_in_head V_rem hd 40 in
      H_head + H_shell + h_in_top.

(** The [dict] that [wetted_area_from_fill_volume] returns. *)
Record fill_result : Type := {
  liquid_height_m : R;
  liquid_height_exposed_m : R;
  wetted_area_m2 : R
}.

(** The body of [wetted_area_from_fill_volume].  The routine it calls to
    integrate the wetted area is left open as [area_up_to], so that one can
    say on which paths the result depends on it. *)
Definition wetted_area_from_fill_volume_body
    (area_up_to : pynum -> option head -> pynum -> nat -> result R)
    (orientation head_type : pytext)
    (L_tangent_m OD_m thickness_mm bottom_height_m fire_height_m fill_volume_m3 : pynum)
    (steps : pyint) : result fill_result :=
  match orientation with
  | TextNone | NotText => Raise OrientationRequired
  | Text orientation =>
    if negb (String.eqb orientation "Vertical")
    then Raise (UnsupportedOrientation orientation)
    else if negb (in_valid_head_types head_type) then Raise BadHeadType
    else
      OD_m <- _validate_positive OD_m "Error with Outer Diameter input" ;;
      thickness_mm <- _validate_non_negative thickness_mm "Error with Shell Thickness input" ;;
      L_tangent_m <- _validate_non_negative L_tangent_m "Error with Shell Height input" ;;
      bottom_height_m <- _validate_non_negative bottom_height_m
                           "Error with Surface to Vessel Bottom Height input" ;;
      fire_height_m <- _validate_non_negative fire_height_m "Error with Fire Height input" ;;
      fill_volume_m3 <- _validate_non_negative fill_volume_m3
                          "Error with Normal Fill Volume input" ;;
      steps <- _validate_positive_int steps "Integration steps" 10 ;;
      let thickness_m := thickness_mm / 1000 in
      if thickness_m >=? OD_m / 2
      then Raise (ThicknessNotBelowRadius thickness_mm (OD_m / 2 * 1000))
      else
        hd <- _build_head head_type (PyNum OD_m) (PyNum thickness_mm) ;;
        let V_head := max_head_volume hd in
        let R := head_radius hd in
        let A_cyl := PI * R ^ 2 in
        let V_max := V_head * 2 + A_cyl * L_tangent_m in
        if fill_volume_m3 >? V_max
        then Raise (CapacityExceeded fill_volume_m3 V_max)
        else
          let liquid_height_m := liquid_height_from_volume fill_volume_m3 hd L_tangent_m in
          let fire_limit_from_vessel_bottom := fire_height_m - bottom_height_m in
          if fire_limit_from_vessel_bottom <=? 0 then
            Ok {| liquid_height_m := liquid_height_m;
                  liquid_height_exposed_m := 0;
                  wetted_area_m2 := 0 |}
          else
            let liquid_height_exposed_m :=
              Rmin liquid_height_m fire_limit_from_vessel_bottom in
            wetted_area_m2 <- area_up_to (PyNum liquid_height_exposed_m) (Some hd)
                                (PyNum L_tangent_m) (Z.to_nat steps) ;;
            Ok {| liquid_height_m := liquid_height_m;
                  liquid_height_exposed_m := liquid_height_exposed_m;
                  wetted_area_m2 := wetted_area_m2 |}
  end.

Definition wetted_area_from_fill_volume :=
  wetted_area_from_fill_volume_body wetted_area_up_to_height.

(** The two other entry points of the file. *)
Definition wetted_area_firecase
    (orientation head_type : pytext)
    (L_tangent_m OD_m thickness_mm bottom_height_m fire_height_m : pynum)
    (steps : pyint) : result R :=
  match orientation with
  | TextNone | NotText => Raise OrientationRequired
  | Text orientation =>
    if negb (String.eqb orientation "Vertical")
    then Raise (UnsupportedOrientation orientation)
    else if negb (in_valid_head_types head_type) then Raise BadHeadType
    else
      OD_m <- _validate_positive OD_m "Outer diameter (OD_m)" ;;
      thickness_mm <- _validate_non_negative thickness_mm "Wall thickness (thickness_mm)" ;;
      L_tangent_m <- _validate_non_negative L_tangent_m "Tangent length (L_tangent_m)" ;;
      bottom_height_m <- _validate_non_negative bottom_height_m
                           "Bottom height (bottom_height_m)" ;;
      fire_height_m <- _validate_non_negative fire_height_m "Fire height (fire_height_m)" ;;
      steps <- _validate_positive_int steps "Integration steps" 10 ;;
      let thickness_m := thickness_mm / 1000 in
      if thickness_m >=? OD_m / 2
      then Raise (ThicknessNotBelowRadius thickness_mm (OD_m / 2 * 1000))
      else
        hd <- _build_head head_type (PyNum OD_m) (PyNum thickness_mm) ;;
        let H_liquid := fire_height_m - bottom_height_m in
        if H_liquid <=? 0 then Ok 0
        else
          let H_head := getattr_h3 hd in
          let H_total := H_head + L_tangent_m + H_head in
          let H_liquid := Rmin H_liquid H_total in
          wetted_area_up_to_height (PyNum H_liquid) (Some hd) (PyNum L_tangent_m)
            (Z.to_nat steps)
  end.

Definition wetted_area_from_volume
    (V_m3 : pynum) (hd : option head) (shell_height_m : pynum) (steps : pyint)
    : result R :=
  V_m3 <- _validate_non_negative V_m3 "Volume (V_m3)" ;;
  shell_height_m <- _validate_non_negative shell_height_m "Shell height (shell_height_m)" ;;
  steps <- _validate_positive_int steps "Integration steps" 10 ;;
  match hd with
  | None => Raise HeadRequired
  | Some hd =>
    let H := liquid_height_from_volume V_m3 hd shell_height_m in
    wetted_area_up_to_height (PyNum H) (Some hd) (PyNum shell_height_m) (Z.to_nat steps)
  end.

End vessel.

(** ** Values and exceptions of the remaining modules *)

(** An argument that is used as a flag: [None], a [bool], a number, a [str]
    (with the text that [.lower().strip()] makes of it), or another object
    (with its [bool()]). *)
Inductive pyflag : Type :=
| FlagNone
| FlagBool (b : bool)
| FlagNum (x : R)
| FlagStr (lowered_stripped : string)
| FlagObj (truth : bool).

(** The exceptions of the modules below: those already listed in [exn], and
    one constructor for each further message. *)
Inductive failure : Type :=
| Earlier (e : exn)
| KUnusuallyHigh (k : R)
| ShouldNotExceed (what : string) (max_val got : R)
| ZUnusuallyHigh (Z : R)
| DenominatorZero
| BackpressureNotBelowRelieving (P2_psia P1_psia : R)
| PressureDifferenceNotPositive
| PressureRatioOutOfRange (r : R)
| BelowAbsoluteZero (T_C : R)
| AbsolutePressureNotPositive (gauge absolute : R)
| FirefightingNotTrueFalse (got : string)
| FireStandardRequired
| UnknownFireStandard (got : string).

Inductive outcome (A : Type) : Type :=
| Returned (a : A)
| Raised (f : failure).
Arguments Returned {A} a.
Arguments Raised {A} f.

(** A call into one of the modules above. *)
Definition call {A : Type} (r : result A) : outcome A :=
  match r with
  | Ok a => Returned a
  | Raise e => Raised (Earlier e)
  end.

Definition and_then {A B : Type} (m : outcome A) (k : A -> outcome B) : outcome B :=
  match m with
  | Returned a => k a
  | Raised f => Raised f
  end.

Notation "x <~ m ;; k" := (and_then m (fun x => k))
  (at level 61, m at next level, right associativity).

(** [x in (s1, s2, ...)] for a [str]. *)
Definition str_in (s : string) (choices : list string) : bool :=
  existsb (String.eqb s) choices.

(** ** fire/api520.py *)
Module api520.

Definition heat_load_api520 (A_wetted : pynum) (firefighting : pyflag) : outcome R :=
  match A_wetted with
  | PyNone => Raised (Earlier (Required "Wetted area (A_wetted)"))
  | PyNotNum => Raised (Earlier (NotANumber "Wetted area"))
  | PyNum A =>
    if A <? 0 then Raised (Earlier (Negative "Wetted area" A))
    else if A =? 0 then Returned 0
    else
      firefighting <~
        match firefighting with
        | FlagNone => Raised (Earlier (Required "Firefighting parameter"))
        | FlagBool b => Returned b
        | FlagStr lower =>
            if str_in lower ["true"; "1"; "yes"]%string then Returned true
            else if str_in lower ["false"; "0"; "no"]%string then Returned false
            else Raised (FirefightingNotTrueFalse lower)
        | FlagNum x => Returned (negb (x =? 0))
        | FlagObj truth => Returned truth
        end ;;
      let C := if firefighting : bool then 43200 else 70900 in
      Returned (C * py_pow A 0.82)
  end.

End api520.

(** ** flow/area.py *)
Module area.

Definition _validate_k (k : pynum) : outcome R :=
  match k with
  | PyNone => Raised (Earlier (Required "Specific heat ratio (k)"))
  | PyNotNum => Raised (Earlier (NotANumber "Specific heat ratio"))
  | PyNum k =>
    if k <=? 1 then Raised (Earlier (KNotAboveOne k))
    else if k >? 2 then Raised (KUnusuallyHigh k)
    else Returned k
  end.

Definition _validate_positive (value : pynum) (name : string) : outcome R :=
  match value with
  | PyNone => Raised (Earlier (Required name))
  | PyNotNum => Raised (Earlier (NotANumber name))
  | PyNum value => if value <=? 0 then Raised (Earlier (NotPositive name value))
                   else Returned value
  end.

Definition _validate_non_negative (value : pynum) (name : string) : outcome R :=
  match value with
  | PyNone => Raised (Earlier (Required name))
  | PyNotNum => Raised (Earlier (NotANumber name))
  | PyNum value => if value <? 0 then Raised (Earlier (Negative name value))
                   else Returned value
  end.

Definition _validate_factor (value : pynum) (name : string) (min_val max_val : R)
  : outcome R :=
  value <~ _validate_positive value name ;;
  if value >? max_val then Raised (ShouldNotExceed name max_val value)
  else Returned value.

Definition C_gas (k : pynum) : outcome R :=
  k <~ _validate_k k ;;
  Returned (520 * sqrt (k * py_pow (2 / (k + 1)) ((k + 1) / (k - 1)))).

Definition F2_subcritical (k r : pynum) : outcome R :=
  k <~ _validate_k k ;;
  match r with
  | PyNone => Raised (Earlier (Required "Pressure ratio (r)"))
  | PyNotNum => Raised (Earlier (NotANumber "Pressure ratio"))
  | PyNum r =>
    if (r <=? 0) || (r >=? 1) then Raised (PressureRatioOutOfRange r)
    else
      let num := (k / (k - 1)) * py_pow r k *
                 ((1 - py_pow r ((k - 1) / k)) / (1 - r)) in
      Returned (sqrt num)
  end.

Definition required_area_critical_gas
    (W_lb_per_hr k T_R Z M_lb_per_lbmol P1_psia Kd Kb Kc : pynum) : outcome R :=
  W_lb_per_hr <~ _validate_non_negative W_lb_per_hr "Mass flowrate (W_lb_per_hr)" ;;
  if W_lb_per_hr =? 0 then Returned 0
  else
    k <~ _validate_k k ;;
    T_R <~ _validate_positive T_R "Temperature (R)" ;;
    Z <~ _validate_positive Z "Compressibility factor (Z)" ;;
    if Z >? 2 then Raised (ZUnusuallyHigh Z)
    else
      M_lb_per_lbmol <~ _validate_positive M_lb_per_lbmol "Molecular weight (M)" ;;
      P1_psia <~ _validate_positive P1_psia "Relieving pressure (P1_psia)" ;;
      Kd <~ _validate_factor Kd "Discharge coefficient (Kd)" 0 1 ;;
      Kb <~ _validate_factor Kb "Backpressure factor (Kb)" 0 1 ;;
      Kc <~ _validate_factor Kc "Combination factor (Kc)" 0 1 ;;
      C <~ C_gas (PyNum k) ;;
      let num := W_lb_per_hr * sqrt (T_R * Z / M_lb_per_lbmol) in
      let den := C * Kd * P1_psia * Kb * Kc in
      if den =? 0 then Raised DenominatorZero
      else Returned (num / den).

Definition required_area_subcritical_gas
    (W_lb_per_hr k T_R Z M_lb_per_lbmol P1_psia P2_psia Kd Ke : pynum) : outcome R :=
  W_lb_per_hr <~ _validate_non_negative W_lb_per_hr "Mass flowrate (W_lb_per_hr)" ;;
  if W_lb_per_hr =? 0 then Returned 0
  else
    k <~ _validate_k k ;;
    T_R <~ _validate_positive T_R "Temperature (R)" ;;
    Z <~ _validate_positive Z "Compressibility factor (Z)" ;;
    if Z >? 2 then Raised (ZUnusuallyHigh Z)
    else
      M_lb_per_lbmol <~ _validate_positive M_lb_per_lbmol "Molecular weight (M)" ;;
      P1_psia <~ _validate_positive P1_psia "Relieving pressure (P1_psia)" ;;
      P2_psia <~ _validate_positive P2_psia "Backpressure (P2_psia)" ;;
      if P2_psia >=? P1_psia then Raised (BackpressureNotBelowRelieving P2_psia P1_psia)
      else
        Kd <~ _validate_factor Kd "Discharge coefficient (Kd)" 0 1 ;;
        Ke <~ _validate_factor Ke "Environmental factor (Ke)" 0 2 ;;
        let r := P2_psia / P1_psia in
        F2 <~ F2_subcritical (PyNum k) (PyNum r) ;;
        let pressure_diff := P1_psia - P2_psia in
        if pressure_diff <=? 0 then Raised PressureDifferenceNotPositive
        else
          let num := W_lb_per_hr *
                     sqrt (Z * T_R / (M_lb_per_lbmol * P1_psia * pressure_diff)) in
          let den := 735 * F2 * Kd * Ke in
          if den =? 0 then Raised DenominatorZero
          else Returned (num / den).

Definition kg_per_hr_to_lb_per_hr (m_kg_per_hr : R) : R :=
  m_kg_per_hr * 2.2046226218.

End area.

(** ** utils/units.py *)
Module units.

Definition _safe_float (value : pynum) (name : string) : outcome R :=
  match value with
  | PyNone => Raised (Earlier (Required name))
  | PyNotNum => Raised (Earlier (NotANumber name))
  | PyNum x => Returned x
  end.

Definition kg_hr_to_lb_hr (m_kg_hr : pynum) : outcome R :=
  m_kg_hr <~ _safe_float m_kg_hr "Mass flow (kg/hr)" ;;
  if m_kg_hr <? 0 then Raised (Earlier (Negative "Mass flow" m_kg_hr))
  else Returned (m_kg_hr * 2.2046226218).

Definition lb_hr_to_kg_hr (m_lb_hr : pynum) : outcome R :=
  m_lb_hr <~ _safe_float m_lb_hr "Mass flow (lb/hr)" ;;
  if m_lb_hr <? 0 then Raised (Earlier (Negative "Mass flow" m_lb_hr))
  else Returned (m_lb_hr / 2.2046226218).

Definition C_to_K (T_C : pynum) : outcome R :=
  T_C <~ _safe_float T_C "Temperature (C)" ;;
  if T_C <? -273.15 then Raised (BelowAbsoluteZero T_C)
  else Returned (T_C + 273.15).

Definition C_to_R (T_C : pynum) : outcome R :=
  T_C <~ _safe_float T_C "Temperature (C)" ;;
  if T_C <? -273.15 then Raised (BelowAbsoluteZero T_C)
  else Returned ((T_C + 273.15) * 9 / 5).

Definition K_to_R (T_K : pynum) : outcome R :=
  T_K <~ _safe_float T_K "Temperature (K)" ;;
  if T_K <? 0 then Raised (Earlier (Negative "Temperature in Kelvin" T_K))
  else Returned (T_K * 9 / 5).

Definition barg_to_psia (P_barg : pynum) : outcome R :=
  P_barg <~ _safe_float P_barg "Pressure (barg)" ;;
  let P_bara := P_barg + 1.01325 in
  if P_bara <=? 0 then Raised (AbsolutePressureNotPositive P_barg P_bara)
  else Returned (P_bara * 14.5037738).

Definition psig_to_psia (P_psig : pynum) : outcome R :=
  P_psig <~ _safe_float P_psig "Pressure (psig)" ;;
  let P_psia := P_psig + 14.7 in
  if P_psia <=? 0 then Raised (AbsolutePressureNotPositive P_psig P_psia)
  else Returned P_psia.

Definition kJ_per_kg_to_J_per_kg (h_kJ_kg : pynum) : outcome R :=
  h_kJ_kg <~ _safe_float h_kJ_kg "Enthalpy (kJ/kg)" ;;
  if h_kJ_kg <? 0 then Raised (Earlier (Negative "Enthalpy of vaporization" h_kJ_kg))
  else Returned (h_kJ_kg * 1000).

End units.

(** ** sizing/prd.py: the dispatcher and the master function *)
Module sizing.

Definition VALID_FIRE_STANDARDS : list string := [ "API2000"; "API520" ]%string.

(** The two helpers of this file are the ones of flow/pressures.py, line
    for line. *)
Definition _validate_positive (value : pynum) (name : string) : outcome R :=
  call (pressures._validate_positive value name).

Definition _validate_non_negative (value : pynum) (name : string) : outcome R :=
  call (pressures._validate_non_negative value name).

Definition fire_heat_load
    (standard : pytext) (A_wetted_m2 P_design_barg : pynum) (firefighting : pyflag)
    : outcome R :=
  match standard with
  | TextNone | NotText => Raised FireStandardRequired
  | Text standard =>
    if negb (str_in standard VALID_FIRE_STANDARDS) then Raised (UnknownFireStandard standard)
    else
      A_wetted_m2 <~ _validate_non_negative A_wetted_m2 "Wetted area (A_wetted_m2)" ;;
      if String.eqb standard "API2000"
      then call (api2000.heat_load_api2000 (PyNum A_wetted_m2) P_design_barg)
      else if String.eqb standard "API520"
      then api520.heat_load_api520 (PyNum A_wetted_m2) firefighting
      else Raised (UnknownFireStandard standard)
  end.

(** The [dict] that [size_psv_for_fire] returns. *)
Record sizing_result : Type := {
  Q_dot_W : R;
  m_kg_hr : R;
  W_lb_hr : R;
  P1_psia : R;
  critical : bool;
  A_required_in2 : R;
  orifice_letter : string;
  orifice_area_in2 : R;
  orifice_diameter_in : R;
  inlet_size_in : R
}.

Definition size_psv_for_fire
    (A_wetted_m2 : pynum) (fire_standard : pytext) (P_design_barg : pynum)
    (firefighting : pyflag)
    (h_fg_J_per_kg k Z M_lb_per_lbmol T_C MAWP_psig atm_psia accum_percent
     backpressure_psig Kd Kb Kc Ke : pynum) : outcome sizing_result :=
  A_wetted_m2 <~ _validate_non_negative A_wetted_m2 "Wetted area (A_wetted_m2)" ;;
  h_fg_J_per_kg <~ _validate_positive h_fg_J_per_kg
                     "Enthalpy of vaporization (h_fg_J_per_kg)" ;;
  k <~ _validate_positive k "Specific heat ratio (k)" ;;
  if k <=? 1 then Raised (Earlier (KNotAboveOne k))
  else
    Z <~ _validate_positive Z "Compressibility factor (Z)" ;;
    M_lb_per_lbmol <~ _validate_positive M_lb_per_lbmol "Molecular weight (M)" ;;
    MAWP_psig <~ _validate_positive MAWP_psig "MAWP (psig)" ;;
    atm_psia <~ _validate_positive atm_psia "Atmospheric pressure (psia)" ;;
    backpressure_psig <~ _validate_non_negative backpressure_psig "Backpressure (psig)" ;;
    accum_percent <~ _validate_positive accum_percent "Accumulation percent" ;;
    Kd <~ _validate_positive Kd "Discharge coefficient (Kd)" ;;
    Kb <~ _validate_positive Kb "Backpressure factor (Kb)" ;;
    Kc <~ _validate_positive Kc "Combination factor (Kc)" ;;
    Ke <~ _validate_positive Ke "Environmental factor (Ke)" ;;
    Q_dot_W <~ fire_heat_load fire_standard (PyNum A_wetted_m2) P_design_barg firefighting ;;
    m_kg_hr <~ call (evaporation.evaporation_rate_kg_per_hr
                       (PyNum Q_dot_W) (PyNum h_fg_J_per_kg)) ;;
    W_lb_hr <~ units.kg_hr_to_lb_hr (PyNum m_kg_hr) ;;
    T_R <~ units.C_to_R T_C ;;
    accum_psig <~ call (pressures.max_accumulation (PyNum MAWP_psig) (PyNum accum_percent)) ;;
    P1_psia <~ call (pressures.relieving_pressure
                       (PyNum MAWP_psig) (PyNum atm_psia) (PyNum accum_psig)) ;;
    critical <~ call (prd.is_critical_flow
                        (PyNum P1_psia) (PyNum backpressure_psig) (PyNum atm_psia) (PyNum k)) ;;
    A_req <~
      (if critical : bool then
         area.required_area_critical_gas
           (PyNum W_lb_hr) (PyNum k) (PyNum T_R) (PyNum Z) (PyNum M_lb_per_lbmol)
           (PyNum P1_psia) (PyNum Kd) (PyNum Kb) (PyNum Kc)
       else
         P2_psia <~ call (pressures.downstream_pressure
                            (PyNum backpressure_psig) (PyNum atm_psia)) ;;
         area.required_area_subcritical_gas
           (PyNum W_lb_hr) (PyNum k) (PyNum T_R) (PyNum Z) (PyNum M_lb_per_lbmol)
           (PyNum P1_psia) (PyNum P2_psia) (PyNum Kd) (PyNum Ke)) ;;
    orifice <~ call (orifice.select_orifice (PyNum A_req)) ;;
    Returned {| Q_dot_W := Q_dot_W;
                m_kg_hr := m_kg_hr;
                W_lb_hr := W_lb_hr;
                P1_psia := P1_psia;
                critical := critical;
                A_required_in2 := A_req;
                orifice_letter := orifice.letter orifice;
                orifice_area_in2 := orifice.area_in2 orifice;
                orifice_diameter_in := orifice.diameter_in orifice;
                inlet_size_in := orifice.inlet_size_in orifice |}.

End sizing.

(** ** utils/validation.py *)
Module validation.

(** [ValidationError], one constructor per message. *)
Inductive validation_error : Type :=
| FieldRequired (name : string)
| FieldNotANumber (name : string)
| FieldNegative (name : string) (got : R)
| FieldNotPositive (name : string) (got : R)
| KRatioNotAboveOne (k : R)
| KRatioUnusuallyHigh (k : R)
| CompressibilityNotPositive (Z : R)
| CompressibilityUnusuallyHigh (Z : R)
| TemperatureBelowAbsoluteZero (T_C : R)
| FactorOutOfRange (name : string) (min_val max_val K : R)
| PercentageOutOfRange (name : string) (value : R)
| OuterDiameterNotPositive (OD_m : R)
| WallThicknessNegative (thickness_mm : R)
| WallThicknessNotBelowRadius (thickness_mm radius_mm : R)
| TangentLengthNegative (L_tangent_m : R).

Inductive checked (A : Type) : Type :=
| Valid (a : A)
| Invalid (e : validation_error).
Arguments Valid {A} a.
Arguments Invalid {A} e.

Definition safe_float (value : pynum) (name : string) : checked R :=
  match value with
  | PyNone => Invalid (FieldRequired name)
  | PyNotNum => Invalid (FieldNotANumber name)
  | PyNum x => Valid x
  end.

Definition safe_positive_float (value : pynum) (name : string) (allow_zero : bool)
  : checked R :=
  match safe_float value name with
  | Invalid e => Invalid e
  | Valid result =>
    if allow_zero then
      if result <? 0 then Invalid (FieldNegative name result) else Valid result
    else
      if result <=? 0 then Invalid (FieldNotPositive name result) else Valid result
  end.

Definition safe_non_negative_float (value : pynum) (name : string) : checked R :=
  safe_positive_float value name true.

Definition validate_k_ratio (k : R) : checked R :=
  if k <=? 1 then Invalid (KRatioNotAboveOne k)
  else if k >? 2 then Invalid (KRatioUnusuallyHigh k)
  else Valid k.

Definition validate_compressibility (Z : R) : checked R :=
  if Z <=? 0 then Invalid (CompressibilityNotPositive Z)
  else if Z >? 2 then Invalid (CompressibilityUnusuallyHigh Z)
  else Valid Z.

Definition validate_temperature_celsius (T_C : R) : checked R :=
  if T_C <? -273.15 then Invalid (TemperatureBelowAbsoluteZero T_C)
  else Valid T_C.

Definition validate_correction_factor (K : R) (name : string) (min_val max_val : R)
  : checked R :=
  if (K <? min_val) || (K >? max_val) then Invalid (FactorOutOfRange name min_val max_val K)
  else Valid K.

Definition validate_percentage (value : R) (name : string) : checked R :=
  if (value <? 0) || (value >? 100) then Invalid (PercentageOutOfRange name value)
  else Valid value.

Definition validate_vessel_dimensions (OD_m thickness_mm L_tangent_m : R)
  : checked (R * R * R) :=
  if OD_m <=? 0 then Invalid (OuterDiameterNotPositive OD_m)
  else if thickness_mm <? 0 then Invalid (WallThicknessNegative thickness_mm)
  else
    let thickness_m := thickness_mm / 1000 in
    if thickness_m >=? OD_m / 2
    then Invalid (WallThicknessNotBelowRadius thickness_mm (OD_m / 2 * 1000))
    else if L_tangent_m <? 0 then Invalid (TangentLengthNegative L_tangent_m)
    else Valid (OD_m, thickness_mm, L_tangent_m).

(** [safe_positive_float(value, name)] followed by a range validator, the
    way the request handler chains them. *)
Definition positive_then (value : pynum) (name : string) (check : R -> checked R)
  : checked R :=
  match safe_positive_float value name false with
  | Invalid e => Invalid e
  | Valid x => check x
  end.

End validation.

(** ** Predicates used in the statements *)

(** *** Orifice table *)
Section OrificePredicates.
Import orifice.

(** The table is listed by ascending area. *)
Fixpoint ascending (d : dict) : Prop :=
  match d with
  | [] => True
  | x :: d' => Forall (fun y => snd x <= snd y) d' /\ ascending d'
  end.

End OrificePredicates.

(** *** Heads *)
Section HeadPredicates.
Import heads.

(** A head that one of the three constructors returned; the constructors
    accept exactly [0 < D], [0 <= t < D/2]. *)
Definition constructed (hd : head) : Prop :=
  exists D t : R,
    (0 < D /\ 0 <= t < D / 2) /\
    (new_ASMEFDHead (PyNum D) (PyNum t) = Ok hd \/
     new_Elliptical2to1Head (PyNum D) (PyNum t) = Ok hd \/
     new_HemisphericalHead (PyNum D) (PyNum t) = Ok hd).

(** The proportions of the two torispherical classes. *)
Definition proportions (major minor : R) : Prop :=
  (major = 1.00 /\ minor = 0.06) \/ (major = 0.90 /\ minor = 0.17).

(** The geometry that [torispherical_post_init] derives. *)
Record torispherical_shape (g : torispherical) : Prop := {
  shape_h1 : h1 g = 0;
  shape_h2_le_center : h2 g <= c_height_offset g;
  shape_h3_nonneg : 0 <= h3 g;
  shape_radius_pos : 0 < radius g;
  shape_c_offset : c_radius_offset g = 0
}.

(** What construction guarantees, by class. *)
Definition shape (hd : head) : Prop :=
  match hd with
  | ASMEFDHead g | Elliptical2to1Head g => torispherical_shape g
  | HemisphericalHead g =>
      hs_h1 g = 0 /\ 0 < hs_radius g /\ hs_h2 g = hs_radius g
  end.

End HeadPredicates.

(** *** Vessel arguments *)
Section VesselPredicates.
Import heads vessel.

Definition vessel_dimensions_ok (OD_m thickness_mm : R) : Prop :=
  0 < OD_m /\ 0 <= thickness_mm /\ thickness_mm / 1000 < OD_m / 2.

(** Every argument check of [wetted_area_from_fill_volume] before the
    capacity check passes: vertical orientation, a known head type,
    dimensions that make a head, non-negative lengths and volume, at least
    10 integration steps. *)
Record otherwise_valid (head_type : string)
    (L_tangent_m OD_m thickness_mm bottom_height_m fire_height_m fill_volume_m3 : R)
    (steps : Z) : Prop := {
  ov_head_type : In head_type valid_head_types;
  ov_dimensions : vessel_dimensions_ok OD_m thickness_mm;
  ov_tangent : 0 <= L_tangent_m;
  ov_bottom : 0 <= bottom_height_m;
  ov_fire : 0 <= fire_height_m;
  ov_fill : 0 <= fill_volume_m3;
  ov_steps : (10 <= steps)%Z
}.

(** Vessel capacity as the entry point computes it: both heads and the
    cylinder. *)
Definition capacity (hd : head) (L_tangent_m : R) : R :=
  max_head_volume hd * 2 + PI * head_radius hd ^ 2 * L_tangent_m.

End VesselPredicates.

(** ** Tactics *)

(** [cmp_cases] splits on every comparison in the goal and lets [lra]
    discard the branches that the hypotheses exclude. *)
Ltac cmp_unfold := unfold Cmp.gtb, Cmp.geb, Cmp.ltb, Cmp.leb, Cmp.eqb in *.

Ltac cmp_step :=
  match goal with
  | |- context [Rlt_dec ?x ?y] => destruct (Rlt_dec x y)
  | |- context [Rle_dec ?x ?y] => destruct (Rle_dec x y)
  | |- context [Req_dec_T ?x ?y] => destruct (Req_dec_T x y)
  end.

Ltac cmp_cases := cmp_unfold; repeat (cmp_step; simpl; try lra); try reflexivity.

(** ** Predicates for the remaining modules *)

Definition gives {A : Type} (m : outcome A) : Prop := exists a, m = Returned a.

(** Gas properties that flow/area.py accepts. *)
Definition gas_ok (k T_R Z M P1 : R) : Prop :=
  1 < k <= 2 /\ 0 < T_R /\ 0 < Z <= 2 /\ 0 < M /\ 0 < P1.

(** A correction factor that [_validate_factor] accepts. *)
Definition factor_ok (K max_val : R) : Prop := 0 < K <= max_val.

(** The API 520 gas coefficient and the subcritical coefficient, as
    formulas. *)
Definition C_formula (k : R) : R :=
  520 * sqrt (k * Rpower (2 / (k + 1)) ((k + 1) / (k - 1))).

Definition F2_formula (k r : R) : R :=
  sqrt ((k / (k - 1)) * Rpower r k * ((1 - Rpower r ((k - 1) / k)) / (1 - r))).

(** What [size_psv_for_fire] checks at its entry, and what the unit
    conversion and [max_accumulation] ask for on top. *)
Record sizing_inputs_ok
    (A h_fg k Z M T_C MAWP atm accum back Kd Kb Kc Ke : R) : Prop := {
  si_area : 0 <= A;
  si_h_fg : 0 < h_fg;
  si_k : 1 < k;
  si_Z : 0 < Z;
  si_M : 0 < M;
  si_T : -273.15 <= T_C;
  si_MAWP : 0 < MAWP;
  si_atm : 0 < atm;
  si_accum : 0 < accum <= 100;
  si_back : 0 <= back;
  si_Kd : 0 < Kd;
  si_Kb : 0 < Kb;
  si_Kc : 0 < Kc;
  si_Ke : 0 < Ke
}.

(** The intermediate quantities of [size_psv_for_fire], as formulas. *)
Definition relieving_formula (MAWP accum atm : R) : R :=
  MAWP + MAWP * (accum / 100) + atm.

Definition critical_ratio (k : R) : R := Rpower (2 / (k + 1)) (k / (k - 1)).

Definition flow_lb_hr (Q h_fg : R) : R := Q / h_fg * 3600 * 2.2046226218.

Definition rankine (T_C : R) : R := (T_C + 273.15) * 9 / 5.

(** A validator of utils/validation.py lets its argument through. *)
Definition accepted {A : Type} (c : validation.checked A) : Prop :=
  exists a, c = validation.Valid a.

(** ** Reasoning about comparisons *)

Lemma ltb_true (x y : R) : x < y -> (x <? y) = true.
Proof. intros H. unfold Cmp.ltb. destruct (Rlt_dec x y); [reflexivity | contradiction]. Qed.

Lemma ltb_false (x y : R) : y <= x -> (x <? y) = false.
Proof. intros H. unfold Cmp.ltb. destruct (Rlt_dec x y); [lra | reflexivity]. Qed.

Lemma leb_true (x y : R) : x <= y -> (x <=? y) = true.
Proof. intros H. unfold Cmp.leb. destruct (Rle_dec x y); [reflexivity | contradiction]. Qed.

Lemma leb_false (x y : R) : y < x -> (x <=? y) = false.
Proof. intros H. unfold Cmp.leb. destruct (Rle_dec x y); [lra | reflexivity]. Qed.

Lemma eqb_true (x y : R) : x = y -> (x =? y) = true.
Proof. intros H. unfold Cmp.eqb. destruct (Req_dec_T x y); [reflexivity | contradiction]. Qed.

Lemma eqb_false (x y : R) : x <> y -> (x =? y) = false.
Proof. intros H. unfold Cmp.eqb. destruct (Req_dec_T x y); [contradiction | reflexivity]. Qed.

(** ** API 2000 heat load *)
Section Api2000Facts.
Import api2000.

(** C1: the value of [heat_load_api2000] on every wetted area [A >= 0] and
    every numeric design pressure [P]: 0 at [A = 0]; [10800*A] above
    1.034 barg; otherwise the row of the table that the half-open area
    bands [0,18.6), [18.6,93), [93,260), [260,oo) select, the last one
    split at [P = 0.07]. *)
Theorem heat_load_api2000_table (A P : R) :
  0 <= A ->
  (A = 0 -> heat_load_api2000 (PyNum A) (PyNum P) = Ok 0) /\
  (P > 1.034 -> heat_load_api2000 (PyNum A) (PyNum P) = Ok (10800 * A)) /\
  (P <= 1.034 -> A < 18.6 ->
     heat_load_api2000 (PyNum A) (PyNum P) = Ok (63150 * A)) /\
  (P <= 1.034 -> 18.6 <= A < 93 ->
     heat_load_api2000 (PyNum A) (PyNum P) = Ok (224200 * Rpower A 0.566)) /\
  (P <= 1.034 -> 93 <= A < 260 ->
     heat_load_api2000 (PyNum A) (PyNum P) = Ok (630400 * Rpower A 0.338)) /\
  (P <= 1.034 -> 260 <= A -> 0.07 <= P ->
     heat_load_api2000 (PyNum A) (PyNum P) = Ok (43200 * Rpower A 0.82)) /\
  (260 <= A -> P < 0.07 ->
     heat_load_api2000 (PyNum A) (PyNum P) = Ok 4129700) /\
  (P <= 1.034 ->
     heat_load_api2000 (PyNum 18.6) (PyNum P) = Ok (224200 * Rpower 18.6 0.566)).
Proof.
  intros HA. unfold heat_load_api2000, py_pow.
  repeat split; intros; cmp_cases; try (f_equal; lra).
Qed.

(** The rows at work. *)
Example heat_load_api2000_10m2 :
  heat_load_api2000 (PyNum 10) (PyNum 0.5) = Ok (63150 * 10).
Proof. unfold heat_load_api2000. cmp_cases. Qed.

Example heat_load_api2000_high_pressure :
  heat_load_api2000 (PyNum 300) (PyNum 2) = Ok (10800 * 300).
Proof. unfold heat_load_api2000. cmp_cases. Qed.

Example heat_load_api2000_negative_area :
  heat_load_api2000 (PyNum (-1)) (PyNum 0.5) = Raise (Negative "Wetted area" (-1)).
Proof. unfold heat_load_api2000. cmp_cases. Qed.

End Api2000Facts.

Section Api2000Errors.
Import api2000.

Lemma heat_load_api2000_table_witness :
  heat_load_api2000 (PyNum 18.6) (PyNum 1) = Ok (224200 * Rpower 18.6 0.566).
Proof.
  destruct (heat_load_api2000_table 18.6 1) as (_ & _ & _ & Hrow2 & _); [lra |].
  apply Hrow2; lra.
Defined.

(** The design pressure is looked at only for a positive area, and then it
    has to be a number. *)
Lemma heat_load_api2000_zero_area (P : pynum) :
  heat_load_api2000 (PyNum 0) P = Ok 0.
Proof. unfold heat_load_api2000. cmp_cases. Qed.

Lemma heat_load_api2000_numeric (A P : R) :
  0 <= A -> returns (heat_load_api2000 (PyNum A) (PyNum P)).
Proof.
  intros HA. unfold returns, heat_load_api2000.
  cmp_cases; eexists; reflexivity.
Qed.

(** C7, as the code has it: [heat_load_api2000] returns a value exactly
    when the wetted area is a non-negative number and, unless that area is
    zero, the design pressure is a number too.  A missing or non-numeric
    design pressure with a positive area raises; for a zero area the value
    is 0 whatever the design pressure is. *)
Theorem heat_load_api2000_returns_iff (A_wetted_m2 P_design_barg : pynum) :
  (returns (heat_load_api2000 A_wetted_m2 P_design_barg) <->
   exists A, A_wetted_m2 = PyNum A /\ 0 <= A /\
             (A = 0 \/ exists P, P_design_barg = PyNum P)) /\
  heat_load_api2000 (PyNum 0) P_design_barg = Ok 0.
Proof.
  split; [| apply heat_load_api2000_zero_area].
  split.
  - intros [Q HQ]. destruct A_wetted_m2 as [| A |]; try discriminate HQ.
    exists A. split; [reflexivity |].
    unfold heat_load_api2000 in HQ. revert HQ. cmp_unfold.
    destruct (Rlt_dec A 0); [discriminate |].
    destruct (Req_dec_T A 0) as [-> | HA0]; intros HQ.
    + split; [lra | left; reflexivity].
    + split; [lra |]. right.
      destruct P_design_barg as [| P |]; try discriminate HQ.
      exists P. reflexivity.
  - intros (A & -> & HA & [-> | [P ->]]).
    + exists 0. apply heat_load_api2000_zero_area.
    + apply heat_load_api2000_numeric. exact HA.
Qed.

(** C7, refuted as stated: area 1 m2 is a non-negative number, yet with no
    design pressure the call raises. *)
Lemma heat_load_api2000_missing_pressure_raises :
  0 <= 1 /\
  heat_load_api2000 (PyNum 1) PyNone = Raise (Required "Design pressure (P_design_barg)").
Proof. split; [lra |]. unfold heat_load_api2000. cmp_cases. Qed.

(** C10: on every real area [A >= 0] and real pressure [P] one of the six
    return statements is taken: the result is a value, and so it is never
    the closing "Unexpected API2000 input combination" error. *)
Theorem heat_load_api2000_rows_cover (A P : R) :
  0 <= A ->
  exists Q, heat_load_api2000 (PyNum A) (PyNum P) = Ok Q /\
    (Q = 0 \/ Q = 10800 * A \/ Q = 63150 * A \/ Q = 224200 * Rpower A 0.566 \/
     Q = 630400 * Rpower A 0.338 \/ Q = 43200 * Rpower A 0.82 \/ Q = 4129700).
Proof.
  intros HA. unfold heat_load_api2000, py_pow.
  cmp_cases; eexists; (split; [reflexivity |]); try lra; tauto.
Qed.

Lemma heat_load_api2000_rows_cover_witness :
  exists Q, heat_load_api2000 (PyNum 300) (PyNum 0.01) = Ok Q /\
    (Q = 0 \/ Q = 10800 * 300 \/ Q = 63150 * 300 \/ Q = 224200 * Rpower 300 0.566 \/
     Q = 630400 * Rpower 300 0.338 \/ Q = 43200 * Rpower 300 0.82 \/ Q = 4129700).
Proof. apply (heat_load_api2000_rows_cover 300 0.01). lra. Defined.

(** The closing raise is dead code for every argument of the model, also a
    missing or negative one. *)
Lemma heat_load_api2000_never_unexpected (a p : pynum) (A P : R) :
  heat_load_api2000 a p <> Raise (UnexpectedCombination A P).
Proof.
  unfold heat_load_api2000.
  destruct a as [| x |]; try discriminate.
  destruct p as [| y |]; cmp_cases; discriminate.
Qed.

End Api2000Errors.

(** ** Evaporation rate *)
Section EvaporationFacts.
Import evaporation.

(** C8, as the code has it: [Q / h_fg] for positive heat load and latent
    heat; 0 for a zero heat load, whatever the latent heat argument is; an
    error whenever [h_fg <= 0] and the heat load is not zero (the "must be
    positive" one for a positive heat load). *)
Theorem evaporation_rate_spec (Q h_fg : R) :
  (0 < Q -> 0 < h_fg ->
     evaporation_rate (PyNum Q) (PyNum h_fg) = Ok (Q / h_fg)) /\
  (forall h : pynum, evaporation_rate (PyNum 0) h = Ok 0) /\
  (Q <> 0 -> h_fg <= 0 ->
     exists e, evaporation_rate (PyNum Q) (PyNum h_fg) = Raise e /\
               (0 < Q -> e = NotPositive "Enthalpy of vaporization" h_fg)).
Proof.
  unfold evaporation_rate. repeat split; intros; cmp_cases.
  - eexists. split; [reflexivity |]. intros; lra.
  - eexists. split; [reflexivity |]. intros; reflexivity.
Qed.

Lemma evaporation_rate_spec_witness :
  evaporation_rate (PyNum 670000) (PyNum 335000) = Ok (670000 / 335000) /\
  exists e, evaporation_rate (PyNum 670000) (PyNum (-1)) = Raise e /\
            (0 < 670000 -> e = NotPositive "Enthalpy of vaporization" (-1)).
Proof.
  split.
  - apply (evaporation_rate_spec 670000 335000); lra.
  - apply (evaporation_rate_spec 670000 (-1)); lra.
Defined.

(** C8, refuted as stated: with a zero heat load a latent heat of -5 J/kg
    is not rejected, the call returns 0. *)
Lemma evaporation_rate_zero_load_skips_check :
  -5 <= 0 /\ evaporation_rate (PyNum 0) (PyNum (-5)) = Ok 0.
Proof. split; [lra |]. unfold evaporation_rate. cmp_cases. Qed.

End EvaporationFacts.

(** ** Criticality of the relief flow *)
Section CriticalityFacts.
Import pressures.

Lemma critical_downstream_pressure_value (P1 k : R) :
  0 < P1 -> 1 < k ->
  critical_downstream_pressure (PyNum P1) (PyNum k)
  = Ok (Rpower (2 / (k + 1)) (k / (k - 1)) * P1).
Proof.
  intros HP Hk. unfold critical_downstream_pressure, _validate_positive, py_pow.
  rewrite leb_false by lra. simpl. rewrite leb_false by lra. reflexivity.
Qed.

Lemma downstream_pressure_value (P_back atm : R) :
  0 <= P_back -> 0 < atm ->
  downstream_pressure (PyNum P_back) (PyNum atm) = Ok (P_back + atm).
Proof.
  intros HP Ha. unfold downstream_pressure, _validate_non_negative, _validate_positive.
  rewrite ltb_false by lra. simpl. rewrite leb_false by lra. reflexivity.
Qed.

Lemma gtb_true_iff (x y : R) : (x >? y) = true <-> x > y.
Proof.
  unfold Cmp.gtb, Cmp.ltb. destruct (Rlt_dec y x); split; intros H;
    try reflexivity; try discriminate; lra.
Qed.

(** [(5/6) ** 3.5] is the square root of [(5/6)^7]. *)
Lemma Rpower_seven_halves (x : R) : 0 < x -> Rpower x (7 / 2) = sqrt (x ^ 7).
Proof.
  intros Hx.
  replace (7 / 2) with (INR 7 * / 2) by (simpl; lra).
  rewrite <- Rpower_mult, Rpower_pow by exact Hx.
  apply Rpower_sqrt. apply pow_lt. exact Hx.
Qed.

Lemma critical_ratio_k14 : 0.52828 < Rpower (2 / (1.4 + 1)) (1.4 / (1.4 - 1)) < 0.52829.
Proof.
  replace (2 / (1.4 + 1)) with (5 / 6) by lra.
  replace (1.4 / (1.4 - 1)) with (7 / 2) by lra.
  rewrite Rpower_seven_halves by lra.
  assert (Hlo : 0.52828 ^ 2 < (5 / 6) ^ 7) by lra.
  assert (Hhi : (5 / 6) ^ 7 < 0.52829 ^ 2) by lra.
  split.
  - rewrite <- (sqrt_pow2 0.52828) by lra. apply sqrt_lt_1_alt. lra.
  - rewrite <- (sqrt_pow2 0.52829) by lra. apply sqrt_lt_1_alt. split; [| lra].
    apply pow_le. lra.
Qed.

(** C2: for [P1 > 0], [atm > 0], [P_back >= 0] and [k > 1] the critical
    downstream pressure is [P1 * (2/(k+1))^(k/(k-1))], the downstream
    pressure is [P_back + atm], and [is_critical_flow] (like [is_critical])
    answers [True] exactly when the first exceeds the second; at
    [P1 = 100], [k = 1.4] the critical downstream pressure is 52.83 psia
    to two decimals. *)
Theorem is_critical_flow_iff (P1 P_back atm k : R) :
  0 < P1 -> 0 < atm -> 0 <= P_back -> 1 < k ->
  critical_downstream_pressure (PyNum P1) (PyNum k)
    = Ok (P1 * Rpower (2 / (k + 1)) (k / (k - 1))) /\
  downstream_pressure (PyNum P_back) (PyNum atm) = Ok (P_back + atm) /\
  (exists b, prd.is_critical_flow (PyNum P1) (PyNum P_back) (PyNum atm) (PyNum k) = Ok b /\
             is_critical (PyNum P1) (PyNum P_back) (PyNum atm) (PyNum k) = Ok b /\
             (b = true <-> P1 * Rpower (2 / (k + 1)) (k / (k - 1)) > P_back + atm)) /\
  (exists v, critical_downstream_pressure (PyNum 100) (PyNum 1.4) = Ok v /\
             52.828 < v < 52.829).
Proof.
  intros HP Ha Hb Hk.
  pose proof (critical_downstream_pressure_value P1 k HP Hk) as Hc.
  pose proof (downstream_pressure_value P_back atm Hb Ha) as Hd.
  rewrite Rmult_comm in Hc.
  repeat split.
  - exact Hc.
  - exact Hd.
  - eexists. unfold prd.is_critical_flow, is_critical. rewrite Hc, Hd. simpl.
    split; [reflexivity |]. split; [reflexivity |]. apply gtb_true_iff.
  - eexists. split.
    + apply critical_downstream_pressure_value; lra.
    + pose proof critical_ratio_k14. lra.
Qed.

Lemma is_critical_flow_iff_witness :
  exists b, prd.is_critical_flow (PyNum 100) (PyNum 0) (PyNum 14.7) (PyNum 1.4) = Ok b /\
            is_critical (PyNum 100) (PyNum 0) (PyNum 14.7) (PyNum 1.4) = Ok b /\
            (b = true <-> 100 * Rpower (2 / (1.4 + 1)) (1.4 / (1.4 - 1)) > 0 + 14.7).
Proof.
  destruct (is_critical_flow_iff 100 0 14.7 1.4) as (_ & _ & H & _); try lra.
  exact H.
Defined.

End CriticalityFacts.

(** ** Orifice selection *)
Section OrificeFacts.
Import orifice.

Lemma insert_by_value_last (x : string * R) (l : dict) :
  Forall (fun y => snd y <= snd x) l -> insert_by_value x l = l ++ [x].
Proof.
  induction l as [| y l IH]; intros Hl; simpl.
  - reflexivity.
  - inversion Hl as [| ? ? Hy Hl']; subst.
    rewrite ltb_false by exact Hy. f_equal. apply IH. exact Hl'.
Qed.

Lemma sorted_fold_ascending (d acc : dict) :
  ascending d ->
  Forall (fun a => Forall (fun y => snd a <= snd y) d) acc ->
  fold_left (fun acc x => insert_by_value x acc) d acc = acc ++ d.
Proof.
  revert acc. induction d as [| x d IH]; intros acc Hd Hacc; simpl.
  - symmetry. apply app_nil_r.
  - destruct Hd as [Hx Hd].
    rewrite insert_by_value_last.
    + rewrite IH.
      * rewrite <- app_assoc. reflexivity.
      * exact Hd.
      * apply Forall_app. split.
        -- eapply Forall_impl; [| exact Hacc].
           intros a Ha. inversion Ha; assumption.
        -- constructor; [exact Hx | constructor].
    + eapply Forall_impl; [| exact Hacc].
      intros a Ha. inversion Ha; assumption.
Qed.

Lemma sorted_by_value_ascending (d : dict) :
  ascending d -> sorted_by_value d = d.
Proof.
  intros Hd. unfold sorted_by_value.
  rewrite sorted_fold_ascending; [reflexivity | exact Hd | constructor].
Qed.

Lemma API_ORIFICES_ascending : ascending API_ORIFICES.
Proof.
  unfold API_ORIFICES. simpl.
  repeat (split; [repeat constructor; simpl; lra |]). exact I.
Qed.

Lemma sorted_API_ORIFICES : sorted_by_value API_ORIFICES = API_ORIFICES.
Proof. apply sorted_by_value_ascending, API_ORIFICES_ascending. Qed.

Lemma MAX_ORIFICE_AREA_value : MAX_ORIFICE_AREA = 26.
Proof.
  unfold MAX_ORIFICE_AREA, API_ORIFICES, py_max. simpl.
  repeat match goal with
         | |- context [Rmax ?a ?b] => rewrite (Rmax_right a b) by lra
         end.
  lra.
Qed.

(** What the scanning loop returns on any list of pairs whose letters all
    have an inlet size. *)
Lemma scan_first_fit (A : R) (items : dict) :
  Forall (fun p => returns (getitem API_INLET_SIZES (fst p))) items ->
  match scan A items with
  | Ok o =>
      exists pre post,
        items = pre ++ (letter o, area_in2 o) :: post /\
        Forall (fun p => snd p < A) pre /\
        A <= area_in2 o /\
        diameter_in o = get_orifice_diameter (area_in2 o) /\
        getitem API_INLET_SIZES (letter o) = Ok (inlet_size_in o)
  | Raise e =>
      Forall (fun p => snd p < A) items /\
      e = NoOrificeLargeEnough A "T" MAX_ORIFICE_AREA
  end.
Proof.
  induction items as [| [l a] items IH]; intros Hin; simpl.
  - split; [constructor | reflexivity].
  - inversion Hin as [| ? ? [inlet Hl] Hin']; subst. simpl in Hl.
    unfold Cmp.geb, Cmp.leb. destruct (Rle_dec A a) as [Hle | Hgt].
    + rewrite Hl. simpl. exists [], items. simpl.
      repeat split; try assumption; constructor.
    + specialize (IH Hin'). destruct (scan A items) as [o | e].
      * destruct IH as (pre & post & -> & Hpre & Hrest).
        exists ((l, a) :: pre), post. split; [reflexivity |].
        split; [constructor; [simpl; lra | exact Hpre] | exact Hrest].
      * destruct IH as [Hall ->]. split; [| reflexivity].
        constructor; [simpl; lra | exact Hall].
Qed.

Lemma API_ORIFICES_have_inlets :
  Forall (fun p => returns (getitem API_INLET_SIZES (fst p))) API_ORIFICES.
Proof. repeat constructor; eexists; reflexivity. Qed.

Lemma ascending_app_inv (pre post : dict) (x : string * R) :
  ascending (pre ++ x :: post) -> Forall (fun y => snd x <= snd y) post.
Proof.
  induction pre as [| p pre IH]; simpl; intros [H1 H2].
  - exact H1.
  - apply IH. exact H2.
Qed.

(** C3: for a required area [A >= 0] within the table (at most 26 in2)
    [select_orifice] returns an entry of the API table whose area is at
    least [A], such that every entry of strictly smaller area is too small
    for [A]; at [A = 0] the letter is "D"; above 26 in2 it raises the
    capacity error that names "T" and 26.0 in2. *)
Theorem select_orifice_smallest_fit (A : R) :
  0 <= A ->
  (A <= 26 ->
     exists o, select_orifice (PyNum A) = Ok o /\
       In (letter o, area_in2 o) API_ORIFICES /\
       A <= area_in2 o /\
       (forall l a, In (l, a) API_ORIFICES -> a < area_in2 o -> a < A) /\
       diameter_in o = 2 * sqrt (area_in2 o / PI) /\
       getitem API_INLET_SIZES (letter o) = Ok (inlet_size_in o)) /\
  (A = 0 -> exists o, select_orifice (PyNum A) = Ok o /\ letter o = "D"%string) /\
  (26 < A -> select_orifice (PyNum A) = Raise (NoOrificeLargeEnough A "T" 26)).
Proof.
  intros HA. unfold select_orifice. rewrite ltb_false by lra.
  unfold Cmp.eqb. destruct (Req_dec_T A 0) as [-> | HA0].
  - split; [| split].
    + intros _. eexists. simpl. split; [reflexivity |]. simpl.
      split; [left; reflexivity |]. split; [lra |].
      split; [| split; reflexivity].
      intros l a Hin Hlt. unfold API_ORIFICES in Hin. simpl in Hin.
      repeat (destruct Hin as [Hin | Hin]; [inversion Hin; subst; lra |]).
      contradiction.
    + intros _. eexists. simpl. split; reflexivity.
    + intros; lra.
  - rewrite sorted_API_ORIFICES.
    pose proof (scan_first_fit A API_ORIFICES API_ORIFICES_have_inlets) as Hscan.
    destruct (scan A API_ORIFICES) as [o | e].
    + destruct Hscan as (pre & post & Heq & Hpre & Hfit & Hdiam & Hinlet).
      split; [| split].
      * intros _. exists o. split; [reflexivity |].
        split; [rewrite Heq; apply in_or_app; right; left; reflexivity |].
        split; [exact Hfit |]. split; [| split; assumption].
        intros l a Hin Hlt. rewrite Heq in Hin.
        apply in_app_or in Hin. destruct Hin as [Hin | [Hin | Hin]].
        -- rewrite Forall_forall in Hpre. apply (Hpre (l, a) Hin).
        -- inversion Hin; subst. lra.
        -- pose proof API_ORIFICES_ascending as Hasc. rewrite Heq in Hasc.
           apply ascending_app_inv in Hasc. rewrite Forall_forall in Hasc.
           specialize (Hasc (l, a) Hin). simpl in Hasc. lra.
      * intros; contradiction.
      * intros Hbig. exfalso.
        assert (Hin : In (letter o, area_in2 o) API_ORIFICES)
          by (rewrite Heq; apply in_or_app; right; left; reflexivity).
        unfold API_ORIFICES in Hin. simpl in Hin.
        repeat (destruct Hin as [Hin | Hin];
                [inversion Hin as [[Hl Ha]]; rewrite <- Ha in Hfit; lra |]).
        contradiction.
    + destruct Hscan as [Hall ->]. rewrite MAX_ORIFICE_AREA_value.
      split; [| split].
      * intros Hle. exfalso. rewrite Forall_forall in Hall.
        assert (Hin : In ("T"%string, 26.000) API_ORIFICES)
          by (unfold API_ORIFICES; simpl; tauto).
        specialize (Hall _ Hin). simpl in Hall. lra.
      * intros; contradiction.
      * intros _. reflexivity.
Qed.

Lemma select_orifice_smallest_fit_witness :
  exists o, select_orifice (PyNum 1) = Ok o /\
    In (letter o, area_in2 o) API_ORIFICES /\
    1 <= area_in2 o /\
    (forall l a, In (l, a) API_ORIFICES -> a < area_in2 o -> a < 1) /\
    diameter_in o = 2 * sqrt (area_in2 o / PI) /\
    getitem API_INLET_SIZES (letter o) = Ok (inlet_size_in o).
Proof.
  destruct (select_orifice_smallest_fit 1) as (H & _ & _); [lra |].
  apply H. lra.
Defined.

(** The loop at work: 1 in2 needs a "J" orifice, 26 in2 still gets "T". *)
Example select_orifice_1 :
  exists o, select_orifice (PyNum 1) = Ok o /\ letter o = "J"%string /\ area_in2 o = 1.287.
Proof.
  eexists. unfold select_orifice. rewrite sorted_API_ORIFICES.
  unfold API_ORIFICES, scan. cmp_cases. simpl. repeat split.
Qed.

Example select_orifice_26 :
  exists o, select_orifice (PyNum 26) = Ok o /\ letter o = "T"%string.
Proof.
  eexists. unfold select_orifice. rewrite sorted_API_ORIFICES.
  unfold API_ORIFICES, scan. cmp_cases. simpl. repeat split.
Qed.

End OrificeFacts.

(** ** Head geometry *)
Section HeadFacts.
Import heads.
#[local] Opaque pow.

Lemma validate_head_dimensions_ok (D t : R) :
  0 < D -> 0 <= t -> t < D / 2 ->
  _validate_head_dimensions (PyNum D) (PyNum t) = Ok (D, t).
Proof.
  intros HD Ht Htr. unfold _validate_head_dimensions.
  rewrite leb_false by lra. rewrite ltb_false by lra.
  unfold Cmp.geb. rewrite leb_false by lra. reflexivity.
Qed.

Lemma div_within_unit (x y : R) : 0 < y -> - y <= x <= y -> -1 <= x / y <= 1.
Proof.
  intros Hy Hx. split; apply Rmult_le_reg_r with y; try exact Hy;
    unfold Rdiv; rewrite Rmult_assoc, Rinv_l by lra; lra.
Qed.

(** [math.sqrt] and [math.asin] are called inside their domains. *)
Lemma post_init_math_domain (major minor D : R) :
  proportions major minor -> 0 < D ->
  0 <= (major * D - minor * D) ^ 2 - (D / 2 - minor * D) ^ 2 /\
  -1 <= ((D - 2 * (minor * D)) / 2) / (major * D - minor * D) <= 1.
Proof.
  intros [[-> ->] | [-> ->]] HD; (split; [nra | apply div_within_unit; lra]).
Qed.

Lemma torispherical_post_init_shape (major minor D t : R) (g : torispherical) :
  proportions major minor -> 0 < D -> 0 <= t < D / 2 ->
  torispherical_post_init major minor (PyNum D) (PyNum t) = Ok g ->
  torispherical_shape g.
Proof.
  intros Hp HD Ht Hg. unfold torispherical_post_init in Hg.
  rewrite validate_head_dimensions_ok in Hg by lra. cbn [bind fst snd] in Hg.
  injection Hg as <-. unfold torispherical_geometry.
  constructor; cbn [h1 h2 h3 radius c_height_offset c_radius_offset].
  - reflexivity.
  - assert (Hcos : 0 <= cos (asin ((D - 2 * (minor * D)) / 2 / (major * D - minor * D)))).
    { apply cos_ge_0; pose proof (asin_bound ((D - 2 * (minor * D)) / 2 / (major * D - minor * D))); lra. }
    assert (0 <= major * D) by (destruct Hp as [[-> ->] | [-> ->]]; lra).
    nra.
  - assert (Hs : sqrt ((major * D - minor * D) ^ 2 - (D / 2 - minor * D) ^ 2)
                 <= sqrt ((major * D) ^ 2)).
    { apply sqrt_le_1_alt. destruct Hp as [[-> ->] | [-> ->]]; nra. }
    rewrite sqrt_pow2 in Hs by (destruct Hp as [[-> ->] | [-> ->]]; lra).
    lra.
  - lra.
  - reflexivity.
Qed.

Lemma constructed_shape (hd : head) : constructed hd -> shape hd.
Proof.
  intros (D & t & [HD Ht] & [H | [H | H]]).
  - unfold new_ASMEFDHead in H.
    destruct (torispherical_post_init 1.00 0.06 (PyNum D) (PyNum t)) as [g |] eqn:Hg;
      [| discriminate].
    injection H as <-.
    eapply torispherical_post_init_shape; eauto. left; split; reflexivity.
  - unfold new_Elliptical2to1Head in H.
    destruct (torispherical_post_init 0.90 0.17 (PyNum D) (PyNum t)) as [g |] eqn:Hg;
      [| discriminate].
    injection H as <-.
    eapply torispherical_post_init_shape; eauto. right; split; reflexivity.
  - unfold new_HemisphericalHead in H.
    rewrite validate_head_dimensions_ok in H by lra. cbn [bind fst snd] in H.
    injection H as <-. cbn. repeat split; lra.
Qed.

Lemma constructed_h1 (hd : head) : constructed hd -> head_h1 hd = 0.
Proof.
  intros H. apply constructed_shape in H.
  destruct hd as [g | g | g]; cbn in *; try apply (shape_h1 g H). tauto.
Qed.

Lemma constructed_top_nonneg (hd : head) : constructed hd -> 0 <= getattr_h3 hd.
Proof.
  intros H. apply constructed_shape in H.
  destruct hd as [g | g | g]; cbn in *; try apply (shape_h3_nonneg g H). lra.
Qed.

Lemma constructed_radius_pos (hd : head) : constructed hd -> 0 < head_radius hd.
Proof.
  intros H. apply constructed_shape in H.
  destruct hd as [g | g | g]; cbn in *; try apply (shape_radius_pos g H). tauto.
Qed.

End HeadFacts.

(** ** Sums computed by the accumulation loops *)
Section LoopSums.

Variable f g : nat -> R.

Lemma fold_sum_le (l : list nat) (a b e : R) :
  (forall i, In i l -> f i <= g i + e) -> a <= b ->
  fold_left (fun total i => total + f i) l a
  <= fold_left (fun total i => total + g i) l b + INR (List.length l) * e.
Proof.
  revert a b. induction l as [| i l IH]; intros a b Hfg Hab.
  - simpl. lra.
  - cbn [fold_left List.length]. rewrite S_INR.
    assert (Hi : f i <= g i + e) by (apply Hfg; left; reflexivity).
    assert (Hstep : a + f i <= (b + g i) + e) by lra.
    assert (Hl : forall j, In j l -> f j <= g j + e)
      by (intros j Hj; apply Hfg; right; exact Hj).
    assert (Hshift : forall x y, x <= y + e ->
              fold_left (fun total i => total + f i) l x
              <= fold_left (fun total i => total + g i) l y + INR (List.length l) * e + e).
    { clear - IH Hl. intros x y Hxy.
      pose proof (IH x (y + e) Hl Hxy) as H1.
      assert (H2 : forall (m : list nat) (u v : R),
                 fold_left (fun total i => total + g i) m (u + v)
                 = fold_left (fun total i => total + g i) m u + v).
      { induction m as [| j m IHm]; intros u v; simpl; [reflexivity |].
        replace (u + v + g j) with (u + g j + v) by lra. apply IHm. }
      rewrite H2 in H1. lra. }
    specialize (Hshift (a + f i) (b + g i) Hstep). lra.
Qed.

End LoopSums.

Lemma fold_sum_mono (f g : nat -> R) (l : list nat) :
  (forall i, In i l -> f i <= g i) ->
  fold_left (fun total i => total + f i) l 0
  <= fold_left (fun total i => total + g i) l 0.
Proof.
  intros Hfg.
  pose proof (fold_sum_le f g l 0 0 0) as H.
  rewrite Rmult_0_r, Rplus_0_r in H. apply H; [| lra].
  intros i Hi. specialize (Hfg i Hi). lra.
Qed.

Lemma fold_sum_zero (f : nat -> R) (l : list nat) :
  (forall i, In i l -> f i = 0) ->
  fold_left (fun total i => total + f i) l 0 = 0.
Proof.
  generalize 0 at 2 3 as a.
  induction l as [| i l IH]; intros a Hf; simpl.
  - reflexivity.
  - rewrite (Hf i) by (left; reflexivity). rewrite Rplus_0_r.
    apply IH. intros j Hj. apply Hf. right. exact Hj.
Qed.

Lemma fold_sum_last (f : nat -> R) (n : nat) :
  fold_left (fun total i => total + f i) (seq 0 (S n)) 0
  = fold_left (fun total i => total + f i) (seq 0 n) 0 + f n.
Proof. rewrite seq_S, fold_left_app. reflexivity. Qed.

(** ** Volume of a head up to a height *)
Section VolumeFacts.
Import heads.
#[local] Opaque pow.

Lemma volume_up_to_at_h1 (hd : head) (steps : nat) :
  volume_up_to hd (head_h1 hd) steps = 0.
Proof.
  unfold volume_up_to. apply fold_sum_zero. intros i _.
  unfold Rdiv. rewrite Rminus_diag. lra.
Qed.

(** A sampling point of the loop lies between [h1] and [h]. *)
Lemma sample_within (a h : R) (steps i : nat) :
  a <= h -> (i < steps)%nat ->
  a <= a + INR i * ((h - a) / INR steps) <= h.
Proof.
  intros Hah Hi.
  assert (Hs : 0 < INR steps) by (apply lt_0_INR; lia).
  assert (Hi0 : 0 <= INR i) by apply pos_INR.
  assert (Hi1 : INR i <= INR steps) by (apply le_INR; lia).
  assert (Hq : 0 <= (h - a) / INR steps).
  { apply Rmult_le_pos; [lra | left; apply Rinv_0_lt_compat; exact Hs]. }
  assert (Hm : INR i * ((h - a) / INR steps) <= INR steps * ((h - a) / INR steps))
    by (apply Rmult_le_compat_r; assumption).
  replace (INR steps * ((h - a) / INR steps)) with (h - a) in Hm by (field; lra).
  split; nra.
Qed.

(** The left Riemann sum grows with [h] as long as the radius profile
    does not decrease below the upper height. *)
Lemma volume_up_to_mono_on (hd : head) (steps : nat) (h h' : R) :
  head_h1 hd <= h <= h' ->
  (forall x y, head_h1 hd <= x <= y -> y <= h' ->
               0 <= radius_at_height hd x <= radius_at_height hd y) ->
  volume_up_to hd h steps <= volume_up_to hd h' steps.
Proof.
  intros [Hh1 Hhh'] Hr. unfold volume_up_to.
  apply fold_sum_mono. intros i Hi. apply in_seq in Hi.
  assert (Hlt : (i < steps)%nat) by lia.
  assert (Hs : 0 < INR steps) by (apply lt_0_INR; lia).
  pose proof (sample_within (head_h1 hd) h steps i Hh1 Hlt) as Hx.
  pose proof (sample_within (head_h1 hd) h' steps i ltac:(lra) Hlt) as Hy.
  set (dh := (h - head_h1 hd) / INR steps) in *.
  set (dh' := (h' - head_h1 hd) / INR steps) in *.
  assert (Hdh : 0 <= dh <= dh').
  { unfold dh, dh', Rdiv. split.
    - apply Rmult_le_pos; [lra | left; apply Rinv_0_lt_compat; exact Hs].
    - apply Rmult_le_compat_r; [left; apply Rinv_0_lt_compat; exact Hs | lra]. }
  assert (Hxy : head_h1 hd + INR i * dh <= head_h1 hd + INR i * dh').
  { pose proof (pos_INR i). nra. }
  destruct (Hr (head_h1 hd + INR i * dh) (head_h1 hd + INR i * dh')) as [Hr0 Hr1];
    [lra | lra |].
  unfold area_at_height.
  set (r := radius_at_height hd (head_h1 hd + INR i * dh)) in *.
  set (r' := radius_at_height hd (head_h1 hd + INR i * dh')) in *.
  assert (Hsq : r ^ 2 <= r' ^ 2) by nra.
  assert (Hr2 : 0 <= r ^ 2) by nra.
  pose proof PI_RGT_0 as Hpi.
  assert (Ha : PI * r ^ 2 <= PI * r' ^ 2) by nra.
  assert (Ha0 : 0 <= PI * r ^ 2) by nra.
  nra.
Qed.

Lemma area_at_height_nonneg (hd : head) (x : R) : 0 <= area_at_height hd x.
Proof.
  unfold area_at_height. pose proof PI_RGT_0.
  apply Rmult_le_pos; [lra | apply pow2_ge_0].
Qed.

Lemma volume_up_to_nonneg (hd : head) (h : R) (steps : nat) :
  head_h1 hd <= h -> 0 <= volume_up_to hd h steps.
Proof.
  intros Hh. unfold volume_up_to.
  rewrite <- (fold_sum_zero (fun _ => 0) (seq 0 steps)) at 1 by reflexivity.
  apply fold_sum_mono. intros i Hi. apply in_seq in Hi.
  assert (Hs : 0 < INR steps) by (apply lt_0_INR; lia).
  apply Rmult_le_pos; [apply area_at_height_nonneg |].
  apply Rmult_le_pos; [lra | left; apply Rinv_0_lt_compat; exact Hs].
Qed.

(** The sum never exceeds the cylinder of the largest radius. *)
Lemma volume_up_to_le_cylinder (hd : head) (h M : R) (steps : nat) :
  head_h1 hd <= h -> (0 < steps)%nat ->
  (forall x, 0 <= radius_at_height hd x <= M) ->
  volume_up_to hd h steps <= PI * M ^ 2 * (h - head_h1 hd).
Proof.
  intros Hh Hsteps HM. unfold volume_up_to.
  assert (Hs : 0 < INR steps) by (apply lt_0_INR; exact Hsteps).
  set (dh := (h - head_h1 hd) / INR steps).
  assert (Hdh : 0 <= dh).
  { apply Rmult_le_pos; [lra | left; apply Rinv_0_lt_compat; exact Hs]. }
  pose proof (fold_sum_le
    (fun i => area_at_height hd (head_h1 hd + INR i * dh) * dh)
    (fun _ => 0) (seq 0 steps) 0 0 (PI * M ^ 2 * dh)) as H.
  rewrite length_seq in H.
  rewrite (fold_sum_zero (fun _ => 0)) in H by reflexivity.
  replace (PI * M ^ 2 * (h - head_h1 hd)) with (0 + INR steps * (PI * M ^ 2 * dh))
    by (unfold dh; field; lra).
  apply H; [| lra]. intros i _. rewrite Rplus_0_l.
  apply Rmult_le_compat_r; [exact Hdh |].
  unfold area_at_height. pose proof PI_RGT_0.
  destruct (HM (head_h1 hd + INR i * dh)) as [Hr0 Hr1].
  apply Rmult_le_compat_l; [lra |]. nra.
Qed.

Lemma sqrt_clamped_mono (u v : R) : u <= v -> sqrt (Rmax u 0) <= sqrt (Rmax v 0).
Proof.
  intros Huv. apply sqrt_le_1_alt. apply Rle_max_compat_r. exact Huv.
Qed.

Lemma hemispherical_radius_mono (g : hemispherical) (x y : R) :
  0 < hs_radius g -> hs_h2 g = hs_radius g -> x <= y ->
  0 <= hemispherical_radius_at_height g x <= hemispherical_radius_at_height g y.
Proof.
  intros HR Hh2 Hxy. unfold hemispherical_radius_at_height. rewrite Hh2.
  split.
  - unfold Cmp.leb. destruct (Rle_dec x (hs_radius g)); [apply sqrt_pos | lra].
  - unfold Cmp.leb.
    destruct (Rle_dec x (hs_radius g)) as [Hx | Hx];
      destruct (Rle_dec y (hs_radius g)) as [Hy | Hy]; try lra.
    + apply sqrt_clamped_mono. nra.
    + rewrite <- (sqrt_pow2 (hs_radius g)) at 3 by lra.
      apply sqrt_le_1_alt. apply Rmax_lub; nra.
Qed.

Lemma hemispherical_radius_bounded (g : hemispherical) (x : R) :
  0 < hs_radius g -> hs_h2 g = hs_radius g ->
  0 <= hemispherical_radius_at_height g x <= hs_radius g.
Proof.
  intros HR Hh2.
  destruct (hemispherical_radius_mono g x (Rmax x (hs_radius g + 1)) HR Hh2
              (Rmax_l _ _)) as [H0 H1].
  split; [exact H0 |].
  unfold hemispherical_radius_at_height at 2 in H1.
  rewrite leb_false in H1; [exact H1 |].
  rewrite Hh2. pose proof (Rmax_r x (hs_radius g + 1)). lra.
Qed.

Lemma torispherical_crown_mono (g : torispherical) (x y : R) :
  torispherical_shape g -> x <= y -> y <= h2 g ->
  0 <= torispherical_radius_at_height g x <= torispherical_radius_at_height g y.
Proof.
  intros Hg Hxy Hy. unfold torispherical_radius_at_height.
  rewrite !leb_true by lra. cbv zeta. rewrite (shape_c_offset g Hg), !Rplus_0_r.
  pose proof (shape_h2_le_center g Hg) as Hc.
  split; [apply sqrt_pos |]. apply sqrt_clamped_mono. nra.
Qed.

End VolumeFacts.

Section VolumeMonotone.
Import heads.

(** Where the volume sum is monotone: [volume_up_to(h1)] is 0 for the
    three head classes; for a hemispherical head [volume_up_to] is
    non-decreasing in [h] for all [h >= h1]; for the ASME F&D and the 2:1
    elliptical head it is non-decreasing as long as the heights stay within
    the crown segment [h1, h2].  All with the default 500 steps. *)
Theorem volume_up_to_monotone (hd : head) :
  constructed hd ->
  volume_up_to hd (head_h1 hd) default_steps = 0 /\
  (forall h h' : R,
      head_h1 hd <= h <= h' ->
      match hd with
      | HemisphericalHead _ => True
      | ASMEFDHead _ | Elliptical2to1Head _ => h' <= head_h2 hd
      end ->
      volume_up_to hd h default_steps <= volume_up_to hd h' default_steps).
Proof.
  intros Hc. split; [apply volume_up_to_at_h1 |].
  intros h h' Hh Hseg. apply volume_up_to_mono_on; [exact Hh |].
  apply constructed_shape in Hc.
  intros x y Hxy Hy.
  destruct hd as [g | g | g]; cbn [radius_at_height head_h2 shape] in *.
  - apply torispherical_crown_mono; [exact Hc | lra | lra].
  - apply torispherical_crown_mono; [exact Hc | lra | lra].
  - destruct Hc as (_ & HR & Hh2).
    apply hemispherical_radius_mono; [exact HR | exact Hh2 | lra].
Qed.

End VolumeMonotone.

Section VolumeMonotoneWitness.
Import heads.

Lemma volume_up_to_monotone_witness :
  exists hd,
    new_HemisphericalHead (PyNum 2) (PyNum 0) = Ok hd /\
    volume_up_to hd (head_h1 hd) default_steps = 0 /\
    volume_up_to hd 0.5 default_steps <= volume_up_to hd 3 default_steps.
Proof.
  eexists. split.
  - unfold new_HemisphericalHead.
    rewrite validate_head_dimensions_ok by lra. reflexivity.
  - match goal with
    | |- volume_up_to ?hd _ _ = _ /\ _ =>
        assert (Hc : constructed hd)
    end.
    { exists 2, 0. split; [lra |]. right; right.
      unfold new_HemisphericalHead.
      rewrite validate_head_dimensions_ok by lra. reflexivity. }
    destruct (volume_up_to_monotone _ Hc) as [H0 Hmono].
    split; [exact H0 |].
    apply Hmono; [cbn; lra | exact I].
Defined.

End VolumeMonotoneWitness.

(** ** Where the volume sum of a torispherical head decreases

    The internal crown and knuckle arcs keep the centres of the external
    ones, while the breakpoint [h2] is the external one.  With a wall the
    two arcs do not meet at [h2]: the radius steps down there, and the left
    Riemann sum of [volume_up_to] loses a little when its last sampling
    point moves across [h2]. *)
Section SamplingDrop.
Import heads.
#[local] Opaque pow.

Variable hd : head.
Variable g : torispherical.
Variables cr co kro h_lo h_hi eps : R.

Hypothesis Hhd : hd = ASMEFDHead g \/ hd = Elliptical2to1Head g.
Hypothesis Hh1 : h1 g = 0.
Hypothesis Hcr : crown_radius g = cr.
Hypothesis Hco : c_height_offset g = co.
Hypothesis Hcro : c_radius_offset g = 0.
Hypothesis Hkro : k_radius_offset g = kro.

(** The last of the 500 sampling points (index 499) is in the crown segment
    for [h_lo] and in the knuckle segment for [h_hi]; the one before it is
    still in the crown segment. *)
Hypothesis Hlo : 0 <= h_lo /\ 499 * (h_lo / 500) <= h2 g.
Hypothesis Hhi : h_lo <= h_hi /\ 498 * (h_hi / 500) <= h2 g /\
                 h2 g < 499 * (h_hi / 500) <= h3 g.

(** There the knuckle term is clamped to zero. *)
Hypothesis Hclamp :
  knuckle_radius g ^ 2 - (499 * (h_hi / 500) - k_height_offset g) ^ 2 <= 0.

(** A crown slab grows by at most [eps] between the two heights, and the
    last slab shrinks by more than 499 times that. *)
Hypothesis Hstep : forall y, 0 <= y <= 498 ->
  Rmax (cr ^ 2 - (y * (h_hi / 500) - co) ^ 2) 0 * (h_hi / 500)
  <= Rmax (cr ^ 2 - (y * (h_lo / 500) - co) ^ 2) 0 * (h_lo / 500) + eps.
Hypothesis Hlast :
  kro ^ 2 * (h_hi / 500) + 499 * eps
  < Rmax (cr ^ 2 - (499 * (h_lo / 500) - co) ^ 2) 0 * (h_lo / 500).

Lemma drop_radius (x : R) :
  radius_at_height hd x = torispherical_radius_at_height g x.
Proof. destruct Hhd as [-> | ->]; reflexivity. Qed.

Lemma drop_h1 : head_h1 hd = 0.
Proof. destruct Hhd as [-> | ->]; exact Hh1. Qed.

(** Within the crown segment the squared radius is a clamped parabola. *)
Lemma drop_crown_area (x : R) :
  x <= h2 g -> area_at_height hd x = PI * Rmax (cr ^ 2 - (x - co) ^ 2) 0.
Proof.
  intros Hx. unfold area_at_height. rewrite drop_radius.
  unfold torispherical_radius_at_height.
  rewrite leb_true by exact Hx. cbv zeta.
  rewrite Hcr, Hco, Hcro, Rplus_0_r, pow2_sqrt by apply Rmax_r.
  reflexivity.
Qed.

(** At the sampling point above [h2] the radius is the knuckle offset. *)
Lemma drop_knuckle_area :
  area_at_height hd (499 * (h_hi / 500)) = PI * kro ^ 2.
Proof.
  destruct Hhi as (_ & _ & Hx1 & Hx2).
  unfold area_at_height. rewrite drop_radius.
  unfold torispherical_radius_at_height.
  rewrite leb_false by exact Hx1. rewrite leb_true by exact Hx2. cbv zeta.
  rewrite Rmax_right by exact Hclamp. rewrite sqrt_0, Hkro, Rplus_0_l.
  reflexivity.
Qed.

Lemma INR_500 : INR 500 = 500.
Proof. rewrite INR_IZR_INZ. reflexivity. Qed.

Lemma INR_499 : INR 499 = 499.
Proof. rewrite INR_IZR_INZ. reflexivity. Qed.

Lemma index_below_499 (i : nat) : (i < 499)%nat -> 0 <= INR i <= 498.
Proof.
  intros Hi. split; [apply pos_INR |].
  replace 498 with (INR 498) by (rewrite INR_IZR_INZ; reflexivity).
  apply le_INR. lia.
Qed.

Lemma sampling_drop :
  volume_up_to hd h_hi default_steps < volume_up_to hd h_lo default_steps.
Proof.
  pose proof PI_RGT_0 as Hpi.
  destruct Hlo as [Hlo0 Hlo1]. destruct Hhi as (Hle & Hhi0 & Hhi1 & Hhi2).
  unfold volume_up_to, default_steps. rewrite drop_h1.
  change 500%nat with (S 499).
  rewrite (fold_sum_last _ 499), (fold_sum_last _ 499).
  change (S 499) with 500%nat. rewrite INR_500, INR_499, !Rminus_0_r, !Rplus_0_l.
  (* the last slab: crown at the lower height, knuckle at the higher *)
  rewrite (drop_crown_area (499 * (h_lo / 500))) by exact Hlo1.
  rewrite drop_knuckle_area.
  (* the 499 slabs before it *)
  pose proof (fold_sum_le
    (fun i => area_at_height hd (0 + INR i * (h_hi / 500)) * (h_hi / 500))
    (fun i => area_at_height hd (0 + INR i * (h_lo / 500)) * (h_lo / 500))
    (seq 0 499) 0 0 (PI * eps)) as Hsum.
  rewrite length_seq, INR_499 in Hsum.
  assert (Hrest :
    fold_left (fun total i => total + area_at_height hd (0 + INR i * (h_hi / 500)) * (h_hi / 500))
              (seq 0 499) 0
    <= fold_left (fun total i => total + area_at_height hd (0 + INR i * (h_lo / 500)) * (h_lo / 500))
              (seq 0 499) 0 + 499 * (PI * eps)).
  { apply Hsum; [| lra]. intros i Hi. apply in_seq in Hi.
    pose proof (index_below_499 i ltac:(lia)) as Hy.
    rewrite !Rplus_0_l.
    assert (Hd : 0 <= h_lo / 500 <= h_hi / 500) by lra.
    rewrite !drop_crown_area by nra.
    pose proof (Hstep (INR i) Hy) as Hs.
    rewrite !Rmult_assoc. rewrite <- Rmult_plus_distr_l.
    apply Rmult_le_compat_l; [lra | exact Hs]. }
  assert (Hgap : PI * kro ^ 2 * (h_hi / 500) + 499 * (PI * eps)
                 < PI * Rmax (cr ^ 2 - (499 * (h_lo / 500) - co) ^ 2) 0 * (h_lo / 500)).
  { rewrite !Rmult_assoc.
    replace (PI * (kro ^ 2 * (h_hi / 500)) + 499 * (PI * eps))
      with (PI * (kro ^ 2 * (h_hi / 500) + 499 * eps)) by ring.
    apply Rmult_lt_compat_l; [exact Hpi | exact Hlast]. }
  lra.
Qed.

End SamplingDrop.

Section VolumeDrop.
Import heads.
#[local] Opaque pow.

Lemma sqrt_between (lo hi x : R) :
  0 <= lo -> 0 <= hi -> lo ^ 2 < x < hi ^ 2 -> lo < sqrt x < hi.
Proof.
  intros Hlo Hhi [H1 H2]. split.
  - rewrite <- (sqrt_pow2 lo) by exact Hlo. apply sqrt_lt_1_alt. split; [nra | exact H1].
  - rewrite <- (sqrt_pow2 hi) by exact Hhi. apply sqrt_lt_1_alt. split; [nra | exact H2].
Qed.

(** *** ASME F&D head, outside diameter 1 m, wall 10 mm *)

Local Notation "'g0'" := (torispherical_geometry 1.00 0.06 1 0.01).

Lemma g0_constructed : new_ASMEFDHead (PyNum 1) (PyNum 0.01) = Ok (ASMEFDHead g0).
Proof.
  unfold new_ASMEFDHead, torispherical_post_init.
  rewrite validate_head_dimensions_ok by lra. reflexivity.
Qed.

Lemma g0_h2_bounds : 0.116316 < h2 g0 < 0.116317.
Proof.
  unfold torispherical_geometry. cbn [h2].
  rewrite cos_asin by (apply div_within_unit; lra).
  assert (H : 0.883683 < sqrt (1 - ((1 - 2 * (0.06 * 1)) / 2 / (1.00 * 1 - 0.06 * 1))²) < 0.883684).
  { apply sqrt_between; try lra. unfold Rsqr. lra. }
  lra.
Qed.

Lemma g0_h3_bounds : 0.1693 < h3 g0 < 0.1694.
Proof.
  unfold torispherical_geometry. cbn [h3].
  assert (H : 0.8306 < sqrt ((1.00 * 1 - 0.06 * 1) ^ 2 - (1 / 2 - 0.06 * 1) ^ 2) < 0.8307).
  { apply sqrt_between; lra. }
  lra.
Qed.

Lemma g0_volume_drops :
  volume_up_to (ASMEFDHead g0) 0.116551 default_steps
  < volume_up_to (ASMEFDHead g0) 0.116549 default_steps.
Proof.
  pose proof g0_h2_bounds as Hh2. pose proof g0_h3_bounds as Hh3.
  apply (sampling_drop (ASMEFDHead g0) g0 0.99 1 0.44 0.116549 0.116551 0.0000000019).
  - left; reflexivity.
  - reflexivity.
  - cbn; lra.
  - cbn; lra.
  - reflexivity.
  - cbn; lra.
  - lra.
  - lra.
  - change (k_height_offset g0) with (h3 g0).
    replace (knuckle_radius g0) with 0.05 by (cbn; lra). nra.
  - intros y Hy. unfold Rmax.
    destruct (Rle_dec (0.99 ^ 2 - (y * (0.116551 / 500) - 1) ^ 2) 0);
      destruct (Rle_dec (0.99 ^ 2 - (y * (0.116549 / 500) - 1) ^ 2) 0); nra.
  - rewrite Rmax_left by lra. lra.
Qed.

(** C5, which the code breaks: [volume_up_to] is to be non-decreasing in
    [h] for all [h >= h1] on every constructed head, and it is not.  On the ASME
    F&D head of 1 m diameter and 10 mm wall, raising [h] from 0.116549 m to
    0.116551 m (both inside the head, whose top is above 0.1693 m) lowers
    [volume_up_to]: the last of the 500 sampling points leaves the crown
    segment, where the radius is about 0.446 m, for the knuckle segment,
    where it is 0.44 m.  [__post_init__] thins the crown and the knuckle
    radius by the wall but keeps the breakpoint [h2] of the external
    surface, so the two internal arcs do not meet there. *)
Lemma volume_up_to_not_monotone :
  exists hd,
    new_ASMEFDHead (PyNum 1) (PyNum 0.01) = Ok hd /\
    head_h1 hd <= 0.116549 <= 0.116551 /\
    0.116551 <= getattr_h3 hd /\
    volume_up_to hd 0.116551 default_steps < volume_up_to hd 0.116549 default_steps.
Proof.
  exists (ASMEFDHead g0). pose proof g0_h3_bounds as Hh3.
  split; [exact g0_constructed |].
  split; [change (head_h1 (ASMEFDHead g0)) with 0; lra |].
  split; [change (getattr_h3 (ASMEFDHead g0)) with (h3 g0); lra |].
  exact g0_volume_drops.
Qed.

(** *** 2:1 elliptical head, outside diameter 1 m, wall 20 mm *)

Local Notation "'g1'" := (torispherical_geometry 0.90 0.17 1 0.02).

Lemma g1_h2_bounds : 0.097208 < h2 g1 < 0.097210.
Proof.
  unfold torispherical_geometry. cbn [h2].
  rewrite cos_asin by (apply div_within_unit; lra).
  assert (H : 0.89199 < sqrt (1 - ((1 - 2 * (0.17 * 1)) / 2 / (0.90 * 1 - 0.17 * 1))²) < 0.891991).
  { apply sqrt_between; try lra. unfold Rsqr. lra. }
  lra.
Qed.

Lemma g1_h3_bounds : 0.2488 < h3 g1 < 0.2489.
Proof.
  unfold torispherical_geometry. cbn [h3].
  assert (H : 0.6511 < sqrt ((0.90 * 1 - 0.17 * 1) ^ 2 - (1 / 2 - 0.17 * 1) ^ 2) < 0.6512).
  { apply sqrt_between; lra. }
  lra.
Qed.

(** The elliptical head has the same defect: between 0.09740 m and
    0.09741 m the volume sum decreases. *)
Lemma elliptical_volume_up_to_not_monotone :
  exists hd,
    new_Elliptical2to1Head (PyNum 1) (PyNum 0.02) = Ok hd /\
    head_h1 hd <= 0.09740 <= 0.09741 /\
    0.09741 <= getattr_h3 hd /\
    volume_up_to hd 0.09741 default_steps < volume_up_to hd 0.09740 default_steps.
Proof.
  exists (Elliptical2to1Head g1).
  pose proof g1_h2_bounds as Hh2. pose proof g1_h3_bounds as Hh3.
  split.
  { unfold new_Elliptical2to1Head, torispherical_post_init.
    rewrite validate_head_dimensions_ok by lra. reflexivity. }
  split; [change (head_h1 (Elliptical2to1Head g1)) with 0; lra |].
  split; [change (getattr_h3 (Elliptical2to1Head g1)) with (h3 g1); lra |].
  apply (sampling_drop (Elliptical2to1Head g1) g1 0.88 0.9 0.33 0.09740 0.09741 0.000000007).
  - right; reflexivity.
  - reflexivity.
  - cbn; lra.
  - cbn; lra.
  - reflexivity.
  - cbn; lra.
  - lra.
  - lra.
  - change (k_height_offset g1) with (h3 g1).
    replace (knuckle_radius g1) with 0.15 by (cbn; lra). nra.
  - intros y Hy. unfold Rmax.
    destruct (Rle_dec (0.88 ^ 2 - (y * (0.09741 / 500) - 0.9) ^ 2) 0);
      destruct (Rle_dec (0.88 ^ 2 - (y * (0.09740 / 500) - 0.9) ^ 2) 0); nra.
  - rewrite Rmax_left by lra. lra.
Qed.

End VolumeDrop.

(** ** Wetted area of the vessel *)
Section VesselFacts.
Import heads vessel.
#[local] Opaque pow.
#[local] Opaque volume_up_to.

(** C9: a negative liquid height is answered with area 0, not with an
    error, whatever the head and the shell height are; a negative shell
    height, by contrast, raises as soon as the height is not negative. *)
Theorem wetted_area_up_to_height_negative
    (H : R) (hd : head) (shell_height : pynum) (steps : nat) :
  (H < 0 ->
     wetted_area_up_to_height (PyNum H) (Some hd) shell_height steps = Ok 0) /\
  (forall s : R, 0 <= H -> s < 0 ->
     wetted_area_up_to_height (PyNum H) (Some hd) (PyNum s) steps
     = Raise ShellHeightNegative).
Proof.
  unfold wetted_area_up_to_height. split.
  - intros HH. rewrite ltb_true by exact HH. reflexivity.
  - intros s HH Hs. rewrite ltb_false by lra. rewrite ltb_true by exact Hs.
    reflexivity.
Qed.

Lemma wetted_area_up_to_height_negative_witness :
  wetted_area_up_to_height (PyNum (-1))
    (Some (HemisphericalHead
             {| hs_diameter := 2; hs_thickness := 0; hs_radius := 1;
                head_depth := 1; hs_h1 := 0; hs_h2 := 1 |}))
    (PyNum 5) 500 = Ok 0.
Proof. apply wetted_area_up_to_height_negative. lra. Defined.

Lemma validated_steps_pos (steps : Z) : (10 <= steps)%Z -> (0 < Z.to_nat steps)%nat.
Proof. lia. Qed.

Lemma py_div_int_pos (x : R) (n : nat) :
  (0 < n)%nat -> py_div_int x n = Ok (x / INR n).
Proof. intros Hn. unfold py_div_int. destruct n; [lia | reflexivity]. Qed.

(** With at least one step the integration over a head returns. *)
Lemma head_wetted_area_up_to_returns (h : R) (hd : head) (steps : nat) :
  (0 < steps)%nat -> returns (head_wetted_area_up_to h hd steps).
Proof.
  intros Hs. unfold returns, head_wetted_area_up_to.
  destruct (h <=? head_h1 hd); [eexists; reflexivity |].
  rewrite py_div_int_pos by exact Hs. eexists. reflexivity.
Qed.

(** With a head, a numeric, non-negative shell height and at least one
    step the integration entry point returns. *)
Lemma wetted_area_up_to_height_returns (H L : R) (hd : head) (steps : nat) :
  0 <= L -> (0 < steps)%nat ->
  returns (wetted_area_up_to_height (PyNum H) (Some hd) (PyNum L) steps).
Proof.
  intros HL Hs. unfold returns, wetted_area_up_to_height.
  destruct (H <? 0); [eexists; reflexivity |].
  rewrite ltb_false by exact HL.
  pose proof (fun h => head_wetted_area_up_to_returns h hd steps Hs) as Hhead.
  destruct (H <=? getattr_h3 hd); [apply Hhead |].
  destruct (Hhead (getattr_h3 hd)) as [a Ha]. rewrite Ha. cbn [bind].
  destruct (H <=? getattr_h3 hd + L); [eexists; reflexivity |].
  destruct (Hhead (H - (getattr_h3 hd + L))) as [b Hb]. rewrite Hb.
  eexists. reflexivity.
Qed.

Lemma wetted_area_up_to_height_zero (L : R) (hd : head) (steps : nat) :
  constructed hd -> 0 <= L ->
  wetted_area_up_to_height (PyNum 0) (Some hd) (PyNum L) steps = Ok 0.
Proof.
  intros Hc HL. unfold wetted_area_up_to_height.
  rewrite ltb_false by lra. rewrite ltb_false by exact HL.
  rewrite leb_true by (apply constructed_top_nonneg; exact Hc).
  unfold head_wetted_area_up_to. rewrite (constructed_h1 hd Hc).
  rewrite leb_true by lra. reflexivity.
Qed.

(** *** Building the head *)

Lemma build_head_ok (head_type : string) (OD_m thickness_mm : R) :
  In head_type valid_head_types -> vessel_dimensions_ok OD_m thickness_mm ->
  exists hd, _build_head (Text head_type) (PyNum OD_m) (PyNum thickness_mm) = Ok hd /\
             constructed hd.
Proof.
  intros Hin (HD & Ht & Htr).
  assert (Hdim : 0 < OD_m /\ 0 <= thickness_mm / 1000 < OD_m / 2) by lra.
  unfold _build_head, _validate_positive, _validate_non_negative.
  rewrite leb_false by lra. cbn [bind]. rewrite ltb_false by lra. cbn [bind].
  unfold Cmp.geb. rewrite leb_false by lra.
  destruct Hin as [<- | [<- | [<- | []]]]; cbn [String.eqb Ascii.eqb Bool.eqb andb].
  - eexists. split.
    + unfold new_ASMEFDHead, torispherical_post_init.
      rewrite validate_head_dimensions_ok by lra. reflexivity.
    + exists OD_m, (thickness_mm / 1000). split; [exact Hdim |]. left.
      unfold new_ASMEFDHead, torispherical_post_init.
      rewrite validate_head_dimensions_ok by lra. reflexivity.
  - eexists. split.
    + unfold new_Elliptical2to1Head, torispherical_post_init.
      rewrite validate_head_dimensions_ok by lra. reflexivity.
    + exists OD_m, (thickness_mm / 1000). split; [exact Hdim |]. right; left.
      unfold new_Elliptical2to1Head, torispherical_post_init.
      rewrite validate_head_dimensions_ok by lra. reflexivity.
  - eexists. split.
    + unfold new_HemisphericalHead.
      rewrite validate_head_dimensions_ok by lra. reflexivity.
    + exists OD_m, (thickness_mm / 1000). split; [exact Hdim |]. right; right.
      unfold new_HemisphericalHead.
      rewrite validate_head_dimensions_ok by lra. reflexivity.
Qed.

(** *** The liquid height is never negative *)

Lemma bisect_within (V : R) (hd : head) (steps : nat) (low high : R) :
  low <= high ->
  low <= fst (bisect V hd steps low high) /\
  fst (bisect V hd steps low high) <= snd (bisect V hd steps low high) /\
  snd (bisect V hd steps low high) <= high.
Proof.
  revert low high. induction steps as [| n IH]; intros low high Hlh.
  - cbn. lra.
  - cbn [bisect]. cbv zeta.
    destruct (volume_up_to hd (0.5 * (low + high)) default_steps <? V).
    + destruct (IH (0.5 * (low + high)) high) as (H1 & H2 & H3); lra.
    + destruct (IH low (0.5 * (low + high))) as (H1 & H2 & H3); lra.
Qed.

Lemma solve_height_in_head_within (V : R) (hd : head) (steps : nat) :
  head_h1 hd <= getattr_h3 hd ->
  head_h1 hd <= solve_height_in_head V hd steps <= getattr_h3 hd.
Proof.
  intros Hh. unfold solve_height_in_head.
  pose proof (bisect_within V hd steps (head_h1 hd) (getattr_h3 hd) Hh) as H.
  destruct (bisect V hd steps (head_h1 hd) (getattr_h3 hd)) as [low high].
  cbn [fst snd] in H. lra.
Qed.

Lemma liquid_height_nonneg (V L : R) (hd : head) :
  constructed hd -> 0 <= L -> 0 <= liquid_height_from_volume V hd L.
Proof.
  intros Hc HL.
  pose proof (constructed_h1 hd Hc) as Hh1.
  pose proof (constructed_top_nonneg hd Hc) as Htop.
  pose proof (constructed_radius_pos hd Hc) as HR.
  assert (Hsolve : forall W, 0 <= solve_height_in_head W hd 40).
  { intros W. pose proof (solve_height_in_head_within W hd 40) as H.
    rewrite Hh1 in H. apply H. exact Htop. }
  unfold liquid_height_from_volume. cbv zeta.
  unfold Cmp.leb.
  destruct (Rle_dec V (max_head_volume hd)) as [Hv | Hv]; [apply Hsolve |].
  destruct (Rle_dec (V - max_head_volume hd) (PI * head_radius hd ^ 2 * L)).
  - assert (Hcyl : 0 < PI * head_radius hd ^ 2).
    { pose proof PI_RGT_0. apply Rmult_lt_0_compat; [lra | nra]. }
    assert (0 <= (V - max_head_volume hd) / (PI * head_radius hd ^ 2)).
    { apply Rmult_le_pos; [lra | left; apply Rinv_0_lt_compat; exact Hcyl]. }
    lra.
  - specialize (Hsolve (V - max_head_volume hd - PI * head_radius hd ^ 2 * L)). lra.
Qed.

(** *** The entry point on otherwise valid arguments *)

Lemma in_valid_head_types_true (head_type : string) :
  In head_type valid_head_types -> in_valid_head_types (Text head_type) = true.
Proof. intros [<- | [<- | [<- | []]]]; reflexivity. Qed.

Lemma fill_volume_after_checks
    (area_up_to : pynum -> option head -> pynum -> nat -> result R)
    (head_type : string) (L OD t bottom fire fill : R) (steps : Z) (hd : head) :
  otherwise_valid head_type L OD t bottom fire fill steps ->
  _build_head (Text head_type) (PyNum OD) (PyNum t) = Ok hd ->
  wetted_area_from_fill_volume_body area_up_to
    (Text "Vertical") (Text head_type) (PyNum L) (PyNum OD) (PyNum t)
    (PyNum bottom) (PyNum fire) (PyNum fill) (PyInt steps)
  = if fill >? capacity hd L then Raise (CapacityExceeded fill (capacity hd L))
    else if fire - bottom <=? 0 then
      Ok {| liquid_height_m := liquid_height_from_volume fill hd L;
            liquid_height_exposed_m := 0;
            wetted_area_m2 := 0 |}
    else
      A <- area_up_to (PyNum (Rmin (liquid_height_from_volume fill hd L) (fire - bottom)))
             (Some hd) (PyNum L) (Z.to_nat steps) ;;
      Ok {| liquid_height_m := liquid_height_from_volume fill hd L;
            liquid_height_exposed_m :=
              Rmin (liquid_height_from_volume fill hd L) (fire - bottom);
            wetted_area_m2 := A |}.
Proof.
  intros [Hht (HD & Ht & Htr) HL Hb Hf Hv Hs] Hhd.
  unfold wetted_area_from_fill_volume_body.
  change (String.eqb "Vertical" "Vertical") with true. cbn [negb].
  rewrite (in_valid_head_types_true head_type Hht). cbn [negb].
  unfold _validate_positive, _validate_non_negative, _validate_positive_int.
  rewrite leb_false by lra. cbn [bind].
  rewrite !ltb_false by lra. cbn [bind].
  assert (Hsteps : (steps <? 10)%Z = false) by (apply Z.ltb_ge; exact Hs).
  rewrite Hsteps. cbn [bind].
  unfold Cmp.geb at 1. rewrite leb_false by lra.
  rewrite Hhd. cbn [bind]. reflexivity.
Qed.

(** C6: on otherwise valid arguments, a fill volume strictly above the
    capacity [2 * max_head_volume + pi * R^2 * tangent_length] makes the call
    raise the capacity error, which carries the fill volume (unchanged) and
    the capacity; a fill volume at or below the capacity makes the call
    return a result. *)
Theorem wetted_area_from_fill_volume_capacity
    (head_type : string) (L OD t bottom fire fill : R) (steps : Z) :
  otherwise_valid head_type L OD t bottom fire fill steps ->
  exists hd,
    _build_head (Text head_type) (PyNum OD) (PyNum t) = Ok hd /\
    (fill > max_head_volume hd * 2 + PI * head_radius hd ^ 2 * L ->
       wetted_area_from_fill_volume
         (Text "Vertical") (Text head_type) (PyNum L) (PyNum OD) (PyNum t)
         (PyNum bottom) (PyNum fire) (PyNum fill) (PyInt steps)
       = Raise (CapacityExceeded fill
                  (max_head_volume hd * 2 + PI * head_radius hd ^ 2 * L))) /\
    (fill <= max_head_volume hd * 2 + PI * head_radius hd ^ 2 * L ->
       returns (wetted_area_from_fill_volume
         (Text "Vertical") (Text head_type) (PyNum L) (PyNum OD) (PyNum t)
         (PyNum bottom) (PyNum fire) (PyNum fill) (PyInt steps))).
Proof.
  intros Hv.
  destruct (build_head_ok head_type OD t (ov_head_type _ _ _ _ _ _ _ _ Hv)
              (ov_dimensions _ _ _ _ _ _ _ _ Hv)) as (hd & Hhd & Hc).
  exists hd. split; [exact Hhd |].
  unfold wetted_area_from_fill_volume.
  rewrite (fill_volume_after_checks _ _ _ _ _ _ _ _ _ hd Hv Hhd).
  fold (capacity hd L). unfold Cmp.gtb. split; intros Hcap.
  - rewrite ltb_true by lra. reflexivity.
  - rewrite ltb_false by lra.
    destruct (fire - bottom <=? 0); [eexists; reflexivity |].
    destruct (wetted_area_up_to_height_returns
                (Rmin (liquid_height_from_volume fill hd L) (fire - bottom)) L hd
                (Z.to_nat steps) (ov_tangent _ _ _ _ _ _ _ _ Hv)
                (validated_steps_pos _ (ov_steps _ _ _ _ _ _ _ _ Hv))) as [A HA].
    rewrite HA. eexists. reflexivity.
Qed.

Lemma capacity_nonneg (hd : head) (L : R) :
  constructed hd -> 0 <= L -> 0 <= capacity hd L.
Proof.
  intros Hc HL. unfold capacity, max_head_volume.
  pose proof (volume_up_to_nonneg hd (getattr_h3 hd) default_steps) as HV.
  rewrite (constructed_h1 hd Hc) in HV.
  specialize (HV (constructed_top_nonneg hd Hc)).
  pose proof PI_RGT_0 as Hpi. pose proof (pow2_ge_0 (head_radius hd)) as HR.
  assert (0 <= PI * head_radius hd ^ 2 * L).
  { apply Rmult_le_pos; [apply Rmult_le_pos; lra | exact HL]. }
  lra.
Qed.

(** C4: on valid arguments (fill volume within the capacity included) the
    call returns the liquid height, the exposed height
    [min(liquid_height, max(0, fire_height - bottom_height))] and the value
    of [wetted_area_up_to_height] at that exposed height.  When the fire
    plane is not above the vessel bottom, both the exposed height and the
    area are 0 and the result is the same whatever routine is put in the
    place of [wetted_area_up_to_height]: that path does not call it. *)
Theorem wetted_area_from_fill_volume_exposed
    (head_type : string) (L OD t bottom fire fill : R) (steps : Z) :
  otherwise_valid head_type L OD t bottom fire fill steps ->
  exists hd,
    _build_head (Text head_type) (PyNum OD) (PyNum t) = Ok hd /\
    (fill <= max_head_volume hd * 2 + PI * head_radius hd ^ 2 * L ->
     exists A,
       wetted_area_up_to_height
         (PyNum (Rmin (liquid_height_from_volume fill hd L) (Rmax 0 (fire - bottom))))
         (Some hd) (PyNum L) (Z.to_nat steps) = Ok A /\
       wetted_area_from_fill_volume
         (Text "Vertical") (Text head_type) (PyNum L) (PyNum OD) (PyNum t)
         (PyNum bottom) (PyNum fire) (PyNum fill) (PyInt steps)
       = Ok {| liquid_height_m := liquid_height_from_volume fill hd L;
               liquid_height_exposed_m :=
                 Rmin (liquid_height_from_volume fill hd L) (Rmax 0 (fire - bottom));
               wetted_area_m2 := A |} /\
       (fire - bottom <= 0 ->
          Rmin (liquid_height_from_volume fill hd L) (Rmax 0 (fire - bottom)) = 0 /\
          A = 0 /\
          forall area_up_to,
            wetted_area_from_fill_volume_body area_up_to
              (Text "Vertical") (Text head_type) (PyNum L) (PyNum OD) (PyNum t)
              (PyNum bottom) (PyNum fire) (PyNum fill) (PyInt steps)
            = Ok {| liquid_height_m := liquid_height_from_volume fill hd L;
                    liquid_height_exposed_m := 0;
                    wetted_area_m2 := 0 |})).
Proof.
  intros Hv.
  destruct (build_head_ok head_type OD t (ov_head_type _ _ _ _ _ _ _ _ Hv)
              (ov_dimensions _ _ _ _ _ _ _ _ Hv)) as (hd & Hhd & Hc).
  pose proof (ov_tangent _ _ _ _ _ _ _ _ Hv) as HL.
  pose proof (liquid_height_nonneg fill L hd Hc HL) as Hlh.
  exists hd. split; [exact Hhd |]. fold (capacity hd L). intros Hcap.
  assert (Hbody : forall area_up_to,
    wetted_area_from_fill_volume_body area_up_to
      (Text "Vertical") (Text head_type) (PyNum L) (PyNum OD) (PyNum t)
      (PyNum bottom) (PyNum fire) (PyNum fill) (PyInt steps)
    = if fire - bottom <=? 0 then
        Ok {| liquid_height_m := liquid_height_from_volume fill hd L;
              liquid_height_exposed_m := 0;
              wetted_area_m2 := 0 |}
      else
        A <- area_up_to (PyNum (Rmin (liquid_height_from_volume fill hd L) (fire - bottom)))
               (Some hd) (PyNum L) (Z.to_nat steps) ;;
        Ok {| liquid_height_m := liquid_height_from_volume fill hd L;
              liquid_height_exposed_m :=
                Rmin (liquid_height_from_volume fill hd L) (fire - bottom);
              wetted_area_m2 := A |}).
  { intros area_up_to.
    rewrite (fill_volume_after_checks _ _ _ _ _ _ _ _ _ hd Hv Hhd).
    unfold Cmp.gtb. rewrite ltb_false by lra. reflexivity. }
  unfold wetted_area_from_fill_volume.
  destruct (Rle_dec (fire - bottom) 0) as [Hlow | Hhigh].
  - (* the fire plane does not reach the vessel *)
    assert (Hexp : Rmin (liquid_height_from_volume fill hd L) (Rmax 0 (fire - bottom)) = 0).
    { rewrite Rmax_left by exact Hlow. apply Rmin_right. exact Hlh. }
    exists 0. rewrite Hexp. split; [apply wetted_area_up_to_height_zero; assumption |].
    split.
    + rewrite Hbody, leb_true by exact Hlow. reflexivity.
    + intros _. split; [reflexivity |]. split; [reflexivity |].
      intros area_up_to. rewrite Hbody, leb_true by exact Hlow. reflexivity.
  - assert (Hmax : Rmax 0 (fire - bottom) = fire - bottom) by (apply Rmax_right; lra).
    rewrite Hmax.
    destruct (wetted_area_up_to_height_returns
                (Rmin (liquid_height_from_volume fill hd L) (fire - bottom)) L hd
                (Z.to_nat steps) HL
                (validated_steps_pos _ (ov_steps _ _ _ _ _ _ _ _ Hv))) as [A HA].
    exists A. split; [exact HA |]. split.
    + rewrite Hbody, leb_false by lra. rewrite HA. reflexivity.
    + intros Hlow. lra.
Qed.

(** *** A vessel with hemispherical heads: 2 m diameter, 10 mm wall, 5 m shell *)

Lemma example_vessel_valid (fire fill : R) :
  0 <= fire -> 0 <= fill ->
  otherwise_valid "Hemispherical" 5 2 10 0.5 fire fill 500.
Proof.
  intros Hf Hv. constructor; try lra; try lia.
  - right; right; left; reflexivity.
  - unfold vessel_dimensions_ok. lra.
Qed.

Lemma example_vessel_head (hd : head) :
  _build_head (Text "Hemispherical") (PyNum 2) (PyNum 10) = Ok hd ->
  constructed hd /\
  hd = HemisphericalHead
         {| hs_diameter := 2; hs_thickness := 10 / 1000;
            hs_radius := 2 / 2 - 10 / 1000; head_depth := 2 / 2 - 10 / 1000;
            hs_h1 := 0; hs_h2 := 2 / 2 - 10 / 1000 |}.
Proof.
  intros Hhd.
  destruct (build_head_ok "Hemispherical" 2 10) as (hd' & Hhd' & Hc).
  { right; right; left; reflexivity. }
  { unfold vessel_dimensions_ok. lra. }
  rewrite Hhd in Hhd'. injection Hhd' as <-. split; [exact Hc |].
  revert Hhd. unfold _build_head, _validate_positive, _validate_non_negative.
  rewrite leb_false by lra. cbn [bind]. rewrite ltb_false by lra. cbn [bind].
  unfold Cmp.geb. rewrite leb_false by lra.
  cbn [String.eqb Ascii.eqb Bool.eqb andb].
  unfold new_HemisphericalHead. rewrite validate_head_dimensions_ok by lra.
  cbn [bind fst snd]. intros Hhd. injection Hhd as <-. reflexivity.
Qed.

Lemma example_vessel_capacity (hd : head) :
  _build_head (Text "Hemispherical") (PyNum 2) (PyNum 10) = Ok hd ->
  0 <= max_head_volume hd * 2 + PI * head_radius hd ^ 2 * 5 < 28.
Proof.
  intros Hhd. destruct (example_vessel_head hd Hhd) as [Hc ->].
  split; [apply (capacity_nonneg _ 5 Hc); lra |].
  unfold max_head_volume. cbn [getattr_h3 head_radius hs_h2 hs_radius].
  pose proof (volume_up_to_le_cylinder
    (HemisphericalHead
       {| hs_diameter := 2; hs_thickness := 10 / 1000;
          hs_radius := 2 / 2 - 10 / 1000; head_depth := 2 / 2 - 10 / 1000;
          hs_h1 := 0; hs_h2 := 2 / 2 - 10 / 1000 |})
    (2 / 2 - 10 / 1000) (2 / 2 - 10 / 1000) default_steps) as HV.
  cbn [head_h1 hs_h1] in HV.
  assert (Hle : volume_up_to
    (HemisphericalHead
       {| hs_diameter := 2; hs_thickness := 10 / 1000;
          hs_radius := 2 / 2 - 10 / 1000; head_depth := 2 / 2 - 10 / 1000;
          hs_h1 := 0; hs_h2 := 2 / 2 - 10 / 1000 |})
    (2 / 2 - 10 / 1000) default_steps
    <= PI * (2 / 2 - 10 / 1000) ^ 2 * (2 / 2 - 10 / 1000 - 0)).
  { apply HV; [lra | unfold default_steps; lia |].
    intros x. cbn [radius_at_height].
    apply hemispherical_radius_bounded; cbn [hs_radius hs_h2]; lra. }
  pose proof PI_4 as Hpi4. pose proof PI_RGT_0 as Hpi0. nra.
Qed.

Lemma wetted_area_from_fill_volume_capacity_witness :
  exists cap,
    cap < 1000 /\
    wetted_area_from_fill_volume
      (Text "Vertical") (Text "Hemispherical") (PyNum 5) (PyNum 2) (PyNum 10)
      (PyNum 0.5) (PyNum 9.14) (PyNum 1000) (PyInt 500)
    = Raise (CapacityExceeded 1000 cap).
Proof.
  destruct (wetted_area_from_fill_volume_capacity "Hemispherical" 5 2 10 0.5 9.14 1000 500)
    as (hd & Hhd & Hraise & _).
  { apply example_vessel_valid; lra. }
  pose proof (example_vessel_capacity hd Hhd) as Hcap.
  eexists. split; [| apply Hraise; lra]. lra.
Defined.

Lemma wetted_area_from_fill_volume_exposed_witness :
  exists hd,
    _build_head (Text "Hemispherical") (PyNum 2) (PyNum 10) = Ok hd /\
    wetted_area_from_fill_volume
      (Text "Vertical") (Text "Hemispherical") (PyNum 5) (PyNum 2) (PyNum 10)
      (PyNum 0.5) (PyNum 0.3) (PyNum 0) (PyInt 500)
    = Ok {| liquid_height_m := liquid_height_from_volume 0 hd 5;
            liquid_height_exposed_m := 0;
            wetted_area_m2 := 0 |}.
Proof.
  destruct (wetted_area_from_fill_volume_exposed "Hemispherical" 5 2 10 0.5 0.3 0 500)
    as (hd & Hhd & Hres).
  { apply example_vessel_valid; lra. }
  exists hd. split; [exact Hhd |].
  pose proof (example_vessel_capacity hd Hhd) as Hcap.
  destruct Hres as (A & _ & _ & Hlow); [lra |].
  destruct Hlow as (_ & _ & Hany); [lra |].
  apply Hany.
Defined.

End VesselFacts.

(** ** Heads without wall thickness

    With a thickness of 0 the internal arcs are the external ones, they
    meet at [h2] and at [h3], and the radius profile of a torispherical
    head never steps down: [volume_up_to] is then non-decreasing over the
    whole height, as it is for the hemispherical head. *)
Section ZeroWall.
Import heads.
#[local] Opaque pow.

Lemma sqrt_clamped_le (u w : R) : 0 <= w -> u <= w ^ 2 -> sqrt (Rmax u 0) <= w.
Proof.
  intros Hw Hu. rewrite <- (sqrt_pow2 w) by exact Hw.
  apply sqrt_le_1_alt. apply Rmax_lub; [exact Hu | apply pow2_ge_0].
Qed.

Lemma sqrt_clamped_ge (v w : R) : 0 <= w -> w ^ 2 <= v -> w <= sqrt (Rmax v 0).
Proof.
  intros Hw Hv. rewrite <- (sqrt_pow2 w) at 1 by exact Hw.
  apply sqrt_le_1_alt. apply Rle_trans with v; [exact Hv | apply Rmax_l].
Qed.

(** The profile of two arcs that meet: a crown of radius [Rc] up to the
    angle with cosine [c] and sine [e], then a knuckle of radius [Rk]. *)
Lemma meeting_arcs_radius_mono (g : torispherical) (Rc Rk c e x y : R) :
  0 < Rk < Rc -> 0 <= c -> 0 <= e <= 1 -> e ^ 2 = 1 - c ^ 2 ->
  crown_radius g = Rc -> c_height_offset g = Rc -> c_radius_offset g = 0 ->
  knuckle_radius g = Rk -> k_radius_offset g = (Rc - Rk) * e ->
  k_height_offset g = Rc - (Rc - Rk) * c ->
  radius g = Rk + (Rc - Rk) * e ->
  h2 g = Rc - c * Rc -> h3 g = Rc - (Rc - Rk) * c ->
  x <= y ->
  0 <= torispherical_radius_at_height g x <= torispherical_radius_at_height g y.
Proof.
  intros [HRk HRc] Hc [He0 He1] Hce Ecr Ech Eco Ekr Eko Ekh Er Eh2 Eh3 Hxy.
  unfold torispherical_radius_at_height. cbv zeta.
  rewrite Ecr, Ech, Eco, Ekr, Eko, Ekh, Er, Eh2, Eh3.
  assert (Hb : 0 <= (Rc - Rk) * e) by (apply Rmult_le_pos; lra).
  assert (Hc1 : c <= 1) by nra.
  assert (Hh23 : Rc - c * Rc <= Rc - (Rc - Rk) * c) by nra.
  assert (Hjoin_lo : forall z, z <= Rc - c * Rc ->
            sqrt (Rmax (Rc ^ 2 - (z - Rc) ^ 2) 0) + 0 <= Rc * e).
  { intros z Hz. rewrite Rplus_0_r. apply sqrt_clamped_le; [nra |].
    assert (H0 : 0 <= c * Rc) by (apply Rmult_le_pos; lra).
    assert (H1 : 0 <= (Rc - z) - c * Rc) by lra.
    assert (H2 : 0 <= (Rc - z) + c * Rc) by lra.
    pose proof (Rmult_le_pos _ _ H1 H2) as H3.
    assert ((c * Rc) ^ 2 <= (z - Rc) ^ 2) by nra. nra. }
  assert (Hjoin_hi : forall z, Rc - c * Rc < z -> z <= Rc - (Rc - Rk) * c ->
            Rc * e <= sqrt (Rmax (Rk ^ 2 - (z - (Rc - (Rc - Rk) * c)) ^ 2) 0)
                      + (Rc - Rk) * e).
  { intros z Hz1 Hz2.
    assert (Rk * e <= sqrt (Rmax (Rk ^ 2 - (z - (Rc - (Rc - Rk) * c)) ^ 2) 0)).
    { apply sqrt_clamped_ge; [nra |].
      assert (H0 : 0 <= c * Rk) by (apply Rmult_le_pos; lra).
      assert (H1 : 0 <= c * Rk - ((Rc - (Rc - Rk) * c) - z)) by lra.
      assert (H2 : 0 <= c * Rk + ((Rc - (Rc - Rk) * c) - z)) by lra.
      pose proof (Rmult_le_pos _ _ H1 H2) as H3.
      assert ((z - (Rc - (Rc - Rk) * c)) ^ 2 <= (c * Rk) ^ 2) by nra. nra. }
    lra. }
  assert (Hknuckle_top : forall z,
            sqrt (Rmax (Rk ^ 2 - (z - (Rc - (Rc - Rk) * c)) ^ 2) 0) + (Rc - Rk) * e
            <= Rk + (Rc - Rk) * e).
  { intros z.
    assert (sqrt (Rmax (Rk ^ 2 - (z - (Rc - (Rc - Rk) * c)) ^ 2) 0) <= Rk).
    { apply sqrt_clamped_le; [lra |].
      pose proof (pow2_ge_0 (z - (Rc - (Rc - Rk) * c))). lra. }
    lra. }
  assert (Htop : Rc * e <= Rk + (Rc - Rk) * e) by nra.
  unfold Cmp.leb.
  destruct (Rle_dec x (Rc - c * Rc)) as [Hx2 | Hx2];
    destruct (Rle_dec y (Rc - c * Rc)) as [Hy2 | Hy2]; try lra.
  - split; [rewrite Rplus_0_r; apply sqrt_pos |].
    apply Rplus_le_compat_r. apply sqrt_clamped_mono.
    assert (H0 : 0 <= c * Rc) by (apply Rmult_le_pos; lra).
    assert (H1 : 0 <= (Rc - x) - (Rc - y)) by lra.
    assert (H2 : 0 <= (Rc - x) + (Rc - y)) by lra.
    pose proof (Rmult_le_pos _ _ H1 H2) as H3. nra.
  - split; [rewrite Rplus_0_r; apply sqrt_pos |].
    specialize (Hjoin_lo x Hx2).
    destruct (Rle_dec y (Rc - (Rc - Rk) * c)) as [Hy3 | Hy3].
    + specialize (Hjoin_hi y ltac:(lra) Hy3). lra.
    + lra.
  - destruct (Rle_dec x (Rc - (Rc - Rk) * c)) as [Hx3 | Hx3];
      destruct (Rle_dec y (Rc - (Rc - Rk) * c)) as [Hy3 | Hy3]; try lra.
    + split.
      * pose proof (sqrt_pos (Rmax (Rk ^ 2 - (x - (Rc - (Rc - Rk) * c)) ^ 2) 0)). lra.
      * apply Rplus_le_compat_r. apply sqrt_clamped_mono.
        assert (H1 : 0 <= ((Rc - (Rc - Rk) * c) - x) - ((Rc - (Rc - Rk) * c) - y)) by lra.
        assert (H2 : 0 <= ((Rc - (Rc - Rk) * c) - x) + ((Rc - (Rc - Rk) * c) - y)) by lra.
        pose proof (Rmult_le_pos _ _ H1 H2) as H3. nra.
    + split.
      * pose proof (sqrt_pos (Rmax (Rk ^ 2 - (x - (Rc - (Rc - Rk) * c)) ^ 2) 0)). lra.
      * apply Hknuckle_top.
Qed.

Lemma zero_wall_radius_mono (major minor D x y : R) :
  proportions major minor -> 0 < D -> x <= y ->
  0 <= torispherical_radius_at_height (torispherical_geometry major minor D 0) x
    <= torispherical_radius_at_height (torispherical_geometry major minor D 0) y.
Proof.
  intros Hp HD Hxy.
  set (a := major * D - minor * D).
  set (b := (D - 2 * (minor * D)) / 2).
  assert (Ha : 0 < a) by (unfold a; destruct Hp as [[-> ->] | [-> ->]]; lra).
  assert (Hb : 0 <= b) by (unfold b; destruct Hp as [[-> ->] | [-> ->]]; lra).
  assert (Hba : b < a) by (unfold a, b; destruct Hp as [[-> ->] | [-> ->]]; lra).
  assert (Hq : 0 <= b / a < 1).
  { split.
    - apply Rmult_le_pos; [exact Hb | left; apply Rinv_0_lt_compat; exact Ha].
    - apply Rmult_lt_reg_r with a; [exact Ha |].
      unfold Rdiv. rewrite Rmult_assoc, Rinv_l by lra. lra. }
  assert (Hsin : sin (asin (b / a)) = b / a) by (apply sin_asin; lra).
  pose proof (asin_bound (b / a)) as Hbound.
  assert (Hc : 0 <= cos (asin (b / a))) by (apply cos_ge_0; lra).
  pose proof (sin2_cos2 (asin (b / a))) as Hsc. unfold Rsqr in Hsc. rewrite Hsin in Hsc.
  set (c := cos (asin (b / a))) in *.
  assert (Hae : a * (b / a) = b) by (field; lra).
  assert (Hcc : c * c = 1 - b / a * (b / a)) by lra.
  assert (Hc1 : c <= 1) by nra.
  assert (Hs : sqrt (a ^ 2 - (D / 2 - minor * D) ^ 2) = a * c).
  { replace (D / 2 - minor * D) with (a * (b / a)) by (rewrite Hae; unfold b; lra).
    apply sqrt_lem_1.
    - replace (a ^ 2 - (a * (b / a)) ^ 2) with (a ^ 2 * (c * c)) by (rewrite Hcc; ring).
      apply Rmult_le_pos; [apply pow2_ge_0 | nra].
    - apply Rmult_le_pos; lra.
    - replace (a * c * (a * c)) with (a ^ 2 * (c * c)) by ring. rewrite Hcc. ring. }
  apply (meeting_arcs_radius_mono _ (major * D) (minor * D) c (b / a));
    unfold torispherical_geometry;
    cbn [crown_radius c_height_offset c_radius_offset knuckle_radius k_radius_offset
         k_height_offset radius h2 h3];
    fold a; fold b; fold c; try rewrite Hs; try rewrite Hae; try lra.
  - destruct Hp as [[-> ->] | [-> ->]]; lra.
  - unfold b. lra.
Qed.

(** A torispherical head without wall has a monotone volume sum over its
    whole height and beyond. *)
Lemma zero_wall_volume_up_to_monotone (D : R) (hd : head) (h h' : R) :
  0 < D ->
  new_ASMEFDHead (PyNum D) (PyNum 0) = Ok hd \/
  new_Elliptical2to1Head (PyNum D) (PyNum 0) = Ok hd ->
  head_h1 hd <= h <= h' ->
  volume_up_to hd h default_steps <= volume_up_to hd h' default_steps.
Proof.
  intros HD Hhd Hh. apply volume_up_to_mono_on; [exact Hh |].
  intros x y Hxy _.
  destruct Hhd as [Hhd | Hhd];
    [unfold new_ASMEFDHead in Hhd | unfold new_Elliptical2to1Head in Hhd];
    unfold torispherical_post_init in Hhd;
    rewrite validate_head_dimensions_ok in Hhd by lra;
    cbn [bind fst snd] in Hhd; injection Hhd as <-; cbn [radius_at_height];
    apply zero_wall_radius_mono; try lra.
  - left; split; reflexivity.
  - right; split; reflexivity.
Qed.

End ZeroWall.

(** * Further properties of the code *)

(** ** Construction of the heads *)
Section HeadConstruction.
Import heads.
#[local] Opaque pow.

Lemma validate_head_dimensions_returns_iff (D t : R) :
  returns (_validate_head_dimensions (PyNum D) (PyNum t)) <-> 0 < D /\ 0 <= t < D / 2.
Proof.
  unfold returns, _validate_head_dimensions. cmp_unfold.
  destruct (Rle_dec D 0); [split; [intros [? H]; discriminate H | lra] |].
  destruct (Rlt_dec t 0); [split; [intros [? H]; discriminate H | lra] |].
  destruct (Rle_dec (D / 2) t); [split; [intros [? H]; discriminate H | lra] |].
  split; [lra | eexists; reflexivity].
Qed.

Lemma validate_head_dimensions_thick (D t : R) :
  0 < D -> 0 <= t -> D / 2 <= t ->
  _validate_head_dimensions (PyNum D) (PyNum t)
  = Raise (ThicknessNotBelowRadius (t * 1000) (D / 2 * 1000)).
Proof.
  intros HD Ht Hthick. unfold _validate_head_dimensions.
  rewrite leb_false by lra. rewrite ltb_false by lra.
  unfold Cmp.geb. rewrite leb_true by lra. reflexivity.
Qed.

(** X1: each of the three constructors accepts exactly the dimensions with
    [0 < D] and [0 <= t < D/2]; a wall of at least the radius makes each of
    them raise the error that carries the thickness and the radius in
    millimetres. *)
Theorem head_constructors_accept_iff (D t : R) :
  (returns (new_ASMEFDHead (PyNum D) (PyNum t)) <-> 0 < D /\ 0 <= t < D / 2) /\
  (returns (new_Elliptical2to1Head (PyNum D) (PyNum t)) <-> 0 < D /\ 0 <= t < D / 2) /\
  (returns (new_HemisphericalHead (PyNum D) (PyNum t)) <-> 0 < D /\ 0 <= t < D / 2) /\
  (0 < D /\ 0 <= t /\ D / 2 <= t ->
     new_ASMEFDHead (PyNum D) (PyNum t)
       = Raise (ThicknessNotBelowRadius (t * 1000) (D / 2 * 1000)) /\
     new_Elliptical2to1Head (PyNum D) (PyNum t)
       = Raise (ThicknessNotBelowRadius (t * 1000) (D / 2 * 1000)) /\
     new_HemisphericalHead (PyNum D) (PyNum t)
       = Raise (ThicknessNotBelowRadius (t * 1000) (D / 2 * 1000))).
Proof.
  pose proof (validate_head_dimensions_returns_iff D t) as Hiff.
  assert (Hgen : forall (A : Type) (k : R * R -> result A),
             (forall dt, returns (k dt)) ->
             (returns (dt <- _validate_head_dimensions (PyNum D) (PyNum t) ;; k dt)
              <-> 0 < D /\ 0 <= t < D / 2)).
  { intros A k Hk. rewrite <- Hiff. unfold returns.
    destruct (_validate_head_dimensions (PyNum D) (PyNum t)) as [dt | e]; cbn [bind].
    - split; intros _; [eexists; reflexivity | apply Hk].
    - split; intros [? H]; discriminate H. }
  split; [| split; [| split]].
  - unfold new_ASMEFDHead, torispherical_post_init.
    rewrite <- Hiff. unfold returns.
    destruct (_validate_head_dimensions (PyNum D) (PyNum t)) as [dt | e]; cbn [bind].
    + split; intros _; eexists; reflexivity.
    + split; intros [? H]; discriminate H.
  - unfold new_Elliptical2to1Head, torispherical_post_init.
    rewrite <- Hiff. unfold returns.
    destruct (_validate_head_dimensions (PyNum D) (PyNum t)) as [dt | e]; cbn [bind].
    + split; intros _; eexists; reflexivity.
    + split; intros [? H]; discriminate H.
  - unfold new_HemisphericalHead. apply Hgen. intros dt. eexists. reflexivity.
  - intros (HD & Ht & Hthick).
    unfold new_ASMEFDHead, new_Elliptical2to1Head, new_HemisphericalHead,
      torispherical_post_init.
    rewrite (validate_head_dimensions_thick D t HD Ht Hthick). repeat split.
Qed.

(** The radius profile of a constructed head is never negative. *)
Lemma constructed_radius_at_height_nonneg (hd : head) (x : R) :
  constructed hd -> 0 <= radius_at_height hd x.
Proof.
  intros (D & t & [HD Ht] & Hnew).
  assert (Htoris : forall major minor g,
            proportions major minor ->
            torispherical_post_init major minor (PyNum D) (PyNum t) = Ok g ->
            0 <= torispherical_radius_at_height g x).
  { intros major minor g Hp Hg. unfold torispherical_post_init in Hg.
    rewrite validate_head_dimensions_ok in Hg by lra. cbn [bind fst snd] in Hg.
    injection Hg as <-. unfold torispherical_radius_at_height, torispherical_geometry.
    cbn [h2 h3 crown_radius knuckle_radius radius c_height_offset c_radius_offset
         k_height_offset k_radius_offset].
    match goal with |- context [?a <=? ?b] => destruct (a <=? b) end.
    - pose proof (sqrt_pos (Rmax ((major * D - t) ^ 2 - (x - major * D) ^ 2) 0)). lra.
    - match goal with |- context [?a <=? ?b] => destruct (a <=? b) end.
      + match goal with |- 0 <= sqrt ?u + _ => pose proof (sqrt_pos u) end.
        destruct Hp as [[-> ->] | [-> ->]]; lra.
      + lra. }
  destruct Hnew as [H | [H | H]].
  - unfold new_ASMEFDHead in H.
    destruct (torispherical_post_init 1.00 0.06 (PyNum D) (PyNum t)) as [g |] eqn:Hg;
      [| discriminate].
    injection H as <-. apply (Htoris 1.00 0.06 g); [left; split; reflexivity | exact Hg].
  - unfold new_Elliptical2to1Head in H.
    destruct (torispherical_post_init 0.90 0.17 (PyNum D) (PyNum t)) as [g |] eqn:Hg;
      [| discriminate].
    injection H as <-. apply (Htoris 0.90 0.17 g); [right; split; reflexivity | exact Hg].
  - unfold new_HemisphericalHead in H.
    rewrite validate_head_dimensions_ok in H by lra. cbn [bind fst snd] in H.
    injection H as <-. cbn [radius_at_height].
    unfold hemispherical_radius_at_height. cbn [hs_h2 hs_radius].
    match goal with |- context [?a <=? ?b] => destruct (a <=? b) end;
      [apply sqrt_pos | lra].
Qed.

End HeadConstruction.

(** ** The vessel: heights and areas *)
Section VesselMore.
Import heads vessel.
#[local] Opaque pow.
#[local] Opaque volume_up_to.

Lemma fold_sum_nonneg (f : nat -> R) (l : list nat) :
  (forall i, In i l -> 0 <= f i) ->
  0 <= fold_left (fun total i => total + f i) l 0.
Proof.
  intros Hf.
  rewrite <- (fold_sum_zero (fun _ => 0) l) at 1 by reflexivity.
  apply fold_sum_mono. exact Hf.
Qed.

Lemma head_wetted_area_up_to_nonneg (h : R) (hd : head) (steps : nat) (A : R) :
  constructed hd -> head_wetted_area_up_to h hd steps = Ok A -> 0 <= A.
Proof.
  intros Hc. unfold head_wetted_area_up_to.
  pose proof (constructed_h1 hd Hc) as Hh1.
  pose proof (constructed_top_nonneg hd Hc) as Htop.
  rewrite Hh1. unfold Cmp.leb at 1.
  destruct (Rle_dec h 0) as [Hh | Hh]; [intros HA; injection HA as <-; lra |].
  destruct (Nat.eq_dec steps 0) as [-> | Hn].
  { unfold py_div_int. cbn [Nat.eqb bind]. discriminate. }
  rewrite py_div_int_pos by lia. cbn [bind].
  intros HA. injection HA as <-.
  apply fold_sum_nonneg. intros i Hi.
  assert (Hs : 0 < INR steps) by (apply lt_0_INR; lia).
  assert (Hhigh : 0 <= Rmin h (getattr_h3 hd)) by (apply Rmin_glb; lra).
  assert (Hdh : 0 <= (Rmin h (getattr_h3 hd) - 0) / INR steps).
  { apply Rmult_le_pos; [lra | left; apply Rinv_0_lt_compat; exact Hs]. }
  cbv zeta.
  pose proof (constructed_radius_at_height_nonneg hd
                (0 + INR i * ((Rmin h (getattr_h3 hd) - 0) / INR steps)) Hc) as Hr.
  pose proof PI_RGT_0 as Hpi.
  match goal with |- 0 <= 2 * PI * ?r * sqrt ?u * ?d =>
    pose proof (sqrt_pos u) as Hsq;
    assert (0 <= 2 * PI * r) by nra;
    assert (0 <= 2 * PI * r * sqrt u) by (apply Rmult_le_pos; assumption);
    apply Rmult_le_pos; assumption
  end.
Qed.

(** Without steps the division that precedes the loop fails, as soon as
    the height is above the bottom of the head. *)
Lemma head_wetted_area_up_to_no_steps (h : R) (hd : head) :
  constructed hd ->
  head_wetted_area_up_to h hd 0 = if h <=? 0 then Ok 0 else Raise ZeroDivisionError.
Proof.
  intros Hc. unfold head_wetted_area_up_to. rewrite (constructed_h1 hd Hc).
  destruct (h <=? 0); reflexivity.
Qed.

Lemma torispherical_depth_pos (major minor D t : R) :
  proportions major minor -> 0 < D -> 0 < h3 (torispherical_geometry major minor D t).
Proof.
  intros Hp HD. unfold torispherical_geometry. cbn [h3].
  assert (Hs : sqrt ((major * D - minor * D) ^ 2 - (D / 2 - minor * D) ^ 2) < major * D).
  { assert (HM : 0 <= major * D) by (destruct Hp as [[-> ->] | [-> ->]]; lra).
    rewrite <- (sqrt_pow2 (major * D)) at 2 by exact HM.
    apply sqrt_lt_1_alt.
    destruct Hp as [[-> ->] | [-> ->]]; split; nra. }
  lra.
Qed.

Lemma constructed_top_pos (hd : head) : constructed hd -> 0 < getattr_h3 hd.
Proof.
  intros (D & t & [HD Ht] & [H | [H | H]]).
  - unfold new_ASMEFDHead, torispherical_post_init in H.
    rewrite validate_head_dimensions_ok in H by lra. cbn [bind fst snd] in H.
    injection H as <-. apply torispherical_depth_pos; [left; split; reflexivity | exact HD].
  - unfold new_Elliptical2to1Head, torispherical_post_init in H.
    rewrite validate_head_dimensions_ok in H by lra. cbn [bind fst snd] in H.
    injection H as <-. apply torispherical_depth_pos; [right; split; reflexivity | exact HD].
  - unfold new_HemisphericalHead in H.
    rewrite validate_head_dimensions_ok in H by lra. cbn [bind fst snd] in H.
    injection H as <-. cbn. lra.
Qed.

Lemma liquid_height_bounds (V L : R) (hd : head) :
  constructed hd -> 0 <= L ->
  0 <= liquid_height_from_volume V hd L <= getattr_h3 hd + L + getattr_h3 hd.
Proof.
  intros Hc HL. split; [apply liquid_height_nonneg; assumption |].
  pose proof (constructed_h1 hd Hc) as Hh1.
  pose proof (constructed_top_nonneg hd Hc) as Htop.
  pose proof (constructed_radius_pos hd Hc) as HR.
  assert (Hsolve : forall W, solve_height_in_head W hd 40 <= getattr_h3 hd).
  { intros W. pose proof (solve_height_in_head_within W hd 40) as H.
    rewrite Hh1 in H. apply H. exact Htop. }
  unfold liquid_height_from_volume. cbv zeta. unfold Cmp.leb.
  destruct (Rle_dec V (max_head_volume hd)) as [Hv | Hv].
  { specialize (Hsolve V). lra. }
  destruct (Rle_dec (V - max_head_volume hd) (PI * head_radius hd ^ 2 * L)) as [Hcyl | Hcyl].
  - assert (Hpos : 0 < PI * head_radius hd ^ 2).
    { pose proof PI_RGT_0. apply Rmult_lt_0_compat; [lra | nra]. }
    assert ((V - max_head_volume hd) / (PI * head_radius hd ^ 2) <= L).
    { apply Rmult_le_reg_r with (PI * head_radius hd ^ 2); [exact Hpos |].
      unfold Rdiv. rewrite Rmult_assoc, Rinv_l by lra. lra. }
    lra.
  - specialize (Hsolve (V - max_head_volume hd - PI * head_radius hd ^ 2 * L)). lra.
Qed.

Lemma wetted_area_up_to_height_sign (H L : R) (hd : head) (steps : nat) :
  constructed hd -> 0 <= L -> (0 < steps)%nat ->
  exists A, wetted_area_up_to_height (PyNum H) (Some hd) (PyNum L) steps = Ok A /\ 0 <= A.
Proof.
  intros Hc HL Hs. unfold wetted_area_up_to_height.
  pose proof (constructed_radius_pos hd Hc) as HR.
  pose proof PI_RGT_0 as Hpi.
  pose proof (fun h => head_wetted_area_up_to_returns h hd steps Hs) as Hret.
  pose proof (fun h A => head_wetted_area_up_to_nonneg h hd steps A Hc) as Hhead.
  unfold Cmp.ltb at 1. destruct (Rlt_dec H 0); [exists 0; split; [reflexivity | lra] |].
  rewrite ltb_false by exact HL. cbv zeta.
  unfold Cmp.leb at 1. destruct (Rle_dec H (getattr_h3 hd)) as [H1 | H1].
  { destruct (Hret H) as [A HA]. exists A. split; [exact HA | exact (Hhead _ _ HA)]. }
  destruct (Hret (getattr_h3 hd)) as [Ab HAb]. rewrite HAb. cbn [bind].
  pose proof (Hhead _ _ HAb) as Hb.
  unfold Cmp.leb at 1. destruct (Rle_dec H (getattr_h3 hd + L)) as [H2 | H2].
  - eexists. split; [reflexivity |].
    assert (0 <= 2 * PI * head_radius hd * (H - getattr_h3 hd)).
    { apply Rmult_le_pos; [nra | lra]. }
    lra.
  - destruct (Hret (H - (getattr_h3 hd + L))) as [At HAt]. rewrite HAt. cbn [bind].
    pose proof (Hhead _ _ HAt) as Ht.
    eexists. split; [reflexivity |].
    assert (0 <= 2 * PI * head_radius hd * L).
    { apply Rmult_le_pos; [nra | lra]. }
    lra.
Qed.

(** With no steps at all, a positive liquid height runs into the division
    by the step count in the bottom head. *)
Lemma wetted_area_up_to_height_no_steps (H L : R) (hd : head) :
  constructed hd -> 0 <= L -> 0 < H ->
  wetted_area_up_to_height (PyNum H) (Some hd) (PyNum L) 0 = Raise ZeroDivisionError.
Proof.
  intros Hc HL HH. unfold wetted_area_up_to_height.
  pose proof (constructed_top_pos hd Hc) as Htop.
  rewrite ltb_false by lra. rewrite ltb_false by exact HL. cbv zeta.
  rewrite !(head_wetted_area_up_to_no_steps _ hd Hc).
  rewrite (leb_false (getattr_h3 hd) 0) by exact Htop. cbn [bind].
  unfold Cmp.leb at 1. destruct (Rle_dec H (getattr_h3 hd)) as [H1 | H1].
  - rewrite leb_false by exact HH. reflexivity.
  - destruct (H <=? getattr_h3 hd + L); reflexivity.
Qed.

(** X2: on a constructed head and a non-negative shell height,
    [wetted_area_up_to_height] with at least one step returns an area that
    is never negative, for every liquid height.  With a step count of 0 the
    division by the step count raises [ZeroDivisionError] for every positive
    liquid height; a liquid height that is not positive gives 0 for every
    step count, since the division is not reached. *)
Theorem wetted_area_up_to_height_nonneg (H L : R) (hd : head) (steps : nat) :
  constructed hd -> 0 <= L ->
  ((0 < steps)%nat ->
   exists A, wetted_area_up_to_height (PyNum H) (Some hd) (PyNum L) steps = Ok A /\
             0 <= A) /\
  (0 < H ->
   wetted_area_up_to_height (PyNum H) (Some hd) (PyNum L) 0 = Raise ZeroDivisionError) /\
  (H <= 0 ->
   wetted_area_up_to_height (PyNum H) (Some hd) (PyNum L) steps = Ok 0).
Proof.
  intros Hc HL. split; [| split].
  - intros Hs. apply wetted_area_up_to_height_sign; assumption.
  - intros HH. apply wetted_area_up_to_height_no_steps; assumption.
  - intros HH. destruct (Rlt_dec H 0) as [Hneg | Hzero].
    + unfold wetted_area_up_to_height. rewrite ltb_true by exact Hneg. reflexivity.
    + replace H with 0 by lra. apply wetted_area_up_to_height_zero; assumption.
Qed.

Lemma hemisphere_2m_constructed :
  constructed (HemisphericalHead
                 {| hs_diameter := 2; hs_thickness := 10 / 1000;
                    hs_radius := 2 / 2 - 10 / 1000; head_depth := 2 / 2 - 10 / 1000;
                    hs_h1 := 0; hs_h2 := 2 / 2 - 10 / 1000 |}).
Proof.
  exists 2, (10 / 1000). split; [lra |]. right; right.
  unfold new_HemisphericalHead. rewrite validate_head_dimensions_ok by lra. reflexivity.
Qed.

Lemma wetted_area_up_to_height_nonneg_witness :
  (exists A,
     wetted_area_up_to_height (PyNum 3)
       (Some (HemisphericalHead
                {| hs_diameter := 2; hs_thickness := 10 / 1000;
                   hs_radius := 2 / 2 - 10 / 1000; head_depth := 2 / 2 - 10 / 1000;
                   hs_h1 := 0; hs_h2 := 2 / 2 - 10 / 1000 |}))
       (PyNum 5) 500 = Ok A /\ 0 <= A) /\
  wetted_area_up_to_height (PyNum 3)
    (Some (HemisphericalHead
             {| hs_diameter := 2; hs_thickness := 10 / 1000;
                hs_radius := 2 / 2 - 10 / 1000; head_depth := 2 / 2 - 10 / 1000;
                hs_h1 := 0; hs_h2 := 2 / 2 - 10 / 1000 |}))
    (PyNum 5) 0 = Raise ZeroDivisionError.
Proof.
  destruct (wetted_area_up_to_height_nonneg 3 5 _ 500 hemisphere_2m_constructed)
    as (Hret & Hnone & _); [lra |].
  split; [apply Hret; lia | apply Hnone; lra].
Defined.

(** X3: whatever the volume is, the liquid height that
    [liquid_height_from_volume] returns lies between the vessel bottom and
    the vessel top, [0 <= H <= H_head + shell + H_head]. *)
Theorem liquid_height_within_vessel (V L : R) (hd : head) :
  constructed hd -> 0 <= L ->
  0 <= liquid_height_from_volume V hd L <= getattr_h3 hd + L + getattr_h3 hd.
Proof. intros; eapply liquid_height_bounds; eassumption. Qed.

Lemma liquid_height_within_vessel_witness :
  0 <= liquid_height_from_volume 1000
         (HemisphericalHead
            {| hs_diameter := 2; hs_thickness := 10 / 1000;
               hs_radius := 2 / 2 - 10 / 1000; head_depth := 2 / 2 - 10 / 1000;
               hs_h1 := 0; hs_h2 := 2 / 2 - 10 / 1000 |}) 5
  <= (2 / 2 - 10 / 1000) + 5 + (2 / 2 - 10 / 1000).
Proof.
  apply (liquid_height_within_vessel 1000 5 _ hemisphere_2m_constructed). lra.
Defined.

(** *** What the bisection returns *)

Lemma bisect_bracket (V : R) (hd : head) (steps : nat) (low high : R) :
  let lh := bisect V hd steps low high in
  snd lh - fst lh = (high - low) / 2 ^ steps /\
  (fst lh = low \/ volume_up_to hd (fst lh) default_steps < V) /\
  (snd lh = high \/ V <= volume_up_to hd (snd lh) default_steps).
Proof.
  revert low high. induction steps as [| n IH]; intros low high.
  - cbn [bisect fst snd]. split; [| split; left; reflexivity].
    replace (2 ^ 0) with 1 by reflexivity. lra.
  - cbn [bisect]. cbv zeta.
    assert (Hpow : 2 ^ S n = 2 * 2 ^ n) by reflexivity.
    assert (Hnz : 2 ^ n <> 0) by (apply pow_nonzero; lra).
    unfold Cmp.ltb.
    destruct (Rlt_dec (volume_up_to hd (0.5 * (low + high)) default_steps) V) as [Hlt | Hge].
    + destruct (IH (0.5 * (low + high)) high) as (Hw & Hl & Hh).
      split; [| split].
      * rewrite Hw, Hpow.
        replace (high - 0.5 * (low + high)) with ((high - low) * / 2) by lra.
        unfold Rdiv. rewrite Rinv_mult. ring.
      * destruct Hl as [-> | Hl]; [right; exact Hlt | right; exact Hl].
      * exact Hh.
    + destruct (IH low (0.5 * (low + high))) as (Hw & Hl & Hh).
      split; [| split].
      * rewrite Hw, Hpow.
        replace (0.5 * (low + high) - low) with ((high - low) * / 2) by lra.
        unfold Rdiv. rewrite Rinv_mult. ring.
      * exact Hl.
      * destruct Hh as [-> | Hh]; [right; lra | right; exact Hh].
Qed.

(** X4: for a target volume inside the head, [0 < V <= max_head_volume],
    [solve_height_in_head] returns the midpoint of an interval [low, high]
    inside the head, of width [(top - h1) / 2^40], on which [volume_up_to]
    passes the target: it is below [V] at [low] and at least [V] at [high]. *)
Theorem solve_height_in_head_brackets (V : R) (hd : head) :
  constructed hd -> 0 < V <= max_head_volume hd ->
  exists low high,
    head_h1 hd <= low /\ low <= high /\ high <= getattr_h3 hd /\
    high - low = (getattr_h3 hd - head_h1 hd) / 2 ^ 40 /\
    solve_height_in_head V hd 40 = 0.5 * (low + high) /\
    volume_up_to hd low default_steps < V <= volume_up_to hd high default_steps.
Proof.
  intros Hc [HV0 HV1].
  pose proof (constructed_h1 hd Hc) as Hh1.
  pose proof (constructed_top_nonneg hd Hc) as Htop.
  assert (Hle : head_h1 hd <= getattr_h3 hd) by lra.
  pose proof (bisect_within V hd 40 _ _ Hle) as (Hb1 & Hb2 & Hb3).
  pose proof (bisect_bracket V hd 40 (head_h1 hd) (getattr_h3 hd)) as Hbr.
  cbv zeta in Hbr. destruct Hbr as (Hw & Hl & Hh).
  unfold solve_height_in_head.
  destruct (bisect V hd 40 (head_h1 hd) (getattr_h3 hd)) as [low high].
  cbn [fst snd] in *.
  exists low, high. repeat split; try assumption.
  - destruct Hl as [-> | Hl]; [| exact Hl].
    rewrite volume_up_to_at_h1. exact HV0.
  - destruct Hh as [-> | Hh]; [| exact Hh]. exact HV1.
Qed.

(** *** The fire-case entry point *)

Lemma firecase_after_checks
    (head_type : string) (L OD t bottom fire fill : R) (steps : Z) (hd : head) :
  otherwise_valid head_type L OD t bottom fire fill steps ->
  _build_head (Text head_type) (PyNum OD) (PyNum t) = Ok hd ->
  wetted_area_firecase
    (Text "Vertical") (Text head_type) (PyNum L) (PyNum OD) (PyNum t)
    (PyNum bottom) (PyNum fire) (PyInt steps)
  = if fire - bottom <=? 0 then Ok 0
    else wetted_area_up_to_height
           (PyNum (Rmin (fire - bottom) (getattr_h3 hd + L + getattr_h3 hd)))
           (Some hd) (PyNum L) (Z.to_nat steps).
Proof.
  intros [Hht (HD & Ht & Htr) HL Hb Hf Hv Hs] Hhd.
  unfold wetted_area_firecase.
  change (String.eqb "Vertical" "Vertical") with true. cbn [negb].
  rewrite (in_valid_head_types_true head_type Hht). cbn [negb].
  unfold _validate_positive, _validate_non_negative, _validate_positive_int.
  rewrite leb_false by lra. cbn [bind].
  rewrite !ltb_false by lra. cbn [bind].
  assert (Hsteps : (steps <? 10)%Z = false) by (apply Z.ltb_ge; exact Hs).
  rewrite Hsteps. cbn [bind].
  unfold Cmp.geb at 1. rewrite leb_false by lra.
  rewrite Hhd. cbn [bind]. reflexivity.
Qed.

(** X5: on valid arguments [wetted_area_firecase] returns 0 when the fire
    plane is not above the vessel bottom; and when the fill volume is within
    the capacity and puts the liquid level at or above a fire plane that is
    above the bottom, it returns the very area that
    [wetted_area_from_fill_volume] reports, whose exposed height is then
    [fire - bottom]. *)
Theorem wetted_area_firecase_agrees
    (head_type : string) (L OD t bottom fire fill : R) (steps : Z) :
  otherwise_valid head_type L OD t bottom fire fill steps ->
  exists hd,
    _build_head (Text head_type) (PyNum OD) (PyNum t) = Ok hd /\
    (fire - bottom <= 0 ->
       wetted_area_firecase
         (Text "Vertical") (Text head_type) (PyNum L) (PyNum OD) (PyNum t)
         (PyNum bottom) (PyNum fire) (PyInt steps) = Ok 0) /\
    (fill <= max_head_volume hd * 2 + PI * head_radius hd ^ 2 * L ->
     0 < fire - bottom <= liquid_height_from_volume fill hd L ->
     exists A,
       wetted_area_firecase
         (Text "Vertical") (Text head_type) (PyNum L) (PyNum OD) (PyNum t)
         (PyNum bottom) (PyNum fire) (PyInt steps) = Ok A /\
       wetted_area_from_fill_volume
         (Text "Vertical") (Text head_type) (PyNum L) (PyNum OD) (PyNum t)
         (PyNum bottom) (PyNum fire) (PyNum fill) (PyInt steps)
       = Ok {| liquid_height_m := liquid_height_from_volume fill hd L;
               liquid_height_exposed_m := fire - bottom;
               wetted_area_m2 := A |}).
Proof.
  intros Hv.
  destruct (build_head_ok head_type OD t (ov_head_type _ _ _ _ _ _ _ _ Hv)
              (ov_dimensions _ _ _ _ _ _ _ _ Hv)) as (hd & Hhd & Hc).
  pose proof (ov_tangent _ _ _ _ _ _ _ _ Hv) as HL.
  exists hd. split; [exact Hhd |].
  rewrite (firecase_after_checks _ _ _ _ _ _ fill _ hd Hv Hhd).
  split.
  - intros Hlow. rewrite leb_true by exact Hlow. reflexivity.
  - intros Hcap [Hfire Hlevel].
    pose proof (liquid_height_bounds fill L hd Hc HL) as [_ Htop].
    rewrite leb_false by exact Hfire.
    rewrite Rmin_left by lra.
    destruct (wetted_area_up_to_height_returns (fire - bottom) L hd (Z.to_nat steps) HL
                (validated_steps_pos _ (ov_steps _ _ _ _ _ _ _ _ Hv)))
      as [A HA].
    exists A. split; [exact HA |].
    unfold wetted_area_from_fill_volume.
    rewrite (fill_volume_after_checks _ _ _ _ _ _ _ _ _ hd Hv Hhd).
    fold (capacity hd L) in Hcap.
    unfold Cmp.gtb. rewrite ltb_false by lra. rewrite leb_false by exact Hfire.
    rewrite Rmin_right by lra. rewrite HA. reflexivity.
Qed.

Lemma wetted_area_firecase_agrees_witness :
  wetted_area_firecase
    (Text "Vertical") (Text "Hemispherical") (PyNum 5) (PyNum 2) (PyNum 10)
    (PyNum 0.5) (PyNum 0.3) (PyInt 500) = Ok 0.
Proof.
  destruct (wetted_area_firecase_agrees "Hemispherical" 5 2 10 0.5 0.3 0 500)
    as (hd & _ & Hlow & _).
  { apply example_vessel_valid; lra. }
  apply Hlow. lra.
Defined.

(** X6: [wetted_area_from_volume] has no capacity check: with a constructed
    head, a non-negative shell height and at least 10 steps it returns a
    non-negative area for every volume [V >= 0], also for one above the
    capacity of the vessel. *)
Theorem wetted_area_from_volume_returns (V L : R) (hd : head) (steps : Z) :
  constructed hd -> 0 <= V -> 0 <= L -> (10 <= steps)%Z ->
  exists A,
    wetted_area_from_volume (PyNum V) (Some hd) (PyNum L) (PyInt steps) = Ok A /\
    0 <= A.
Proof.
  intros Hc HV HL Hs. unfold wetted_area_from_volume.
  unfold _validate_non_negative, _validate_positive_int.
  rewrite !ltb_false by lra. cbn [bind].
  assert (Hsteps : (steps <? 10)%Z = false) by (apply Z.ltb_ge; exact Hs).
  rewrite Hsteps. cbn [bind].
  apply wetted_area_up_to_height_sign; try assumption.
  apply validated_steps_pos. exact Hs.
Qed.

Lemma wetted_area_from_volume_returns_witness :
  exists A,
    wetted_area_from_volume (PyNum 1000)
      (Some (HemisphericalHead
               {| hs_diameter := 2; hs_thickness := 10 / 1000;
                  hs_radius := 2 / 2 - 10 / 1000; head_depth := 2 / 2 - 10 / 1000;
                  hs_h1 := 0; hs_h2 := 2 / 2 - 10 / 1000 |}))
      (PyNum 5) (PyInt 500) = Ok A /\
    0 <= A.
Proof.
  apply wetted_area_from_volume_returns;
    [exact hemisphere_2m_constructed | lra | lra | lia].
Defined.

End VesselMore.

Section BisectionWitness.
Import heads vessel.
#[local] Opaque pow.

Lemma fold_sum_ge_term (f : nat -> R) (l : list nat) (i : nat) (a : R) :
  (forall j, In j l -> 0 <= f j) -> In i l ->
  a + f i <= fold_left (fun total j => total + f j) l a.
Proof.
  revert a. induction l as [| j l IH]; intros a Hf Hin; [destruct Hin |].
  cbn [fold_left]. destruct Hin as [-> | Hin].
  - pose proof (fold_sum_le (fun _ => 0) f l (a + f i) (a + f i) 0) as H.
    assert (Hz : forall b, fold_left (fun total (_ : nat) => total + 0) l b = b).
    { clear. induction l as [| k l IHl]; intros b; cbn [fold_left]; [reflexivity |].
      rewrite Rplus_0_r. apply IHl. }
    rewrite Hz in H. rewrite Rmult_0_r, Rplus_0_r in H. apply H; [| lra].
    intros k Hk. rewrite Rplus_0_r. apply Hf. right. exact Hk.
  - assert (0 <= f j) by (apply Hf; left; reflexivity).
    eapply Rle_trans; [| apply IH; [intros k Hk; apply Hf; right; exact Hk | exact Hin]].
    lra.
Qed.

Lemma hemisphere_2m_volume_positive :
  0.001 <= max_head_volume
             (HemisphericalHead
                {| hs_diameter := 2; hs_thickness := 10 / 1000;
                   hs_radius := 2 / 2 - 10 / 1000; head_depth := 2 / 2 - 10 / 1000;
                   hs_h1 := 0; hs_h2 := 2 / 2 - 10 / 1000 |}).
Proof.
  unfold max_head_volume, volume_up_to, default_steps.
  cbn [getattr_h3 head_h1 hs_h1 hs_h2].
  set (f := fun i : nat =>
    area_at_height
      (HemisphericalHead
         {| hs_diameter := 2; hs_thickness := 10 / 1000;
            hs_radius := 2 / 2 - 10 / 1000; head_depth := 2 / 2 - 10 / 1000;
            hs_h1 := 0; hs_h2 := 2 / 2 - 10 / 1000 |})
      (0 + INR i * ((2 / 2 - 10 / 1000 - 0) / INR 500))
    * ((2 / 2 - 10 / 1000 - 0) / INR 500)).
  pose proof (fold_sum_ge_term f (seq 0 500) 250 0) as H.
  assert (Hf : forall j, In j (seq 0 500) -> 0 <= f j).
  { intros j _. unfold f. apply Rmult_le_pos; [apply area_at_height_nonneg |].
    rewrite INR_500. lra. }
  specialize (H Hf). rewrite Rplus_0_l in H.
  eapply Rle_trans; [| apply H; apply in_seq; lia].
  unfold f, area_at_height. cbn [radius_at_height].
  unfold hemispherical_radius_at_height. cbn [hs_h2 hs_radius].
  rewrite INR_500. replace (INR 250) with 250 by (rewrite INR_IZR_INZ; reflexivity).
  rewrite leb_true by lra. rewrite pow2_sqrt by apply Rmax_r.
  rewrite Rmax_left by lra. pose proof PI_RGT_0. pose proof PI2_3_2. nra.
Qed.

Lemma solve_height_in_head_brackets_witness :
  exists low high,
    0 <= low /\ low <= high /\ high <= 2 / 2 - 10 / 1000 /\
    solve_height_in_head 0.001
      (HemisphericalHead
         {| hs_diameter := 2; hs_thickness := 10 / 1000;
            hs_radius := 2 / 2 - 10 / 1000; head_depth := 2 / 2 - 10 / 1000;
            hs_h1 := 0; hs_h2 := 2 / 2 - 10 / 1000 |}) 40
    = 0.5 * (low + high).
Proof.
  destruct (solve_height_in_head_brackets 0.001 _ hemisphere_2m_constructed)
    as (low & high & H1 & H2 & H3 & _ & H5 & _).
  { split; [lra | exact hemisphere_2m_volume_positive]. }
  exists low, high. repeat split; assumption.
Defined.

End BisectionWitness.

(** ** Fire heat load: API 520 and the dispatcher *)
Section FireLoadMore.
Import api520 sizing.

Lemma Rpower_pos (x y : R) : 0 < Rpower x y.
Proof. unfold Rpower. apply exp_pos. Qed.

Lemma Rpower_below_one (x y : R) : 0 < x < 1 -> 0 < y -> Rpower x y < 1.
Proof.
  intros [Hx0 Hx1] Hy. unfold Rpower. rewrite <- exp_0. apply exp_increasing.
  pose proof (ln_increasing x 1 Hx0 Hx1) as Hln. rewrite ln_1 in Hln. nra.
Qed.

Lemma heat_load_api520_bool (A : R) (b : bool) :
  0 < A ->
  heat_load_api520 (PyNum A) (FlagBool b)
  = Returned ((if b then 43200 else 70900) * Rpower A 0.82).
Proof.
  intros HA. unfold heat_load_api520, py_pow.
  rewrite ltb_false by lra. rewrite eqb_false by lra. reflexivity.
Qed.

Lemma heat_load_api520_zero (f : pyflag) :
  heat_load_api520 (PyNum 0) f = Returned 0.
Proof.
  unfold heat_load_api520. rewrite ltb_false by lra. rewrite eqb_true by reflexivity.
  reflexivity.
Qed.

Lemma fire_heat_load_at_zero (standard : string) (P : pynum) (f : pyflag) :
  In standard VALID_FIRE_STANDARDS ->
  fire_heat_load (Text standard) (PyNum 0) P f = Returned 0.
Proof.
  intros [<- | [<- | []]]; unfold fire_heat_load, _validate_non_negative,
    pressures._validate_non_negative;
    cbn [str_in existsb VALID_FIRE_STANDARDS String.eqb Ascii.eqb Bool.eqb andb orb negb];
    rewrite ltb_false by lra; cbn [call and_then].
  - rewrite heat_load_api2000_zero_area. reflexivity.
  - apply heat_load_api520_zero.
Qed.

(** X7: with firefighting and drainage the API 520 heat load is
    [43200 * A^0.82], without it [70900 * A^0.82]: for every area [A >= 0] the
    credited load is at most the uncredited one, in the fixed ratio
    43200 : 70900, and strictly smaller when [A > 0]. *)
Theorem heat_load_api520_credit (A : R) :
  0 <= A ->
  exists q_with q_without,
    heat_load_api520 (PyNum A) (FlagBool true) = Returned q_with /\
    heat_load_api520 (PyNum A) (FlagBool false) = Returned q_without /\
    0 <= q_with <= q_without /\
    q_with * 70900 = q_without * 43200 /\
    (0 < A -> q_with = 43200 * Rpower A 0.82 /\ q_with < q_without).
Proof.
  intros HA. destruct (Req_dec_T A 0) as [-> | HA0].
  - exists 0, 0. rewrite !heat_load_api520_zero. repeat split; try lra.
  - assert (HApos : 0 < A) by lra.
    rewrite !heat_load_api520_bool by exact HApos.
    pose proof (Rpower_pos A 0.82) as Hp.
    eexists. eexists. split; [reflexivity |]. split; [reflexivity |].
    repeat split; try lra.
Qed.

Lemma heat_load_api520_credit_witness :
  exists q_with q_without,
    heat_load_api520 (PyNum 50) (FlagBool true) = Returned q_with /\
    heat_load_api520 (PyNum 50) (FlagBool false) = Returned q_without /\
    0 <= q_with <= q_without /\
    q_with * 70900 = q_without * 43200 /\
    (0 < 50 -> q_with = 43200 * Rpower 50 0.82 /\ q_with < q_without).
Proof. apply (heat_load_api520_credit 50). lra. Defined.

(** X8: the API 520 heat load does not decrease when the wetted area grows:
    for [0 <= A <= B] and the same flag, the load at [A] is at most the load
    at [B]. *)
Theorem heat_load_api520_monotone (A B : R) (b : bool) :
  0 <= A <= B ->
  exists qA qB,
    heat_load_api520 (PyNum A) (FlagBool b) = Returned qA /\
    heat_load_api520 (PyNum B) (FlagBool b) = Returned qB /\
    qA <= qB.
Proof.
  intros [HA HAB].
  assert (Hc : 0 < (if b then 43200 else 70900)) by (destruct b; lra).
  destruct (Req_dec_T A 0) as [-> | HA0].
  - rewrite heat_load_api520_zero.
    destruct (Req_dec_T B 0) as [-> | HB0].
    + rewrite heat_load_api520_zero. exists 0, 0. repeat split; lra.
    + rewrite heat_load_api520_bool by lra.
      eexists. eexists. split; [reflexivity |]. split; [reflexivity |].
      pose proof (Rpower_pos B 0.82). nra.
  - rewrite !heat_load_api520_bool by lra.
    eexists. eexists. split; [reflexivity |]. split; [reflexivity |].
    apply Rmult_le_compat_l; [lra |].
    apply Rle_Rpower_l; lra.
Qed.

Lemma heat_load_api520_monotone_witness :
  exists qA qB,
    heat_load_api520 (PyNum 10) (FlagBool false) = Returned qA /\
    heat_load_api520 (PyNum 20) (FlagBool false) = Returned qB /\
    qA <= qB.
Proof. apply (heat_load_api520_monotone 10 20 false). lra. Defined.

(** X9: for a zero wetted area both heat-load models, reached through
    [fire_heat_load], return exactly 0; the design pressure and the
    firefighting flag are not examined (they may be missing). *)
Theorem fire_heat_load_zero_area (standard : string) (P : pynum) (f : pyflag) :
  In standard VALID_FIRE_STANDARDS ->
  fire_heat_load (Text standard) (PyNum 0) P f = Returned 0.
Proof. intros; eapply fire_heat_load_at_zero; eassumption. Qed.

Lemma fire_heat_load_zero_area_witness :
  fire_heat_load (Text "API2000") (PyNum 0) PyNone FlagNone = Returned 0.
Proof. apply fire_heat_load_zero_area. left. reflexivity. Defined.

Lemma heat_load_api2000_nonneg (a p : pynum) (Q : R) :
  api2000.heat_load_api2000 a p = Ok Q -> 0 <= Q.
Proof.
  unfold api2000.heat_load_api2000, py_pow.
  destruct a as [| A |]; try discriminate.
  cmp_unfold.
  destruct (Rlt_dec A 0); [discriminate |].
  destruct (Req_dec_T A 0); [intros H; injection H as <-; lra |].
  destruct p as [| P |]; try discriminate.
  pose proof (Rpower_pos A 0.566) as Hp1. pose proof (Rpower_pos A 0.338) as Hp2.
  pose proof (Rpower_pos A 0.82) as Hp3.
  repeat match goal with
         | |- context [Rlt_dec ?x ?y] => destruct (Rlt_dec x y)
         | |- context [Rle_dec ?x ?y] => destruct (Rle_dec x y)
         end; cbn [andb]; intros H; try discriminate H; injection H as <-; nra.
Qed.

Lemma heat_load_api520_nonneg (a : pynum) (f : pyflag) (Q : R) :
  heat_load_api520 a f = Returned Q -> 0 <= Q.
Proof.
  unfold heat_load_api520, py_pow.
  destruct a as [| A |]; try discriminate.
  cmp_unfold.
  destruct (Rlt_dec A 0); [discriminate |].
  destruct (Req_dec_T A 0); [intros H; injection H as <-; lra |].
  pose proof (Rpower_pos A 0.82) as Hp.
  destruct f as [| b | x | s | b]; cbn [and_then]; try discriminate.
  - destruct b; intros H; injection H as <-; nra.
  - destruct (negb _); intros H; injection H as <-; nra.
  - destruct (str_in s _); cbn [and_then].
    + intros H; injection H as <-; nra.
    + destruct (str_in s _); cbn [and_then]; [| discriminate].
      intros H; injection H as <-; nra.
  - destruct b; intros H; injection H as <-; nra.
Qed.

Lemma fire_heat_load_sign
    (standard : pytext) (A P : pynum) (f : pyflag) (Q : R) :
  fire_heat_load standard A P f = Returned Q -> 0 <= Q.
Proof.
  unfold fire_heat_load. destruct standard as [| s |]; try discriminate.
  destruct (negb (str_in s VALID_FIRE_STANDARDS)); [discriminate |].
  destruct (_validate_non_negative A "Wetted area (A_wetted_m2)") as [A' | e];
    cbn [and_then]; [| discriminate].
  destruct (String.eqb s "API2000").
  - destruct (api2000.heat_load_api2000 (PyNum A') P) as [q | e] eqn:Hq;
      cbn [call]; [| discriminate].
    intros H; injection H as <-. apply (heat_load_api2000_nonneg _ _ _ Hq).
  - destruct (String.eqb s "API520"); [| discriminate].
    apply heat_load_api520_nonneg.
Qed.

(** X10: whatever the arguments are, a heat load that [fire_heat_load]
    returns is never negative. *)
Theorem fire_heat_load_nonneg
    (standard : pytext) (A P : pynum) (f : pyflag) (Q : R) :
  fire_heat_load standard A P f = Returned Q -> 0 <= Q.
Proof. intros; eapply fire_heat_load_sign; eassumption. Qed.

Lemma fire_heat_load_nonneg_witness : 0 <= 70900 * Rpower 50 0.82.
Proof.
  apply (fire_heat_load_nonneg (Text "API520") (PyNum 50) PyNone (FlagBool false)).
  unfold fire_heat_load, _validate_non_negative, pressures._validate_non_negative.
  cbn [str_in existsb VALID_FIRE_STANDARDS String.eqb Ascii.eqb Bool.eqb andb orb negb].
  rewrite ltb_false by lra. cbn [call and_then].
  apply (heat_load_api520_bool 50 false). lra.
Defined.

End FireLoadMore.

(** ** Required relief area *)
Section AreaMore.
Import area.

Lemma validate_k_ok (k : R) : 1 < k <= 2 -> _validate_k (PyNum k) = Returned k.
Proof.
  intros [H1 H2]. unfold _validate_k. rewrite leb_false by lra.
  unfold Cmp.gtb. rewrite ltb_false by lra. reflexivity.
Qed.

Lemma area_validate_positive_ok (x : R) (name : string) :
  0 < x -> _validate_positive (PyNum x) name = Returned x.
Proof. intros H. unfold _validate_positive. rewrite leb_false by lra. reflexivity. Qed.

Lemma validate_factor_ok (K min_val max_val : R) (name : string) :
  factor_ok K max_val -> _validate_factor (PyNum K) name min_val max_val = Returned K.
Proof.
  intros [H0 H1]. unfold _validate_factor. rewrite area_validate_positive_ok by exact H0.
  cbn [and_then]. unfold Cmp.gtb. rewrite ltb_false by lra. reflexivity.
Qed.

Lemma C_formula_pos (k : R) : 1 < k -> 0 < C_formula k.
Proof.
  intros Hk. unfold C_formula.
  pose proof (Rpower_pos (2 / (k + 1)) ((k + 1) / (k - 1))) as Hp.
  assert (0 < sqrt (k * Rpower (2 / (k + 1)) ((k + 1) / (k - 1)))).
  { apply sqrt_lt_R0. nra. }
  lra.
Qed.

Lemma C_gas_ok (k : R) : 1 < k <= 2 -> C_gas (PyNum k) = Returned (C_formula k).
Proof.
  intros Hk. unfold C_gas. rewrite validate_k_ok by exact Hk. reflexivity.
Qed.

Lemma F2_formula_pos (k r : R) : 1 < k -> 0 < r < 1 -> 0 < F2_formula k r.
Proof.
  intros Hk [Hr0 Hr1]. unfold F2_formula. apply sqrt_lt_R0.
  pose proof (Rpower_pos r k) as Hp.
  assert (He : 0 < (k - 1) / k).
  { apply Rmult_lt_0_compat; [lra | apply Rinv_0_lt_compat; lra]. }
  pose proof (Rpower_below_one r ((k - 1) / k) (conj Hr0 Hr1) He) as Hq.
  assert (H1 : 0 < k / (k - 1)).
  { apply Rmult_lt_0_compat; [lra | apply Rinv_0_lt_compat; lra]. }
  assert (H2 : 0 < (1 - Rpower r ((k - 1) / k)) / (1 - r)).
  { apply Rmult_lt_0_compat; [lra | apply Rinv_0_lt_compat; lra]. }
  apply Rmult_lt_0_compat; [apply Rmult_lt_0_compat; assumption | exact H2].
Qed.

Lemma F2_subcritical_ok (k r : R) :
  1 < k <= 2 -> 0 < r < 1 -> F2_subcritical (PyNum k) (PyNum r) = Returned (F2_formula k r).
Proof.
  intros Hk [Hr0 Hr1]. unfold F2_subcritical. rewrite validate_k_ok by exact Hk.
  cbn [and_then]. rewrite leb_false by lra. unfold Cmp.geb. rewrite leb_false by lra.
  reflexivity.
Qed.

Lemma required_area_zero_flow (k T Z M P1 Kd Kb Kc P2 Ke : pynum) :
  required_area_critical_gas (PyNum 0) k T Z M P1 Kd Kb Kc = Returned 0 /\
  required_area_subcritical_gas (PyNum 0) k T Z M P1 P2 Kd Ke = Returned 0.
Proof.
  unfold required_area_critical_gas, required_area_subcritical_gas, _validate_non_negative.
  rewrite ltb_false by lra. cbn [and_then]. rewrite eqb_true by reflexivity.
  split; reflexivity.
Qed.

Lemma required_area_critical_gas_ok (W k T Z M P1 Kd Kb Kc : R) :
  0 < W -> gas_ok k T Z M P1 ->
  factor_ok Kd 1 -> factor_ok Kb 1 -> factor_ok Kc 1 ->
  required_area_critical_gas
    (PyNum W) (PyNum k) (PyNum T) (PyNum Z) (PyNum M) (PyNum P1)
    (PyNum Kd) (PyNum Kb) (PyNum Kc)
  = Returned (W * sqrt (T * Z / M) / (C_formula k * Kd * P1 * Kb * Kc)) /\
  0 < C_formula k * Kd * P1 * Kb * Kc.
Proof.
  intros HW (Hk & HT & HZ & HM & HP) HKd HKb HKc.
  pose proof (C_formula_pos k ltac:(lra)) as HC.
  assert (Hden : 0 < C_formula k * Kd * P1 * Kb * Kc).
  { unfold factor_ok in *.
    do 4 (apply Rmult_lt_0_compat; [| lra]). exact HC. }
  split; [| exact Hden].
  unfold required_area_critical_gas, _validate_non_negative.
  rewrite ltb_false by lra. cbn [and_then]. rewrite eqb_false by lra.
  rewrite validate_k_ok by exact Hk.
  rewrite !area_validate_positive_ok by lra.
  rewrite !validate_factor_ok by assumption. cbn [and_then].
  rewrite C_gas_ok by exact Hk. cbn [and_then].
  unfold Cmp.gtb at 1. rewrite ltb_false by lra.
  rewrite eqb_false by lra. reflexivity.
Qed.

Lemma sqrt_ratio_pos (a b : R) : 0 < a -> 0 < b -> 0 < sqrt (a / b).
Proof.
  intros Ha Hb. apply sqrt_lt_R0.
  apply Rmult_lt_0_compat; [exact Ha | apply Rinv_0_lt_compat; exact Hb].
Qed.

(** X11: for a positive flow, gas properties with [1 < k <= 2] and
    [0 < Z <= 2], and factors in (0, 1], [required_area_critical_gas] returns
    [W * sqrt(T*Z/M) / (C(k) * Kd * P1 * Kb * Kc)], a positive area; for a
    zero flow it returns 0 without looking at the other arguments. *)
Theorem required_area_critical_gas_value (W k T Z M P1 Kd Kb Kc : R) :
  0 < W -> gas_ok k T Z M P1 ->
  factor_ok Kd 1 -> factor_ok Kb 1 -> factor_ok Kc 1 ->
  exists A,
    required_area_critical_gas
      (PyNum W) (PyNum k) (PyNum T) (PyNum Z) (PyNum M) (PyNum P1)
      (PyNum Kd) (PyNum Kb) (PyNum Kc) = Returned A /\
    A = W * sqrt (T * Z / M) / (C_formula k * Kd * P1 * Kb * Kc) /\
    0 < A /\
    (forall k' T' Z' M' P1' Kd' Kb' Kc' : pynum,
        required_area_critical_gas (PyNum 0) k' T' Z' M' P1' Kd' Kb' Kc' = Returned 0).
Proof.
  intros HW Hgas HKd HKb HKc.
  destruct (required_area_critical_gas_ok W k T Z M P1 Kd Kb Kc HW Hgas HKd HKb HKc)
    as [Heq Hden].
  destruct Hgas as (Hk & HT & HZ & HM & HP).
  eexists. split; [exact Heq |]. split; [reflexivity |]. split.
  - apply Rmult_lt_0_compat; [| apply Rinv_0_lt_compat; exact Hden].
    apply Rmult_lt_0_compat; [exact HW |].
    apply sqrt_ratio_pos; [nra | lra].
  - intros. apply (required_area_zero_flow k' T' Z' M' P1' Kd' Kb' Kc' PyNone PyNone).
Qed.

Lemma gas_ok_example : gas_ok 1.4 536.67 0.9 44.1 289.7.
Proof. unfold gas_ok. lra. Qed.

Lemma required_area_critical_gas_value_witness :
  exists A,
    required_area_critical_gas
      (PyNum 1000) (PyNum 1.4) (PyNum 536.67) (PyNum 0.9) (PyNum 44.1) (PyNum 289.7)
      (PyNum 0.975) (PyNum 1) (PyNum 1) = Returned A /\
    0 < A.
Proof.
  destruct (required_area_critical_gas_value 1000 1.4 536.67 0.9 44.1 289.7 0.975 1 1)
    as (A & HA & _ & Hpos & _);
    [lra | exact gas_ok_example | unfold factor_ok; lra ..
    |].
  exists A. split; assumption.
Defined.

Lemma required_area_subcritical_gas_ok (W k T Z M P1 P2 Kd Ke : R) :
  0 < W -> gas_ok k T Z M P1 -> 0 < P2 < P1 ->
  factor_ok Kd 1 -> factor_ok Ke 2 ->
  required_area_subcritical_gas
    (PyNum W) (PyNum k) (PyNum T) (PyNum Z) (PyNum M) (PyNum P1) (PyNum P2)
    (PyNum Kd) (PyNum Ke)
  = Returned (W * sqrt (Z * T / (M * P1 * (P1 - P2)))
              / (735 * F2_formula k (P2 / P1) * Kd * Ke)) /\
  0 < 735 * F2_formula k (P2 / P1) * Kd * Ke.
Proof.
  intros HW (Hk & HT & HZ & HM & HP) [HP20 HP21] HKd HKe.
  assert (Hr : 0 < P2 / P1 < 1).
  { split.
    - apply Rmult_lt_0_compat; [lra | apply Rinv_0_lt_compat; lra].
    - apply Rmult_lt_reg_r with P1; [lra |].
      unfold Rdiv. rewrite Rmult_assoc, Rinv_l by lra. lra. }
  pose proof (F2_formula_pos k (P2 / P1) ltac:(lra) Hr) as HF.
  assert (Hden : 0 < 735 * F2_formula k (P2 / P1) * Kd * Ke).
  { unfold factor_ok in *.
    do 2 (apply Rmult_lt_0_compat; [| lra]).
    apply Rmult_lt_0_compat; [lra | exact HF]. }
  split; [| exact Hden].
  unfold required_area_subcritical_gas, _validate_non_negative.
  rewrite ltb_false by lra. cbn [and_then]. rewrite eqb_false by lra.
  rewrite validate_k_ok by exact Hk.
  rewrite !area_validate_positive_ok by lra.
  rewrite !validate_factor_ok by assumption. cbn [and_then].
  rewrite F2_subcritical_ok by assumption. cbn [and_then].
  unfold Cmp.gtb at 1. rewrite ltb_false by lra.
  unfold Cmp.geb at 1. rewrite leb_false by lra.
  rewrite leb_false by lra. rewrite eqb_false by lra. reflexivity.
Qed.

(** X12: for a positive flow, valid gas properties, a backpressure
    [0 < P2 < P1] and factors [0 < Kd <= 1], [0 < Ke <= 2],
    [required_area_subcritical_gas] returns
    [W * sqrt(Z*T / (M*P1*(P1-P2))) / (735 * F2 * Kd * Ke)], a positive area;
    with [P2 >= P1] it raises the backpressure error instead. *)
Theorem required_area_subcritical_gas_value (W k T Z M P1 P2 Kd Ke : R) :
  0 < W -> gas_ok k T Z M P1 -> 0 < P2 ->
  factor_ok Kd 1 -> factor_ok Ke 2 ->
  (P2 < P1 ->
   exists A,
     required_area_subcritical_gas
       (PyNum W) (PyNum k) (PyNum T) (PyNum Z) (PyNum M) (PyNum P1) (PyNum P2)
       (PyNum Kd) (PyNum Ke) = Returned A /\
     A = W * sqrt (Z * T / (M * P1 * (P1 - P2)))
         / (735 * F2_formula k (P2 / P1) * Kd * Ke) /\
     0 < A) /\
  (P1 <= P2 ->
   required_area_subcritical_gas
     (PyNum W) (PyNum k) (PyNum T) (PyNum Z) (PyNum M) (PyNum P1) (PyNum P2)
     (PyNum Kd) (PyNum Ke) = Raised (BackpressureNotBelowRelieving P2 P1)).
Proof.
  intros HW Hgas HP2 HKd HKe. split.
  - intros Hlt.
    destruct (required_area_subcritical_gas_ok W k T Z M P1 P2 Kd Ke HW Hgas
                (conj HP2 Hlt) HKd HKe) as [Heq Hden].
    destruct Hgas as (Hk & HT & HZ & HM & HP).
    eexists. split; [exact Heq |]. split; [reflexivity |].
    apply Rmult_lt_0_compat; [| apply Rinv_0_lt_compat; exact Hden].
    apply Rmult_lt_0_compat; [exact HW |].
    apply sqrt_ratio_pos; [nra |].
    apply Rmult_lt_0_compat; [nra | lra].
  - intros Hge. destruct Hgas as (Hk & HT & HZ & HM & HP).
    unfold required_area_subcritical_gas, _validate_non_negative.
    rewrite ltb_false by lra. cbn [and_then]. rewrite eqb_false by lra.
    rewrite validate_k_ok by exact Hk.
    rewrite !area_validate_positive_ok by lra. cbn [and_then].
    unfold Cmp.gtb at 1. rewrite ltb_false by lra.
    unfold Cmp.geb at 1. rewrite leb_true by lra. reflexivity.
Qed.

Lemma required_area_subcritical_gas_value_witness :
  (exists A,
     required_area_subcritical_gas
       (PyNum 1000) (PyNum 1.4) (PyNum 536.67) (PyNum 0.9) (PyNum 44.1) (PyNum 289.7)
       (PyNum 200) (PyNum 0.975) (PyNum 1) = Returned A /\ 0 < A) /\
  required_area_subcritical_gas
    (PyNum 1000) (PyNum 1.4) (PyNum 536.67) (PyNum 0.9) (PyNum 44.1) (PyNum 289.7)
    (PyNum 300) (PyNum 0.975) (PyNum 1) = Raised (BackpressureNotBelowRelieving 300 289.7).
Proof.
  split.
  - destruct (required_area_subcritical_gas_value 1000 1.4 536.67 0.9 44.1 289.7 200 0.975 1)
      as [Hlt _]; [lra | exact gas_ok_example | lra | unfold factor_ok; lra ..|].
    destruct Hlt as (A & HA & _ & Hpos); [lra |].
    exists A. split; assumption.
  - destruct (required_area_subcritical_gas_value 1000 1.4 536.67 0.9 44.1 289.7 300 0.975 1)
      as [_ Hge]; [lra | exact gas_ok_example | lra | unfold factor_ok; lra ..|].
    apply Hge. lra.
Defined.

(** X13: both required areas are proportional to the mass flow: with the
    other arguments valid and fixed, a flow [c * W] needs [c] times the area
    of the flow [W]. *)
Theorem required_area_proportional_to_flow (c W k T Z M P1 P2 Kd Kb Kc Ke : R) :
  0 < c -> 0 < W -> gas_ok k T Z M P1 -> 0 < P2 < P1 ->
  factor_ok Kd 1 -> factor_ok Kb 1 -> factor_ok Kc 1 -> factor_ok Ke 2 ->
  exists A_crit A_sub,
    required_area_critical_gas
      (PyNum W) (PyNum k) (PyNum T) (PyNum Z) (PyNum M) (PyNum P1)
      (PyNum Kd) (PyNum Kb) (PyNum Kc) = Returned A_crit /\
    required_area_critical_gas
      (PyNum (c * W)) (PyNum k) (PyNum T) (PyNum Z) (PyNum M) (PyNum P1)
      (PyNum Kd) (PyNum Kb) (PyNum Kc) = Returned (c * A_crit) /\
    required_area_subcritical_gas
      (PyNum W) (PyNum k) (PyNum T) (PyNum Z) (PyNum M) (PyNum P1) (PyNum P2)
      (PyNum Kd) (PyNum Ke) = Returned A_sub /\
    required_area_subcritical_gas
      (PyNum (c * W)) (PyNum k) (PyNum T) (PyNum Z) (PyNum M) (PyNum P1) (PyNum P2)
      (PyNum Kd) (PyNum Ke) = Returned (c * A_sub).
Proof.
  intros Hc HW Hgas HP2 HKd HKb HKc HKe.
  assert (HcW : 0 < c * W) by (apply Rmult_lt_0_compat; assumption).
  destruct (required_area_critical_gas_ok W k T Z M P1 Kd Kb Kc HW Hgas HKd HKb HKc)
    as [E1 _].
  destruct (required_area_critical_gas_ok (c * W) k T Z M P1 Kd Kb Kc HcW Hgas HKd HKb HKc)
    as [E2 _].
  destruct (required_area_subcritical_gas_ok W k T Z M P1 P2 Kd Ke HW Hgas HP2 HKd HKe)
    as [E3 _].
  destruct (required_area_subcritical_gas_ok (c * W) k T Z M P1 P2 Kd Ke HcW Hgas HP2 HKd HKe)
    as [E4 _].
  eexists. eexists. split; [exact E1 |]. split; [rewrite E2; f_equal; unfold Rdiv; ring |].
  split; [exact E3 |]. rewrite E4. f_equal. unfold Rdiv. ring.
Qed.

Lemma required_area_proportional_to_flow_witness :
  exists A_crit,
    required_area_critical_gas
      (PyNum 1000) (PyNum 1.4) (PyNum 536.67) (PyNum 0.9) (PyNum 44.1) (PyNum 289.7)
      (PyNum 0.975) (PyNum 1) (PyNum 1) = Returned A_crit /\
    required_area_critical_gas
      (PyNum (2 * 1000)) (PyNum 1.4) (PyNum 536.67) (PyNum 0.9) (PyNum 44.1) (PyNum 289.7)
      (PyNum 0.975) (PyNum 1) (PyNum 1) = Returned (2 * A_crit).
Proof.
  destruct (required_area_proportional_to_flow 2 1000 1.4 536.67 0.9 44.1 289.7 200
              0.975 1 1 1)
    as (A_crit & A_sub & H1 & H2 & _);
    [lra | lra | exact gas_ok_example | lra | unfold factor_ok; lra .. |].
  exists A_crit. split; assumption.
Defined.

End AreaMore.

(** ** Unit conversions *)
Section UnitsMore.
Import units.

(** X14: [C_to_R] is [K_to_R] after [C_to_K], for every argument: they
    return the same value, [K_to_R] never rejects a temperature that
    [C_to_K] returned, and a missing, non-numeric or too low temperature
    raises the same error on both paths. *)
Theorem C_to_R_is_K_to_R_of_C_to_K (T_C : pynum) :
  C_to_R T_C = (T_K <~ C_to_K T_C ;; K_to_R (PyNum T_K)).
Proof.
  unfold C_to_R, C_to_K, K_to_R, _safe_float.
  destruct T_C as [| T |]; cbn [and_then]; try reflexivity.
  unfold Cmp.ltb at 1 2. destruct (Rlt_dec T (-273.15)) as [Hlow | Hok];
    cbn [and_then]; [reflexivity |].
  rewrite ltb_false by lra. reflexivity.
Qed.

(** X15: in exact arithmetic the two mass-flow conversions undo each other
    on every non-negative flow, and [kg_hr_to_lb_hr] agrees there with the
    unchecked [kg_per_hr_to_lb_per_hr] of flow/area.py; a negative flow is
    rejected by both checked conversions. *)
Theorem mass_flow_round_trip (m : R) :
  (0 <= m ->
   exists lb kg,
     kg_hr_to_lb_hr (PyNum m) = Returned lb /\
     lb_hr_to_kg_hr (PyNum lb) = Returned m /\
     lb = area.kg_per_hr_to_lb_per_hr m /\
     lb_hr_to_kg_hr (PyNum m) = Returned kg /\
     kg_hr_to_lb_hr (PyNum kg) = Returned m) /\
  (m < 0 ->
   kg_hr_to_lb_hr (PyNum m) = Raised (Earlier (Negative "Mass flow" m)) /\
   lb_hr_to_kg_hr (PyNum m) = Raised (Earlier (Negative "Mass flow" m))).
Proof.
  unfold kg_hr_to_lb_hr, lb_hr_to_kg_hr, _safe_float, area.kg_per_hr_to_lb_per_hr.
  cbn [and_then]. split.
  - intros Hm. rewrite ltb_false by exact Hm.
    exists (m * 2.2046226218), (m / 2.2046226218).
    split; [reflexivity |].
    rewrite ltb_false by lra. split; [f_equal; lra |].
    split; [reflexivity |]. split; [reflexivity |].
    rewrite ltb_false by lra. f_equal. lra.
  - intros Hm. rewrite ltb_true by exact Hm. split; reflexivity.
Qed.

Lemma mass_flow_round_trip_witness :
  exists lb,
    kg_hr_to_lb_hr (PyNum 100) = Returned lb /\
    lb_hr_to_kg_hr (PyNum lb) = Returned 100.
Proof.
  destruct (mass_flow_round_trip 100) as [H _].
  destruct H as (lb & kg & H1 & H2 & _); [lra |].
  exists lb. split; assumption.
Defined.

End UnitsMore.

(** ** The sizing pipeline *)
Section SizingMore.
Import sizing.

Lemma sizing_validate_positive_ok (x : R) (name : string) :
  0 < x -> _validate_positive (PyNum x) name = Returned x.
Proof.
  intros H. unfold _validate_positive, pressures._validate_positive.
  rewrite leb_false by lra. reflexivity.
Qed.

Lemma sizing_validate_non_negative_ok (x : R) (name : string) :
  0 <= x -> _validate_non_negative (PyNum x) name = Returned x.
Proof.
  intros H. unfold _validate_non_negative, pressures._validate_non_negative.
  rewrite ltb_false by lra. reflexivity.
Qed.

Lemma evaporation_rate_kg_per_hr_value (Q h : R) :
  0 <= Q -> 0 < h ->
  evaporation.evaporation_rate_kg_per_hr (PyNum Q) (PyNum h) = Ok (Q / h * 3600).
Proof.
  intros HQ Hh. unfold evaporation.evaporation_rate_kg_per_hr, evaporation.evaporation_rate.
  rewrite ltb_false by lra. unfold Cmp.eqb. destruct (Req_dec_T Q 0) as [-> | HQ0].
  - cbn [bind]. f_equal. lra.
  - rewrite leb_false by lra. reflexivity.
Qed.

Lemma flow_lb_hr_nonneg (Q h : R) : 0 <= Q -> 0 < h -> 0 <= Q / h * 3600.
Proof.
  intros HQ Hh.
  assert (0 <= Q / h) by (apply Rmult_le_pos; [lra | left; apply Rinv_0_lt_compat; lra]).
  lra.
Qed.

Lemma max_accumulation_value (MAWP accum : R) :
  0 < MAWP -> 0 <= accum <= 100 ->
  pressures.max_accumulation (PyNum MAWP) (PyNum accum) = Ok (MAWP * (accum / 100)).
Proof.
  intros HM [Ha0 Ha1]. unfold pressures.max_accumulation,
    pressures._validate_positive, pressures._validate_non_negative.
  rewrite leb_false by lra. cbn [bind]. rewrite ltb_false by lra. cbn [bind].
  unfold Cmp.gtb. rewrite ltb_false by lra. reflexivity.
Qed.

Lemma relieving_pressure_value (MAWP atm accum_psig : R) :
  0 < MAWP -> 0 < atm -> 0 <= accum_psig ->
  pressures.relieving_pressure (PyNum MAWP) (PyNum atm) (PyNum accum_psig)
  = Ok (MAWP + accum_psig + atm).
Proof.
  intros HM Ha Hacc. unfold pressures.relieving_pressure,
    pressures._validate_positive, pressures._validate_non_negative.
  rewrite !leb_false by lra. cbn [bind]. rewrite ltb_false by lra. reflexivity.
Qed.

Lemma is_critical_flow_value (P1 back atm k : R) :
  0 < P1 -> 0 <= back -> 0 < atm -> 1 < k ->
  prd.is_critical_flow (PyNum P1) (PyNum back) (PyNum atm) (PyNum k)
  = Ok (critical_ratio k * P1 >? back + atm).
Proof.
  intros HP Hb Ha Hk. unfold prd.is_critical_flow.
  rewrite critical_downstream_pressure_value by assumption.
  rewrite downstream_pressure_value by assumption. reflexivity.
Qed.

Lemma relieving_formula_pos (MAWP accum atm : R) :
  0 < MAWP -> 0 <= accum -> 0 < atm -> 0 < relieving_formula MAWP accum atm.
Proof. intros. unfold relieving_formula. nra. Qed.

(** The steps of [size_psv_for_fire] up to the required area, once the
    heat load is known. *)
Lemma size_psv_for_fire_steps
    (A h_fg k Z M T_C MAWP atm accum back Kd Kb Kc Ke Q : R)
    (standard : pytext) (P : pynum) (f : pyflag) :
  sizing_inputs_ok A h_fg k Z M T_C MAWP atm accum back Kd Kb Kc Ke ->
  fire_heat_load standard (PyNum A) P f = Returned Q ->
  size_psv_for_fire (PyNum A) standard P f
    (PyNum h_fg) (PyNum k) (PyNum Z) (PyNum M) (PyNum T_C) (PyNum MAWP) (PyNum atm)
    (PyNum accum) (PyNum back) (PyNum Kd) (PyNum Kb) (PyNum Kc) (PyNum Ke)
  = let P1 := relieving_formula MAWP accum atm in
    let crit := critical_ratio k * P1 >? back + atm in
    A_req <~
      (if crit then
         area.required_area_critical_gas
           (PyNum (flow_lb_hr Q h_fg)) (PyNum k) (PyNum (rankine T_C)) (PyNum Z) (PyNum M)
           (PyNum P1) (PyNum Kd) (PyNum Kb) (PyNum Kc)
       else
         area.required_area_subcritical_gas
           (PyNum (flow_lb_hr Q h_fg)) (PyNum k) (PyNum (rankine T_C)) (PyNum Z) (PyNum M)
           (PyNum P1) (PyNum (back + atm)) (PyNum Kd) (PyNum Ke)) ;;
    orifice <~ call (orifice.select_orifice (PyNum A_req)) ;;
    Returned {| Q_dot_W := Q;
                m_kg_hr := Q / h_fg * 3600;
                W_lb_hr := flow_lb_hr Q h_fg;
                P1_psia := P1;
                critical := crit;
                A_required_in2 := A_req;
                orifice_letter := orifice.letter orifice;
                orifice_area_in2 := orifice.area_in2 orifice;
                orifice_diameter_in := orifice.diameter_in orifice;
                inlet_size_in := orifice.inlet_size_in orifice |}.
Proof.
  intros [HA Hh Hk HZ HM HT HMAWP Hatm [Hacc0 Hacc1] Hback HKd HKb HKc HKe] HQ.
  pose proof (fire_heat_load_sign _ _ _ _ _ HQ) as HQ0.
  pose proof (flow_lb_hr_nonneg Q h_fg HQ0 Hh) as Hm.
  pose proof (relieving_formula_pos MAWP accum atm HMAWP ltac:(lra) Hatm) as HP1.
  assert (Hacc : 0 <= MAWP * (accum / 100)) by nra.
  unfold size_psv_for_fire.
  rewrite sizing_validate_non_negative_ok by exact HA. cbn [and_then].
  rewrite sizing_validate_positive_ok by exact Hh. cbn [and_then].
  rewrite sizing_validate_positive_ok by lra. cbn [and_then].
  rewrite leb_false by exact Hk.
  rewrite !sizing_validate_positive_ok by lra.
  rewrite sizing_validate_non_negative_ok by exact Hback. cbn [and_then].
  rewrite HQ. cbn [and_then].
  rewrite evaporation_rate_kg_per_hr_value by assumption. cbn [call and_then].
  unfold units.kg_hr_to_lb_hr, units.C_to_R, units._safe_float. cbn [and_then].
  rewrite ltb_false by exact Hm. cbn [and_then].
  rewrite ltb_false by exact HT. cbn [and_then].
  rewrite max_accumulation_value by lra. cbn [call and_then].
  rewrite relieving_pressure_value by assumption. cbn [call and_then].
  fold (relieving_formula MAWP accum atm).
  rewrite is_critical_flow_value by assumption. cbn [call and_then].
  rewrite downstream_pressure_value by assumption. cbn [call and_then].
  cbv zeta. fold (flow_lb_hr Q h_fg). fold (rankine T_C).
  destruct (critical_ratio k * relieving_formula MAWP accum atm >? back + atm);
    reflexivity.
Qed.

(** What [select_orifice] does on a non-negative area, in one statement. *)
Lemma select_orifice_cases (A : R) :
  0 <= A ->
  match orifice.select_orifice (PyNum A) with
  | Ok o => A <= 26 /\ A <= orifice.area_in2 o /\
            In (orifice.letter o, orifice.area_in2 o) orifice.API_ORIFICES
  | Raise e => 26 < A /\ e = NoOrificeLargeEnough A "T" 26
  end.
Proof.
  intros HA. unfold orifice.select_orifice. rewrite ltb_false by lra.
  unfold Cmp.eqb. destruct (Req_dec_T A 0) as [-> | HA0].
  - cbn. split; [lra |]. split; [lra | left; reflexivity].
  - rewrite sorted_API_ORIFICES.
    pose proof (scan_first_fit A orifice.API_ORIFICES API_ORIFICES_have_inlets) as Hscan.
    destruct (orifice.scan A orifice.API_ORIFICES) as [o | e].
    + destruct Hscan as (pre & post & Heq & Hpre & Hfit & _).
      assert (Hin : In (orifice.letter o, orifice.area_in2 o) orifice.API_ORIFICES)
        by (rewrite Heq; apply in_or_app; right; left; reflexivity).
      split; [| split; assumption].
      unfold orifice.API_ORIFICES in Hin. cbn [In] in Hin.
      repeat (destruct Hin as [Hin | Hin];
              [inversion Hin as [[Hl Ha]]; rewrite <- Ha in Hfit; lra |]).
      contradiction.
    + destruct Hscan as [Hall ->]. rewrite MAX_ORIFICE_AREA_value.
      split; [| reflexivity].
      rewrite Forall_forall in Hall.
      assert (Hin : In ("T"%string, 26.000) orifice.API_ORIFICES)
        by (unfold orifice.API_ORIFICES; cbn [In]; tauto).
      specialize (Hall _ Hin). cbn [snd] in Hall. lra.
Qed.

Lemma select_orifice_returned_inv (A : R) (o : orifice.selection) :
  orifice.select_orifice (PyNum A) = Ok o ->
  0 <= A <= orifice.area_in2 o /\
  In (orifice.letter o, orifice.area_in2 o) orifice.API_ORIFICES.
Proof.
  intros Ho.
  assert (HA : 0 <= A).
  { unfold orifice.select_orifice in Ho. unfold Cmp.ltb in Ho.
    destruct (Rlt_dec A 0); [discriminate Ho | lra]. }
  pose proof (select_orifice_cases A HA) as Hc. rewrite Ho in Hc.
  destruct Hc as (_ & Hfit & Hin). repeat split; assumption.
Qed.

Lemma size_psv_for_fire_zero_area_run
    (standard : string) (P : pynum) (f : pyflag)
    (h_fg k Z M T_C MAWP atm accum back Kd Kb Kc Ke : R) :
  In standard VALID_FIRE_STANDARDS ->
  sizing_inputs_ok 0 h_fg k Z M T_C MAWP atm accum back Kd Kb Kc Ke ->
  exists res,
    size_psv_for_fire (PyNum 0) (Text standard) P f
      (PyNum h_fg) (PyNum k) (PyNum Z) (PyNum M) (PyNum T_C) (PyNum MAWP) (PyNum atm)
      (PyNum accum) (PyNum back) (PyNum Kd) (PyNum Kb) (PyNum Kc) (PyNum Ke)
    = Returned res /\
    Q_dot_W res = 0 /\ m_kg_hr res = 0 /\ W_lb_hr res = 0 /\
    A_required_in2 res = 0 /\
    orifice_letter res = "D"%string /\ orifice_area_in2 res = 0.110 /\
    P1_psia res = MAWP + MAWP * (accum / 100) + atm.
Proof.
  intros Hstd Hok.
  pose proof (fire_heat_load_at_zero standard P f Hstd) as HQ.
  rewrite (size_psv_for_fire_steps _ _ _ _ _ _ _ _ _ _ _ _ _ _ 0 _ _ _ Hok HQ).
  cbv zeta.
  assert (HW : flow_lb_hr 0 h_fg = 0) by (unfold flow_lb_hr; lra).
  rewrite HW.
  destruct (required_area_zero_flow (PyNum k) (PyNum (rankine T_C)) (PyNum Z) (PyNum M)
              (PyNum (relieving_formula MAWP accum atm)) (PyNum Kd) (PyNum Kb) (PyNum Kc)
              (PyNum (back + atm)) (PyNum Ke)) as [Hc Hs].
  rewrite Hc, Hs.
  destruct (critical_ratio k * relieving_formula MAWP accum atm >? back + atm);
    cbn [and_then].
  all: unfold orifice.select_orifice; rewrite ltb_false by lra;
    rewrite eqb_true by reflexivity; cbn; eexists; split; [reflexivity |];
    cbn; repeat split; unfold relieving_formula; lra.
Qed.

(** X16: with a zero wetted area and otherwise admissible inputs the
    pipeline returns: heat load, mass flow and required area are 0 and the
    orifice is the smallest one, "D" with 0.110 in2.  The design pressure and
    the firefighting flag may be anything, and neither [k <= 2], [Z <= 2] nor
    factors up to 1 are asked for, since no area formula is evaluated. *)
Theorem size_psv_for_fire_zero_area
    (standard : string) (P : pynum) (f : pyflag)
    (h_fg k Z M T_C MAWP atm accum back Kd Kb Kc Ke : R) :
  In standard VALID_FIRE_STANDARDS ->
  sizing_inputs_ok 0 h_fg k Z M T_C MAWP atm accum back Kd Kb Kc Ke ->
  exists res,
    size_psv_for_fire (PyNum 0) (Text standard) P f
      (PyNum h_fg) (PyNum k) (PyNum Z) (PyNum M) (PyNum T_C) (PyNum MAWP) (PyNum atm)
      (PyNum accum) (PyNum back) (PyNum Kd) (PyNum Kb) (PyNum Kc) (PyNum Ke)
    = Returned res /\
    Q_dot_W res = 0 /\ m_kg_hr res = 0 /\ W_lb_hr res = 0 /\
    A_required_in2 res = 0 /\
    orifice_letter res = "D"%string /\ orifice_area_in2 res = 0.110 /\
    P1_psia res = MAWP + MAWP * (accum / 100) + atm.
Proof. intros Hstd Hok. apply size_psv_for_fire_zero_area_run; assumption. Qed.

Lemma sizing_inputs_example (A back : R) :
  0 <= A -> 0 <= back ->
  sizing_inputs_ok A 335000 1.4 0.9 44.1 25 250 14.7 10 back 0.975 1 1 1.
Proof. intros HA Hb. constructor; lra. Qed.

Lemma size_psv_for_fire_zero_area_witness :
  exists res,
    size_psv_for_fire (PyNum 0) (Text "API2000") PyNone FlagNone
      (PyNum 335000) (PyNum 1.4) (PyNum 0.9) (PyNum 44.1) (PyNum 25) (PyNum 250)
      (PyNum 14.7) (PyNum 10) (PyNum 0) (PyNum 0.975) (PyNum 1) (PyNum 1) (PyNum 1)
    = Returned res /\
    orifice_letter res = "D"%string /\
    P1_psia res = 250 + 250 * (10 / 100) + 14.7.
Proof.
  destruct (size_psv_for_fire_zero_area "API2000" PyNone FlagNone
              335000 1.4 0.9 44.1 25 250 14.7 10 0 0.975 1 1 1)
    as (res & Hres & _ & _ & _ & _ & HD & _ & HP1).
  { left; reflexivity. }
  { apply sizing_inputs_example; lra. }
  exists res. repeat split; assumption.
Defined.

Lemma and_then_returned {X Y : Type} (m : outcome X) (g : X -> outcome Y) (y : Y) :
  and_then m g = Returned y -> exists x, m = Returned x /\ g x = Returned y.
Proof. destruct m as [x | e]; cbn; [eauto | discriminate]. Qed.

Lemma ltb_false_inv (x y : R) : (x <? y) = false -> y <= x.
Proof. unfold Cmp.ltb. destruct (Rlt_dec x y); [discriminate | lra]. Qed.

Lemma leb_false_inv (x y : R) : (x <=? y) = false -> y < x.
Proof. unfold Cmp.leb. destruct (Rle_dec x y); [discriminate | lra]. Qed.

(** What a returning run of [size_psv_for_fire] says about its inputs. *)
Lemma size_psv_for_fire_returned_inputs
    (A h_fg k Z M T_C MAWP atm accum back Kd Kb Kc Ke : R)
    (standard : pytext) (P : pynum) (f : pyflag) (res : sizing_result) :
  size_psv_for_fire (PyNum A) standard P f
    (PyNum h_fg) (PyNum k) (PyNum Z) (PyNum M) (PyNum T_C) (PyNum MAWP) (PyNum atm)
    (PyNum accum) (PyNum back) (PyNum Kd) (PyNum Kb) (PyNum Kc) (PyNum Ke)
  = Returned res ->
  sizing_inputs_ok A h_fg k Z M T_C MAWP atm accum back Kd Kb Kc Ke /\
  exists Q, fire_heat_load standard (PyNum A) P f = Returned Q.
Proof.
  intros H.
  unfold size_psv_for_fire, _validate_positive, _validate_non_negative,
    pressures._validate_positive, pressures._validate_non_negative in H.
  destruct (A <? 0) eqn:EA; cbn [call and_then] in H; [discriminate H |].
  destruct (h_fg <=? 0) eqn:Eh; cbn [call and_then] in H; [discriminate H |].
  destruct (k <=? 0) eqn:Ek0; cbn [call and_then] in H; [discriminate H |].
  destruct (k <=? 1) eqn:Ek; [discriminate H |].
  destruct (Z <=? 0) eqn:EZ; cbn [call and_then] in H; [discriminate H |].
  destruct (M <=? 0) eqn:EM; cbn [call and_then] in H; [discriminate H |].
  destruct (MAWP <=? 0) eqn:EMAWP; cbn [call and_then] in H; [discriminate H |].
  destruct (atm <=? 0) eqn:Eatm; cbn [call and_then] in H; [discriminate H |].
  destruct (back <? 0) eqn:Eback; cbn [call and_then] in H; [discriminate H |].
  destruct (accum <=? 0) eqn:Eacc; cbn [call and_then] in H; [discriminate H |].
  destruct (Kd <=? 0) eqn:EKd; cbn [call and_then] in H; [discriminate H |].
  destruct (Kb <=? 0) eqn:EKb; cbn [call and_then] in H; [discriminate H |].
  destruct (Kc <=? 0) eqn:EKc; cbn [call and_then] in H; [discriminate H |].
  destruct (Ke <=? 0) eqn:EKe; cbn [call and_then] in H; [discriminate H |].
  apply ltb_false_inv in EA, Eback.
  apply leb_false_inv in Eh, Ek0, Ek, EZ, EM, EMAWP, Eatm, Eacc, EKd, EKb, EKc, EKe.
  destruct (fire_heat_load standard (PyNum A) P f) as [Q | e] eqn:HQ;
    cbn [and_then] in H; [| discriminate H].
  pose proof (fire_heat_load_sign _ _ _ _ _ HQ) as HQ0.
  rewrite evaporation_rate_kg_per_hr_value in H by assumption.
  cbn [call and_then] in H.
  unfold units.kg_hr_to_lb_hr, units.C_to_R, units._safe_float in H.
  cbn [and_then] in H.
  rewrite ltb_false in H by (apply flow_lb_hr_nonneg; assumption).
  cbn [and_then] in H.
  destruct (T_C <? -273.15) eqn:ET; cbn [and_then] in H; [discriminate H |].
  apply ltb_false_inv in ET.
  unfold pressures.max_accumulation, pressures._validate_positive,
    pressures._validate_non_negative in H.
  rewrite leb_false in H by lra. cbn [bind] in H.
  rewrite ltb_false in H by lra. cbn [bind] in H.
  unfold Cmp.gtb in H.
  destruct (100 <? accum) eqn:E100; cbn [call and_then] in H; [discriminate H |].
  apply ltb_false_inv in E100.
  split; [constructor; lra | exists Q; reflexivity].
Qed.

(** X17: whenever [size_psv_for_fire] returns, its inputs satisfied the
    entry checks (in particular [k > 1], accumulation in (0, 100] and a
    temperature not below -273.15 C), the reported heat load is the one of
    [fire_heat_load], the mass flow is [Q / h_fg * 3600] kg/h and 2.2046226218
    times that in lb/h, the relieving pressure is
    [MAWP + MAWP * accum / 100 + atm], the criticality flag compares
    [(2/(k+1))^(k/(k-1)) * P1] with [back + atm], and the selected orifice is
    a row of [API_ORIFICES] whose area is at least the required area, which
    is not negative. *)
Theorem size_psv_for_fire_returned
    (A h_fg k Z M T_C MAWP atm accum back Kd Kb Kc Ke : R)
    (standard : pytext) (P : pynum) (f : pyflag) (res : sizing_result) :
  size_psv_for_fire (PyNum A) standard P f
    (PyNum h_fg) (PyNum k) (PyNum Z) (PyNum M) (PyNum T_C) (PyNum MAWP) (PyNum atm)
    (PyNum accum) (PyNum back) (PyNum Kd) (PyNum Kb) (PyNum Kc) (PyNum Ke)
  = Returned res ->
  sizing_inputs_ok A h_fg k Z M T_C MAWP atm accum back Kd Kb Kc Ke /\
  fire_heat_load standard (PyNum A) P f = Returned (Q_dot_W res) /\
  m_kg_hr res = Q_dot_W res / h_fg * 3600 /\
  W_lb_hr res = m_kg_hr res * 2.2046226218 /\
  P1_psia res = MAWP + MAWP * (accum / 100) + atm /\
  critical res = (critical_ratio k * P1_psia res >? back + atm) /\
  0 <= A_required_in2 res <= orifice_area_in2 res /\
  In (orifice_letter res, orifice_area_in2 res) orifice.API_ORIFICES.
Proof.
  intros H.
  destruct (size_psv_for_fire_returned_inputs _ _ _ _ _ _ _ _ _ _ _ _ _ _ _ _ _ _ H)
    as [Hok [Q HQ]].
  rewrite (size_psv_for_fire_steps _ _ _ _ _ _ _ _ _ _ _ _ _ _ Q _ _ _ Hok HQ) in H.
  cbv zeta in H.
  apply and_then_returned in H. destruct H as (A_req & _ & H).
  apply and_then_returned in H. destruct H as (o & Ho & H).
  injection H as <-.
  destruct (orifice.select_orifice (PyNum A_req)) as [o' | e] eqn:Hsel;
    cbn [call] in Ho; [| discriminate Ho].
  injection Ho as ->.
  destruct (select_orifice_returned_inv A_req o Hsel) as [Hfit Hin].
  cbn. split; [exact Hok |].
  repeat split; try assumption; try reflexivity; apply Hfit.
Qed.

Lemma size_psv_for_fire_returned_witness :
  exists res,
    size_psv_for_fire (PyNum 0) (Text "API2000") PyNone FlagNone
      (PyNum 335000) (PyNum 1.4) (PyNum 0.9) (PyNum 44.1) (PyNum 25) (PyNum 250)
      (PyNum 14.7) (PyNum 10) (PyNum 0) (PyNum 0.975) (PyNum 1) (PyNum 1) (PyNum 1)
    = Returned res /\
    0 <= A_required_in2 res <= orifice_area_in2 res /\
    In (orifice_letter res, orifice_area_in2 res) orifice.API_ORIFICES.
Proof.
  destruct (size_psv_for_fire_zero_area_run "API2000" PyNone FlagNone
              335000 1.4 0.9 44.1 25 250 14.7 10 0 0.975 1 1 1)
    as (res & Hres & _).
  { left; reflexivity. }
  { apply sizing_inputs_example; lra. }
  exists res. split; [exact Hres |].
  destruct (size_psv_for_fire_returned _ _ _ _ _ _ _ _ _ _ _ _ _ _ _ _ _ res Hres)
    as (_ & _ & _ & _ & _ & _ & Hfit & Hin).
  split; assumption.
Defined.

Lemma flow_lb_hr_pos (Q h : R) : 0 < Q -> 0 < h -> 0 < flow_lb_hr Q h.
Proof.
  intros HQ Hh. unfold flow_lb_hr.
  assert (0 < Q / h) by (apply Rmult_lt_0_compat; [lra | apply Rinv_0_lt_compat; lra]).
  lra.
Qed.

(** X18: the entry check of [size_psv_for_fire] lets any [k > 1] through,
    but with a positive heat load the area formulas refuse [k > 2]: the
    pipeline then stops with the "unusually high" error, whichever branch
    the criticality test selects. *)
Theorem size_psv_for_fire_high_k
    (A h_fg k Z M T_C MAWP atm accum back Kd Kb Kc Ke Q : R)
    (standard : pytext) (P : pynum) (f : pyflag) :
  sizing_inputs_ok A h_fg k Z M T_C MAWP atm accum back Kd Kb Kc Ke ->
  fire_heat_load standard (PyNum A) P f = Returned Q ->
  0 < Q -> 2 < k ->
  size_psv_for_fire (PyNum A) standard P f
    (PyNum h_fg) (PyNum k) (PyNum Z) (PyNum M) (PyNum T_C) (PyNum MAWP) (PyNum atm)
    (PyNum accum) (PyNum back) (PyNum Kd) (PyNum Kb) (PyNum Kc) (PyNum Ke)
  = Raised (KUnusuallyHigh k).
Proof.
  intros Hok HQ HQpos Hk.
  rewrite (size_psv_for_fire_steps _ _ _ _ _ _ _ _ _ _ _ _ _ _ Q _ _ _ Hok HQ).
  cbv zeta.
  pose proof (flow_lb_hr_pos Q h_fg HQpos (si_h_fg _ _ _ _ _ _ _ _ _ _ _ _ _ _ Hok)) as HW.
  destruct (critical_ratio k * relieving_formula MAWP accum atm >? back + atm).
  - unfold area.required_area_critical_gas, area._validate_non_negative, area._validate_k.
    rewrite ltb_false by lra. cbn [and_then].
    rewrite eqb_false by lra. rewrite leb_false by lra.
    unfold Cmp.gtb. rewrite ltb_true by lra. reflexivity.
  - unfold area.required_area_subcritical_gas, area._validate_non_negative, area._validate_k.
    rewrite ltb_false by lra. cbn [and_then].
    rewrite eqb_false by lra. rewrite leb_false by lra.
    unfold Cmp.gtb. rewrite ltb_true by lra. reflexivity.
Qed.

Lemma fire_heat_load_example :
  fire_heat_load (Text "API2000") (PyNum 10) (PyNum 0.5) FlagNone = Returned (63150 * 10).
Proof.
  unfold fire_heat_load. cbn [str_in VALID_FIRE_STANDARDS existsb negb String.eqb Ascii.eqb
    Bool.eqb orb andb].
  unfold _validate_non_negative, pressures._validate_non_negative.
  rewrite ltb_false by lra. cbn [call and_then].
  unfold api2000.heat_load_api2000.
  rewrite ltb_false by lra. rewrite eqb_false by lra.
  unfold Cmp.gtb. rewrite ltb_false by lra. rewrite ltb_true by lra. reflexivity.
Qed.

Lemma sizing_inputs_example_k (k back : R) :
  1 < k -> 0 <= back ->
  sizing_inputs_ok 10 335000 k 0.9 44.1 25 250 14.7 10 back 0.975 1 1 1.
Proof. intros Hk Hb. constructor; lra. Qed.

Lemma size_psv_for_fire_high_k_witness :
  size_psv_for_fire (PyNum 10) (Text "API2000") (PyNum 0.5) FlagNone
    (PyNum 335000) (PyNum 2.5) (PyNum 0.9) (PyNum 44.1) (PyNum 25) (PyNum 250)
    (PyNum 14.7) (PyNum 10) (PyNum 0) (PyNum 0.975) (PyNum 1) (PyNum 1) (PyNum 1)
  = Raised (KUnusuallyHigh 2.5).
Proof.
  apply (size_psv_for_fire_high_k 10 335000 2.5 0.9 44.1 25 250 14.7 10 0 0.975 1 1 1
           (63150 * 10)).
  - apply sizing_inputs_example_k; lra.
  - exact fire_heat_load_example.
  - lra.
  - lra.
Defined.

Lemma critical_ratio_below_one (k : R) : 1 < k -> 0 < critical_ratio k < 1.
Proof.
  intros Hk. unfold critical_ratio. split; [apply Rpower_pos |].
  apply Rpower_below_one.
  - split.
    + apply Rmult_lt_0_compat; [lra | apply Rinv_0_lt_compat; lra].
    + apply Rmult_lt_reg_r with (k + 1); [lra |]. field_simplify; lra.
  - apply Rmult_lt_0_compat; [lra | apply Rinv_0_lt_compat; lra].
Qed.

(** X19: when the backpressure is not below the set pressure plus
    accumulation, [back >= MAWP + MAWP * accum / 100], a positive heat load
    never gets an orifice: the flow cannot be critical, since the critical
    ratio is below 1, and the subcritical formula rejects a downstream
    pressure that is not below the relieving pressure. *)
Theorem size_psv_for_fire_backpressure_too_high
    (A h_fg k Z M T_C MAWP atm accum back Kd Kb Kc Ke Q : R)
    (standard : pytext) (P : pynum) (f : pyflag) :
  sizing_inputs_ok A h_fg k Z M T_C MAWP atm accum back Kd Kb Kc Ke ->
  fire_heat_load standard (PyNum A) P f = Returned Q ->
  0 < Q -> k <= 2 -> Z <= 2 -> -273.15 < T_C ->
  MAWP + MAWP * (accum / 100) <= back ->
  size_psv_for_fire (PyNum A) standard P f
    (PyNum h_fg) (PyNum k) (PyNum Z) (PyNum M) (PyNum T_C) (PyNum MAWP) (PyNum atm)
    (PyNum accum) (PyNum back) (PyNum Kd) (PyNum Kb) (PyNum Kc) (PyNum Ke)
  = Raised (BackpressureNotBelowRelieving (back + atm) (MAWP + MAWP * (accum / 100) + atm)).
Proof.
  intros Hok HQ HQpos Hk2 HZ2 HT Hback.
  rewrite (size_psv_for_fire_steps _ _ _ _ _ _ _ _ _ _ _ _ _ _ Q _ _ _ Hok HQ).
  cbv zeta.
  destruct Hok as [HA Hh Hk HZ HM _ HMAWP Hatm [Hacc0 Hacc1] Hb HKd HKb HKc HKe].
  pose proof (flow_lb_hr_pos Q h_fg HQpos Hh) as HW.
  pose proof (relieving_formula_pos MAWP accum atm HMAWP ltac:(lra) Hatm) as HP1.
  pose proof (critical_ratio_below_one k Hk) as [Hr0 Hr1].
  assert (HP1b : relieving_formula MAWP accum atm <= back + atm)
    by (unfold relieving_formula; lra).
  unfold Cmp.gtb at 1. rewrite ltb_false by nra.
  unfold area.required_area_subcritical_gas, area._validate_non_negative.
  rewrite ltb_false by lra. cbn [and_then].
  rewrite eqb_false by lra.
  rewrite validate_k_ok by lra. cbn [and_then].
  unfold area._validate_positive.
  rewrite leb_false by (unfold rankine; lra). cbn [and_then].
  rewrite leb_false by lra. cbn [and_then].
  unfold Cmp.gtb. rewrite ltb_false by lra.
  rewrite leb_false by lra. cbn [and_then].
  rewrite leb_false by lra. cbn [and_then].
  rewrite leb_false by lra. cbn [and_then].
  unfold Cmp.geb. rewrite leb_true by lra.
  reflexivity.
Qed.

Lemma size_psv_for_fire_backpressure_too_high_witness :
  size_psv_for_fire (PyNum 10) (Text "API2000") (PyNum 0.5) FlagNone
    (PyNum 335000) (PyNum 1.4) (PyNum 0.9) (PyNum 44.1) (PyNum 25) (PyNum 250)
    (PyNum 14.7) (PyNum 10) (PyNum 300) (PyNum 0.975) (PyNum 1) (PyNum 1) (PyNum 1)
  = Raised (BackpressureNotBelowRelieving (300 + 14.7) (250 + 250 * (10 / 100) + 14.7)).
Proof.
  apply (size_psv_for_fire_backpressure_too_high
           10 335000 1.4 0.9 44.1 25 250 14.7 10 300 0.975 1 1 1 (63150 * 10)).
  - apply sizing_inputs_example_k; lra.
  - exact fire_heat_load_example.
  - lra.
  - lra.
  - lra.
  - lra.
  - lra.
Defined.

(** X20: on the critical path (positive heat load, [k <= 2], [Z <= 2],
    temperature above -273.15 C, factors up to 1, and
    [back + atm < (2/(k+1))^(k/(k-1)) * P1]) the pipeline sizes with
    [A = W * sqrt(T*Z/M) / (C(k) * Kd * P1 * Kb * Kc)]: it returns exactly
    when [A <= 26], with the flag [critical] set, [A] as the required area and
    an orifice at least that large, and otherwise raises the error that no
    standard orifice is large enough. *)
Theorem size_psv_for_fire_critical
    (A h_fg k Z M T_C MAWP atm accum back Kd Kb Kc Ke Q : R)
    (standard : pytext) (P : pynum) (f : pyflag) :
  sizing_inputs_ok A h_fg k Z M T_C MAWP atm accum back Kd Kb Kc Ke ->
  fire_heat_load standard (PyNum A) P f = Returned Q ->
  0 < Q -> k <= 2 -> Z <= 2 -> -273.15 < T_C ->
  Kd <= 1 -> Kb <= 1 -> Kc <= 1 ->
  back + atm < critical_ratio k * relieving_formula MAWP accum atm ->
  let run :=
    size_psv_for_fire (PyNum A) standard P f
      (PyNum h_fg) (PyNum k) (PyNum Z) (PyNum M) (PyNum T_C) (PyNum MAWP) (PyNum atm)
      (PyNum accum) (PyNum back) (PyNum Kd) (PyNum Kb) (PyNum Kc) (PyNum Ke) in
  let A_req :=
    flow_lb_hr Q h_fg * sqrt (rankine T_C * Z / M)
    / (C_formula k * Kd * relieving_formula MAWP accum atm * Kb * Kc) in
  0 < A_req /\
  (A_req <= 26 ->
   exists res, run = Returned res /\ critical res = true /\
               A_required_in2 res = A_req /\ A_req <= orifice_area_in2 res) /\
  (26 < A_req -> run = Raised (Earlier (NoOrificeLargeEnough A_req "T" 26))).
Proof.
  intros Hok HQ HQpos Hk2 HZ2 HT HKd1 HKb1 HKc1 Hcrit run A_req.
  unfold run.
  rewrite (size_psv_for_fire_steps _ _ _ _ _ _ _ _ _ _ _ _ _ _ Q _ _ _ Hok HQ).
  cbv zeta.
  destruct Hok as [HA Hh Hk HZ HM _ HMAWP Hatm [Hacc0 Hacc1] Hb HKd HKb HKc HKe].
  pose proof (flow_lb_hr_pos Q h_fg HQpos Hh) as HW.
  pose proof (relieving_formula_pos MAWP accum atm HMAWP ltac:(lra) Hatm) as HP1.
  assert (Hc : (critical_ratio k * relieving_formula MAWP accum atm >? back + atm) = true)
    by (unfold Cmp.gtb; apply ltb_true; exact Hcrit).
  rewrite Hc.
  assert (Hgas : gas_ok k (rankine T_C) Z M (relieving_formula MAWP accum atm)).
  { unfold gas_ok, rankine. repeat split; lra. }
  destruct (required_area_critical_gas_ok (flow_lb_hr Q h_fg) k (rankine T_C) Z M
              (relieving_formula MAWP accum atm) Kd Kb Kc HW Hgas
              (conj HKd HKd1) (conj HKb HKb1) (conj HKc HKc1)) as [Hreq Hden].
  rewrite Hreq. cbn [and_then]. fold A_req.
  assert (Hpos : 0 < A_req).
  { unfold A_req. apply Rmult_lt_0_compat.
    - apply Rmult_lt_0_compat; [exact HW |]. apply sqrt_ratio_pos; [| exact HM].
      apply Rmult_lt_0_compat; [unfold rankine; lra | exact HZ].
    - apply Rinv_0_lt_compat. exact Hden. }
  split; [exact Hpos |].
  pose proof (select_orifice_cases A_req ltac:(lra)) as Hsel.
  destruct (orifice.select_orifice (PyNum A_req)) as [o | e]; cbn [call and_then].
  - destruct Hsel as (Hle & Hfit & _). split.
    + intros _. eexists. split; [reflexivity |]. cbn. repeat split; try reflexivity.
      exact Hfit.
    + intros Hgt. lra.
  - destruct Hsel as [Hgt ->]. split.
    + intros Hle. lra.
    + intros _. reflexivity.
Qed.

Lemma C_formula_k14_lower : 260 < C_formula 1.4.
Proof.
  unfold C_formula.
  replace (2 / (1.4 + 1)) with (5 / 6) by lra.
  replace ((1.4 + 1) / (1.4 - 1)) with (INR 6) by (cbn [INR]; lra).
  rewrite Rpower_pow by lra.
  assert (H : 0.5 < sqrt (1.4 * (5 / 6) ^ 6)).
  { rewrite <- (sqrt_pow2 0.5) by lra. apply sqrt_lt_1_alt. lra. }
  lra.
Qed.

Lemma size_psv_for_fire_critical_witness :
  exists res,
    size_psv_for_fire (PyNum 10) (Text "API2000") (PyNum 0.5) FlagNone
      (PyNum 335000) (PyNum 1.4) (PyNum 0.9) (PyNum 44.1) (PyNum 25) (PyNum 250)
      (PyNum 14.7) (PyNum 10) (PyNum 0) (PyNum 0.975) (PyNum 1) (PyNum 1) (PyNum 1)
    = Returned res /\ critical res = true.
Proof.
  destruct (size_psv_for_fire_critical
              10 335000 1.4 0.9 44.1 25 250 14.7 10 0 0.975 1 1 1 (63150 * 10)
              (Text "API2000") (PyNum 0.5) FlagNone) as (Hpos & Hfits & _).
  - apply sizing_inputs_example_k; lra.
  - exact fire_heat_load_example.
  - lra.
  - lra.
  - lra.
  - lra.
  - lra.
  - lra.
  - lra.
  - pose proof critical_ratio_k14 as Hr. unfold critical_ratio, relieving_formula. lra.
  - destruct Hfits as (res & Hres & Hc & _).
    + pose proof C_formula_k14_lower as HC.
      assert (Hs : sqrt (rankine 25 * 0.9 / 44.1) < 4).
      { rewrite <- (sqrt_pow2 4) by lra. apply sqrt_lt_1_alt.
        unfold rankine. split; lra. }
      assert (Hs0 : 0 <= sqrt (rankine 25 * 0.9 / 44.1)) by apply sqrt_pos.
      assert (HW : 0 < flow_lb_hr (63150 * 10) 335000 < 15000)
        by (unfold flow_lb_hr; lra).
      assert (Hden : 73000 < C_formula 1.4 * 0.975 * relieving_formula 250 10 14.7 * 1 * 1)
        by (unfold relieving_formula; lra).
      apply Rmult_le_reg_r
        with (C_formula 1.4 * 0.975 * relieving_formula 250 10 14.7 * 1 * 1); [lra |].
      unfold Rdiv. rewrite Rmult_assoc, Rinv_l by lra. nra.
    + exists res. split; assumption.
Defined.

(** X21: a temperature of exactly -273.15 C passes the unit conversion,
    which turns it into 0 R, but with a positive heat load and [k <= 2] the
    area formula then rejects it: the pipeline raises the error that the
    temperature in Rankine, 0, is not positive. *)
Theorem size_psv_for_fire_absolute_zero
    (A h_fg k Z M MAWP atm accum back Kd Kb Kc Ke Q : R)
    (standard : pytext) (P : pynum) (f : pyflag) :
  sizing_inputs_ok A h_fg k Z M (-273.15) MAWP atm accum back Kd Kb Kc Ke ->
  fire_heat_load standard (PyNum A) P f = Returned Q ->
  0 < Q -> k <= 2 ->
  units.C_to_R (PyNum (-273.15)) = Returned 0 /\
  size_psv_for_fire (PyNum A) standard P f
    (PyNum h_fg) (PyNum k) (PyNum Z) (PyNum M) (PyNum (-273.15)) (PyNum MAWP) (PyNum atm)
    (PyNum accum) (PyNum back) (PyNum Kd) (PyNum Kb) (PyNum Kc) (PyNum Ke)
  = Raised (Earlier (NotPositive "Temperature (R)" 0)).
Proof.
  intros Hok HQ HQpos Hk2.
  assert (HT0 : rankine (-273.15) = 0) by (unfold rankine; lra).
  split.
  - unfold units.C_to_R, units._safe_float. cbn [and_then].
    rewrite ltb_false by lra. f_equal. lra.
  - rewrite (size_psv_for_fire_steps _ _ _ _ _ _ _ _ _ _ _ _ _ _ Q _ _ _ Hok HQ).
    cbv zeta. rewrite HT0.
    pose proof (flow_lb_hr_pos Q h_fg HQpos (si_h_fg _ _ _ _ _ _ _ _ _ _ _ _ _ _ Hok)) as HW.
    pose proof (si_k _ _ _ _ _ _ _ _ _ _ _ _ _ _ Hok) as Hk.
    destruct (critical_ratio k * relieving_formula MAWP accum atm >? back + atm).
    + unfold area.required_area_critical_gas, area._validate_non_negative.
      rewrite ltb_false by lra. cbn [and_then].
      rewrite eqb_false by lra. rewrite validate_k_ok by lra. cbn [and_then].
      unfold area._validate_positive. rewrite leb_true by lra. reflexivity.
    + unfold area.required_area_subcritical_gas, area._validate_non_negative.
      rewrite ltb_false by lra. cbn [and_then].
      rewrite eqb_false by lra. rewrite validate_k_ok by lra. cbn [and_then].
      unfold area._validate_positive. rewrite leb_true by lra. reflexivity.
Qed.

Lemma sizing_inputs_example_cold :
  sizing_inputs_ok 10 335000 1.4 0.9 44.1 (-273.15) 250 14.7 10 0 0.975 1 1 1.
Proof. constructor; lra. Qed.

Lemma size_psv_for_fire_absolute_zero_witness :
  size_psv_for_fire (PyNum 10) (Text "API2000") (PyNum 0.5) FlagNone
    (PyNum 335000) (PyNum 1.4) (PyNum 0.9) (PyNum 44.1) (PyNum (-273.15)) (PyNum 250)
    (PyNum 14.7) (PyNum 10) (PyNum 0) (PyNum 0.975) (PyNum 1) (PyNum 1) (PyNum 1)
  = Raised (Earlier (NotPositive "Temperature (R)" 0)).
Proof.
  apply (size_psv_for_fire_absolute_zero 10 335000 1.4 0.9 44.1 250 14.7 10 0 0.975 1 1 1
           (63150 * 10) (Text "API2000") (PyNum 0.5) FlagNone).
  - exact sizing_inputs_example_cold.
  - exact fire_heat_load_example.
  - lra.
  - lra.
Defined.

End SizingMore.

(** ** The validators of the request handler against the checks of the
    calculation modules *)
Section ValidationMore.
Import validation.

(** X22: the handler's check of the specific heat ratio,
    [safe_positive_float] followed by [validate_k_ratio], lets through exactly
    the values that [_validate_k] of flow/area.py returns; these are the
    ratios with [1 < k <= 2], and both hand the value back unchanged. *)
Theorem k_check_agrees_with_area (k v : R) (name : string) :
  (positive_then (PyNum k) name validate_k_ratio = Valid v
   <-> area._validate_k (PyNum k) = Returned v) /\
  (area._validate_k (PyNum k) = Returned v <-> v = k /\ 1 < k <= 2).
Proof.
  unfold positive_then, safe_positive_float, safe_float, validate_k_ratio, area._validate_k.
  cmp_unfold.
  destruct (Rle_dec k 0); destruct (Rle_dec k 1); destruct (Rlt_dec 2 k);
    try lra; (split; split; intros H; try discriminate H; try lra;
              try (inversion H; subst; first [reflexivity | split; [reflexivity | lra]]);
              try (destruct H as [-> _]; reflexivity)).
Qed.

(** X23: [safe_positive_float] followed by [validate_correction_factor]
    with lower bound 0 lets through exactly the factors that
    [_validate_factor] of flow/area.py returns.  On its own
    [validate_correction_factor] is wider: with [0 <= max_val] it accepts a
    factor of 0, which [_validate_factor] rejects as not positive. *)
Theorem factor_check_agrees_with_area (K v max_val min_val : R) (name name' : string) :
  (positive_then (PyNum K) name (fun K => validate_correction_factor K name 0 max_val)
   = Valid v
   <-> area._validate_factor (PyNum K) name' min_val max_val = Returned v) /\
  (0 <= max_val ->
   validate_correction_factor 0 name 0 max_val = Valid 0 /\
   area._validate_factor (PyNum 0) name' min_val max_val
   = Raised (Earlier (NotPositive name' 0))).
Proof.
  split.
  - unfold positive_then, safe_positive_float, safe_float, validate_correction_factor,
      area._validate_factor, area._validate_positive.
    cmp_unfold.
    destruct (Rle_dec K 0); cbn [and_then].
    + split; intros H; discriminate H.
    + destruct (Rlt_dec K 0); [lra |].
      destruct (Rlt_dec max_val K); cbn [orb];
        split; intros H; try discriminate H; inversion H; reflexivity.
  - intros Hmax. split.
    + unfold validate_correction_factor. rewrite ltb_false by lra.
      unfold Cmp.gtb. rewrite ltb_false by lra. reflexivity.
    + unfold area._validate_factor, area._validate_positive.
      rewrite leb_true by lra. reflexivity.
Qed.

Lemma build_head_returns_inv (head_type : string) (OD_m thickness_mm : R) :
  returns (vessel._build_head (Text head_type) (PyNum OD_m) (PyNum thickness_mm)) ->
  vessel_dimensions_ok OD_m thickness_mm.
Proof.
  unfold returns, vessel._build_head, vessel._validate_positive,
    vessel._validate_non_negative, vessel_dimensions_ok.
  cmp_unfold.
  destruct (Rle_dec OD_m 0); cbn [bind]; [intros [? H]; discriminate H |].
  destruct (Rlt_dec thickness_mm 0); cbn [bind]; [intros [? H]; discriminate H |].
  destruct (Rle_dec (OD_m / 2) (thickness_mm / 1000)); [intros [? H]; discriminate H |].
  intros _. lra.
Qed.

(** X24: for each of the three head types, [validate_vessel_dimensions]
    accepts outer diameter, wall thickness and tangent length exactly when
    [_build_head] of geometry/vessel.py builds a head from the first two and
    the tangent length is not negative; it then returns the three values
    unchanged. *)
Theorem validate_vessel_dimensions_agrees
    (head_type : string) (OD_m thickness_mm L_tangent_m : R) :
  In head_type vessel.valid_head_types ->
  (accepted (validate_vessel_dimensions OD_m thickness_mm L_tangent_m) <->
   returns (vessel._build_head (Text head_type) (PyNum OD_m) (PyNum thickness_mm)) /\
   0 <= L_tangent_m) /\
  (forall v, validate_vessel_dimensions OD_m thickness_mm L_tangent_m = Valid v ->
             v = (OD_m, thickness_mm, L_tangent_m)).
Proof.
  intros Hin. split.
  - split.
    + intros [v Hv]. unfold validate_vessel_dimensions in Hv. cmp_unfold.
      destruct (Rle_dec OD_m 0); [discriminate Hv |].
      destruct (Rlt_dec thickness_mm 0); [discriminate Hv |].
      destruct (Rle_dec (OD_m / 2) (thickness_mm / 1000)); [discriminate Hv |].
      destruct (Rlt_dec L_tangent_m 0); [discriminate Hv |].
      split; [| lra].
      destruct (build_head_ok head_type OD_m thickness_mm Hin) as (hd & Hhd & _).
      { unfold vessel_dimensions_ok. lra. }
      exists hd. exact Hhd.
    + intros [Hret HL]. apply build_head_returns_inv in Hret.
      destruct Hret as (HD & Ht & Htr).
      unfold accepted, validate_vessel_dimensions.
      rewrite leb_false by lra. rewrite ltb_false by lra.
      unfold Cmp.geb. rewrite leb_false by lra. rewrite ltb_false by lra.
      eexists. reflexivity.
  - intros v Hv. unfold validate_vessel_dimensions in Hv. cmp_unfold.
    destruct (Rle_dec OD_m 0); [discriminate Hv |].
    destruct (Rlt_dec thickness_mm 0); [discriminate Hv |].
    destruct (Rle_dec (OD_m / 2) (thickness_mm / 1000)); [discriminate Hv |].
    destruct (Rlt_dec L_tangent_m 0); [discriminate Hv |].
    inversion Hv. reflexivity.
Qed.

Lemma validate_vessel_dimensions_agrees_witness :
  accepted (validate_vessel_dimensions 2 10 3) /\
  returns (vessel._build_head (Text "Hemispherical") (PyNum 2) (PyNum 10)).
Proof.
  destruct (validate_vessel_dimensions_agrees "Hemispherical" 2 10 3) as [[Hto _] _].
  { unfold vessel.valid_head_types. cbn [In]. tauto. }
  assert (Hacc : accepted (validate_vessel_dimensions 2 10 3)).
  { unfold accepted, validate_vessel_dimensions.
    rewrite leb_false by lra. rewrite ltb_false by lra.
    unfold Cmp.geb. rewrite leb_false by lra. rewrite ltb_false by lra.
    eexists. reflexivity. }
  split; [exact Hacc | apply Hto; exact Hacc].
Defined.

End ValidationMore.

(** ** The geometry that [select_orifice] reports *)
Section OrificeMore.
Import orifice.

Lemma select_orifice_fields (A : R) (o : selection) :
  select_orifice (PyNum A) = Ok o ->
  In (letter o, area_in2 o) API_ORIFICES /\
  diameter_in o = get_orifice_diameter (area_in2 o) /\
  getitem API_INLET_SIZES (letter o) = Ok (inlet_size_in o).
Proof.
  unfold select_orifice. unfold Cmp.ltb, Cmp.eqb.
  destruct (Rlt_dec A 0); [intros H; discriminate H |].
  destruct (Req_dec_T A 0).
  - cbn. intros H. injection H as <-. cbn.
    split; [left; reflexivity | split; reflexivity].
  - rewrite sorted_API_ORIFICES. intros H.
    pose proof (scan_first_fit A API_ORIFICES API_ORIFICES_have_inlets) as Hscan.
    rewrite H in Hscan.
    destruct Hscan as (pre & post & Heq & _ & _ & Hd & Hinlet).
    split; [| split; assumption].
    rewrite Heq. apply in_or_app. right. left. reflexivity.
Qed.

Lemma orifice_circle (a : R) :
  0 <= a -> PI * (get_orifice_diameter a / 2 * (get_orifice_diameter a / 2)) = a.
Proof.
  intros Ha. unfold get_orifice_diameter.
  replace (2 * sqrt (a / PI) / 2) with (sqrt (a / PI)) by lra.
  rewrite sqrt_sqrt.
  - field. apply Rgt_not_eq. exact PI_RGT_0.
  - apply Rmult_le_pos; [exact Ha | left; apply Rinv_0_lt_compat; exact PI_RGT_0].
Qed.

Lemma PI_above_3 : 3 < PI.
Proof. pose proof PI2_3_2. lra. Qed.

Lemma orifice_diameter_below (a inlet : R) :
  0 < a -> 0 < inlet -> 4 * a < 3 * (inlet * inlet) ->
  0 < get_orifice_diameter a < inlet.
Proof.
  intros Ha Hi Hlt. unfold get_orifice_diameter.
  pose proof PI_above_3 as Hpi.
  assert (Hq : 0 < a / PI).
  { apply Rmult_lt_0_compat; [exact Ha | apply Rinv_0_lt_compat; lra]. }
  assert (Hb : a / PI < inlet / 2 * (inlet / 2)).
  { apply Rmult_lt_reg_r with PI; [lra |].
    unfold Rdiv at 1. rewrite Rmult_assoc, Rinv_l by lra. nra. }
  assert (Hs : sqrt (a / PI) < inlet / 2).
  { rewrite <- (sqrt_square (inlet / 2)) by lra.
    apply sqrt_lt_1_alt. lra. }
  pose proof (sqrt_lt_R0 (a / PI) Hq). lra.
Qed.

(** X25: every orifice that [select_orifice] returns is a row of
    [API_ORIFICES] with the inlet size that [API_INLET_SIZES] lists for its
    letter; its reported diameter is the diameter of the circle of its area,
    [pi * (d/2)^2 = area] in exact arithmetic, and that bore is smaller than
    the inlet: [0 < d < inlet]. *)
Theorem select_orifice_geometry (A : R) (o : selection) :
  select_orifice (PyNum A) = Ok o ->
  In (letter o, area_in2 o) API_ORIFICES /\
  getitem API_INLET_SIZES (letter o) = Ok (inlet_size_in o) /\
  PI * (diameter_in o / 2 * (diameter_in o / 2)) = area_in2 o /\
  0 < diameter_in o < inlet_size_in o.
Proof.
  intros H. destruct (select_orifice_fields A o H) as (Hin & Hd & Hinlet).
  split; [exact Hin |]. split; [exact Hinlet |].
  rewrite Hd.
  unfold API_ORIFICES in Hin. cbn [In] in Hin.
  repeat (destruct Hin as [Hin | Hin];
          [inversion Hin as [[Hl Ha]]; rewrite <- Hl in Hinlet; cbn in Hinlet;
           injection Hinlet as <-;
           split; [apply orifice_circle; lra | apply orifice_diameter_below; lra] |]).
  contradiction.
Qed.

Lemma select_orifice_geometry_witness :
  exists o, select_orifice (PyNum 0) = Ok o /\
            letter o = "D"%string /\ 0 < diameter_in o < inlet_size_in o.
Proof.
  assert (H : select_orifice (PyNum 0)
              = Ok {| letter := "D"; area_in2 := 0.110;
                      diameter_in := get_orifice_diameter 0.110;
                      inlet_size_in := 1.0 |}).
  { unfold select_orifice. rewrite ltb_false by lra. rewrite eqb_true by reflexivity.
    reflexivity. }
  eexists. split; [exact H |]. split; [reflexivity |].
  destruct (select_orifice_geometry 0 _ H) as (_ & _ & _ & Hd). exact Hd.
Defined.

End OrificeMore.
